(** * mufetch: a shallow embedding of the program

    The development follows the layout of the Python sources:
    - [Py]: the handful of Python built-ins the program relies on
      (exceptions and [except Exception], [str(int)], [len], list
      indexing, [' ' * n]); [Datetime]: the parts of [datetime] it uses;
    - [Colors], [ImageRenderer], [DisplayFormatter], [FormatNumber],
      [DisplayPanels]: [src/display.py];
    - [Json], [SpotifyClient], [SpotifyRequests], [Parsers] and the
      dataclasses: [src/spotify_client.py];
    - [SearchCommand], [SearchHandler]: [src/commands/search.py];
    - [Config]: [src/config.py]; [AuthCommand]: [src/commands/auth.py];
    - [Main]: [mufetch.py].

    Python [int] is [Z]; a [str] is held as the [string] of the bytes
    of its UTF-8 encoding, and what Python does character by character
    ([len], [strip], the digits of a date) is done here on the encoded
    characters; a Python list is a Rocq [list].  What is outside the
    program (the network, the disk, the terminal, the keyboard) answers
    each call by returning or by raising; a handler written
    [except Exception] catches what is an [Exception] and lets the rest
    (a keyboard interrupt) through. *)

From Stdlib Require Import ZArith List String Ascii Bool Lia.
From Stdlib Require Import DecimalString.
Import ListNotations.

Local Open Scope string_scope.
Local Open Scope Z_scope.

(* ================================================================= *)
(** ** Python built-ins *)

Module Py.

(** An exception that was raised: its class name and [str(e)]. *)
Record exn : Type := Exn { exn_class : string; exn_str : string }.

(** [isinstance(e, Exception)]: of the built-in classes, all but the
    ones that derive from [BaseException] directly. *)
Definition is_exception (e : exn) : bool :=
  negb (existsb (String.eqb (exn_class e))
          ["KeyboardInterrupt"; "SystemExit"; "GeneratorExit"; "BaseException"]).

(** The result of running a statement or an expression: it returns a
    value or raises. *)
Inductive outcome (A : Type) : Type :=
| Returned (a : A)
| Raised (e : exn).
Arguments Returned {A} a.
Arguments Raised {A} e.

Definition bind {A B : Type} (m : outcome A) (k : A -> outcome B) : outcome B :=
  match m with
  | Returned a => k a
  | Raised e => Raised e
  end.

(** [try: m  except Exception: h]: what is not an [Exception]
    propagates. *)
Definition try_except {A : Type} (m : outcome A) (h : exn -> outcome A) : outcome A :=
  match m with
  | Returned a => Returned a
  | Raised e => if is_exception e then h e else Raised e
  end.

(** [try: m  except cls: h]: other classes propagate. *)
Definition try_except_class {A : Type} (cls : string) (m : outcome A)
  (h : exn -> outcome A) : outcome A :=
  match m with
  | Returned a => Returned a
  | Raised e => if String.eqb (exn_class e) cls then h e else Raised e
  end.

(** [str(n)] for an [int]. *)
Definition str (n : Z) : string := NilZero.string_of_int (Z.to_int n).

(** [f"{n:02d}"]: zero-filled to a width of two, the sign included. *)
Definition fmt_02d (n : Z) : string :=
  let s := str n in
  if Nat.ltb (String.length s) 2 then "0" ++ s else s.

(** A byte [10xxxxxx] continues an encoded character. *)
Definition is_continuation (c : ascii) : bool :=
  (Nat.leb 128 (nat_of_ascii c) && Nat.ltb (nat_of_ascii c) 192)%bool.

(** The number of characters of a [str]: the bytes that start one. *)
Fixpoint characters (s : string) : nat :=
  match s with
  | EmptyString => O
  | String c r => if is_continuation c then characters r else S (characters r)
  end.

(** [len(s)] and [len(l)]. *)
Definition len_str (s : string) : Z := Z.of_nat (characters s).
Definition len {A : Type} (l : list A) : Z := Z.of_nat (List.length l).

(** [c * n] for a one-character string: empty when [n <= 0]. *)
Fixpoint repeat_char (c : ascii) (n : nat) : string :=
  match n with
  | O => EmptyString
  | S k => String c (repeat_char c k)
  end.
Definition spaces (n : Z) : string := repeat_char " "%char (Z.to_nat n).

(** [l[i]]: a negative index counts from the end, an index outside
    [-len(l) .. len(l) - 1] raises [IndexError]. *)
Definition IndexError : exn := Exn "IndexError" "list index out of range".
Definition getitem {A : Type} (l : list A) (i : Z) : outcome A :=
  let j := if i <? 0 then i + len l else i in
  if j <? 0 then Raised IndexError
  else match nth_error l (Z.to_nat j) with
       | Some a => Returned a
       | None => Raised IndexError
       end.

(** [range(a, b)] *)
Definition range (a b : Z) : list Z :=
  map (fun k => a + Z.of_nat k) (seq 0 (Z.to_nat (b - a))).

(** Truth value of a string: [not s] is [true] exactly on [""]. *)
Definition truthy_str (s : string) : bool :=
  match s with EmptyString => false | _ => true end.

Definition truthy_list {A : Type} (l : list A) : bool :=
  match l with [] => false | _ => true end.

End Py.

(* ================================================================= *)
(** ** [class Colors] *)

Module Colors.
Definition ESC : string := String "027"%char EmptyString.
Definition RESET : string := ESC ++ "[0m".
Definition RED : string := ESC ++ "[31m".
Definition GREEN : string := ESC ++ "[32m".
Definition YELLOW : string := ESC ++ "[33m".
Definition BLUE : string := ESC ++ "[34m".
Definition PURPLE : string := ESC ++ "[35m".
Definition CYAN : string := ESC ++ "[36m".
Definition WHITE : string := ESC ++ "[37m".
Definition BOLD : string := ESC ++ "[1m".
End Colors.

(* ================================================================= *)
(** ** The pieces of Python's [datetime] the formatter calls

    [datetime.strptime] for the two formats of the program, following
    CPython's [_strptime]: the format is turned into a regular
    expression, [re.match] finds the first match in backtracking order,
    text left over after the match is an error, and the captured fields
    must form a valid date.  [\d] matches a decimal digit of any script,
    and [int] reads them. *)

Module Datetime.
Import Py.

Definition ValueError (msg : string) : exn := Exn "ValueError" msg.
Definition OverflowError (msg : string) : exn := Exn "OverflowError" msg.

(** *** Characters *)

Definition byte (c : ascii) : Z := Z.of_nat (nat_of_ascii c).

(** The first character of a [str] and what follows it: one byte below
    128, or a leading byte with one, two or three continuation bytes. *)
Definition decode (s : string) : option (Z * string) :=
  match s with
  | EmptyString => None
  | String b0 r =>
      if byte b0 <? 128 then Some (byte b0, r)
      else if byte b0 <? 192 then None
      else
        match r with
        | EmptyString => None
        | String b1 r1 =>
            if negb (is_continuation b1) then None
            else if byte b0 <? 224
            then Some ((byte b0 - 192) * 64 + (byte b1 - 128), r1)
            else
              match r1 with
              | EmptyString => None
              | String b2 r2 =>
                  if negb (is_continuation b2) then None
                  else if byte b0 <? 240
                  then Some ((byte b0 - 224) * 4096 + (byte b1 - 128) * 64
                             + (byte b2 - 128), r2)
                  else
                    match r2 with
                    | EmptyString => None
                    | String b3 r3 =>
                        if (negb (is_continuation b3) || (247 <? byte b0))%bool
                        then None
                        else Some ((byte b0 - 240) * 262144 + (byte b1 - 128) * 4096
                                   + (byte b2 - 128) * 64 + (byte b3 - 128), r3)
                    end
              end
        end
  end.

Section Unicode.
(** [unicodedata.decimal] beyond ASCII: the value of a character that
    is a decimal digit in the Unicode database of the running Python,
    which grows from version to version. *)
Variable decimal : Z -> option Z.

(** The decimal value of a character, if it is a decimal digit. *)
Definition digit_of (c : Z) : option Z :=
  if c <? 128
  then (if ((48 <=? c) && (c <=? 57))%bool then Some (c - 48) else None)
  else match decimal c with
       | Some v => if ((0 <=? v) && (v <=? 9))%bool then Some v else None
       | None => None
       end.

(** *** A backtracking matcher for the expressions [_strptime] builds *)

Inductive re : Type :=
| Chr (c : ascii)          (* a literal character *)
| Rng (lo hi : ascii)      (* [lo-hi] *)
| Dig                      (* \d *)
| Cat (r1 r2 : re)         (* r1 r2 *)
| Alt (r1 r2 : re)         (* r1|r2, left first *)
| Grp (r : re).            (* (?P<name>r) *)

Definition in_range (lo hi c : ascii) : bool :=
  (Nat.leb (nat_of_ascii lo) (nat_of_ascii c)
   && Nat.leb (nat_of_ascii c) (nat_of_ascii hi))%bool.

(** The text that was consumed between [s] and its suffix [rest]. *)
Definition consumed (s rest : string) : string :=
  substring 0 (String.length s - String.length rest) s.

(** [rmatch r s caps k]: match [r] at the start of [s], then continue
    with [k] on the rest; [caps] are the groups captured so far. *)
Fixpoint rmatch {A : Type} (r : re) (s : string) (caps : list string)
  (k : string -> list string -> option A) : option A :=
  match r with
  | Chr c =>
      match s with
      | String c' s' => if Ascii.eqb c c' then k s' caps else None
      | EmptyString => None
      end
  | Rng lo hi =>
      match s with
      | String c' s' => if in_range lo hi c' then k s' caps else None
      | EmptyString => None
      end
  | Dig =>
      match decode s with
      | Some (c, s') =>
          match digit_of c with
          | Some _ => k s' caps
          | None => None
          end
      | None => None
      end
  | Cat r1 r2 => rmatch r1 s caps (fun s' caps' => rmatch r2 s' caps' k)
  | Alt r1 r2 =>
      match rmatch r1 s caps k with
      | Some x => Some x
      | None => rmatch r2 s caps k
      end
  | Grp r1 =>
      rmatch r1 s caps (fun s' caps' => k s' (caps' ++ [consumed s s'])%list)
  end.

(** [re.match]: the groups and the unconsumed rest of the first match. *)
Definition re_match (r : re) (s : string) : option (list string * string) :=
  rmatch r s [] (fun rest caps => Some (caps, rest)).

Definition digit : re := Dig.

(** ['Y': r"(?P<Y>\d\d\d\d)"] *)
Definition re_Y : re := Grp (Cat digit (Cat digit (Cat digit digit))).

(** ['m': r"(?P<m>1[0-2]|0[1-9]|[1-9])"] *)
Definition re_m : re :=
  Grp (Alt (Cat (Chr "1") (Rng "0" "2"))
      (Alt (Cat (Chr "0") (Rng "1" "9"))
           (Rng "1" "9"))).

(** ['d': r"(?P<d>3[0-1]|[1-2]\d|0[1-9]|[1-9]| [1-9])"] *)
Definition re_d : re :=
  Grp (Alt (Cat (Chr "3") (Rng "0" "1"))
      (Alt (Cat (Rng "1" "2") digit)
      (Alt (Cat (Chr "0") (Rng "1" "9"))
      (Alt (Rng "1" "9")
           (Cat (Chr " ") (Rng "1" "9")))))).

(** The expression of ["%Y-%m-%d"] and of ["%Y"]. *)
Definition re_Ymd : re := Cat re_Y (Cat (Chr "-") (Cat re_m (Cat (Chr "-") re_d))).

(** [int(s)] on a captured field: the blank a day may start with is
    skipped, every other character is a decimal digit. *)
Definition digit_val (c : Z) : Z :=
  match digit_of c with
  | Some v => v
  | None => 0
  end.

Fixpoint int_acc (fuel : nat) (s : string) (acc : Z) : Z :=
  match fuel with
  | O => acc
  | S fuel =>
      match s with
      | EmptyString => acc
      | String c r =>
          if Ascii.eqb c " " then int_acc fuel r acc
          else match decode s with
               | Some (d, rest) => int_acc fuel rest (10 * acc + digit_val d)
               | None => acc
               end
      end
  end.
Definition int (s : string) : Z := int_acc (String.length s) s 0.

(** *** Dates *)

Definition is_leap (year : Z) : bool :=
  ((year mod 4 =? 0) && (negb (year mod 100 =? 0) || (year mod 400 =? 0)))%bool.

Definition days_in_month (year month : Z) : Z :=
  if month =? 2 then (if is_leap year then 29 else 28)
  else if ((month =? 4) || (month =? 6) || (month =? 9) || (month =? 11))%bool
       then 30 else 31.

Record date : Type := Date { year : Z; month : Z; day : Z }.

(** The constructor's range checks ([MINYEAR = 1], [MAXYEAR = 9999]). *)
Definition make_date (y m d : Z) : outcome date :=
  if negb ((1 <=? y) && (y <=? 9999))%bool
  then Raised (ValueError ("year " ++ str y ++ " is out of range"))
  else if negb ((1 <=? m) && (m <=? 12))%bool
  then Raised (ValueError "month must be in 1..12")
  else if negb ((1 <=? d) && (d <=? days_in_month y m))%bool
  then Raised (ValueError "day is out of range for month")
  else Returned (Date y m d).

Definition no_match (data fmt : string) : exn :=
  ValueError ("time data '" ++ data ++ "' does not match format '" ++ fmt ++ "'").
Definition unconverted (rest : string) : exn :=
  ValueError ("unconverted data remains: " ++ rest).

(** [datetime.strptime(data, "%Y-%m-%d")] *)
Definition strptime_Ymd (data : string) : outcome date :=
  match re_match re_Ymd data with
  | Some ([Y; m; d], rest) =>
      if truthy_str rest then Raised (unconverted rest)
      else make_date (int Y) (int m) (int d)
  | _ => Raised (no_match data "%Y-%m-%d")
  end.

(** [datetime.strptime(data, "%Y")]: month and day default to 1. *)
Definition strptime_Y (data : string) : outcome date :=
  match re_match re_Y data with
  | Some ([Y], rest) =>
      if truthy_str rest then Raised (unconverted rest)
      else make_date (int Y) 1 1
  | _ => Raised (no_match data "%Y")
  end.

End Unicode.

(** The decimal digits beyond ASCII of Unicode 14.0, the database of
    CPython 3.11: 65 runs of ten, each given by its zero. *)
Definition decimal_zeros : list Z :=
  [ 1632; 1776; 1984; 2406; 2534; 2662; 2790; 2918; 3046; 3174; 3302; 3430; 3558;
    3664; 3792; 3872; 4160; 4240; 6112; 6160; 6470; 6608; 6784; 6800; 6992; 7088;
    7232; 7248; 42528; 43216; 43264; 43472; 43504; 43600; 44016; 65296; 66720;
    68912; 69734; 69872; 69942; 70096; 70384; 70736; 70864; 71248; 71360; 71472;
    71904; 72016; 72784; 73040; 73120; 92768; 92864; 93008; 120782; 120792;
    120802; 120812; 120822; 123200; 123632; 125264; 130032 ].

Definition decimal_unicode14 (c : Z) : option Z :=
  match find (fun zero => ((zero <=? c) && (c <=? zero + 9))%bool) decimal_zeros with
  | Some zero => Some (c - zero)
  | None => None
  end.

(** [date.strftime("%b")] in the C locale. *)
Definition strftime_b (d : date) : string :=
  nth (Z.to_nat (month d - 1))
    ["Jan"; "Feb"; "Mar"; "Apr"; "May"; "Jun";
     "Jul"; "Aug"; "Sep"; "Oct"; "Nov"; "Dec"] "".

(** [date.strftime("%Y")] is handed to the C library, and platforms
    differ on years below 1000: glibc prints the bare number, CPython
    from 3.13 on (and the BSD and Windows libraries) fill to four
    digits.  The formatter takes the rendering as a parameter; these
    are the two instances. *)
Definition strftime_Y_glibc (d : date) : string := str (year d).

Definition strftime_Y_padded (d : date) : string :=
  let s := str (year d) in
  repeat_char "0" (4 - String.length s) ++ s.

(** *** [timedelta] *)

Record timedelta : Type :=
  Timedelta { days : Z; seconds : Z; microseconds : Z }.

(** [timedelta(milliseconds=ms)] for an [int]: the value is normalised
    with floor [divmod]; more than 999999999 days overflow. *)
Definition timedelta_milliseconds (ms : Z) : outcome timedelta :=
  let us := ms * 1000 in
  let s := us / 1000000 in
  let d := s / 86400 in
  if 999999999 <? Z.abs d
  then Raised (OverflowError
                 ("days=" ++ str d ++ "; must have magnitude <= 999999999"))
  else Returned (Timedelta d (s mod 86400) (us mod 1000000)).

(** A finite binary64 number, [mant * 2 ^ expo] with [|mant| <= 2^53]. *)
Record float : Type := Float { mant : Z; expo : Z }.

(** [a / b] on [int]s with [b > 0]: the quotient correctly rounded to
    53 bits, ties to even (no overflow or underflow can occur at the
    magnitudes of a [timedelta]). *)
Definition scale (a b e : Z) : Z * Z :=
  if e <? 0 then (a * 2 ^ (- e), b) else (a, b * 2 ^ e).

Definition true_divide (a b : Z) : float :=
  if a =? 0 then Float 0 0 else
  let n := Z.abs a in
  let e0 := Z.log2 n - Z.log2 b - 53 in
  let (n0, d0) := scale n b e0 in
  let e := if n0 / d0 <? 2 ^ 53 then e0 else e0 + 1 in
  let (n1, d1) := scale n b e in
  let q := n1 / d1 in
  let r := n1 mod d1 in
  let m :=
    if 2 * r <? d1 then q
    else if d1 <? 2 * r then q + 1
    else if Z.even q then q else q + 1 in
  Float (Z.sgn a * m) e.

(** [timedelta.total_seconds()]: the microseconds divided by [10**6]. *)
Definition total_seconds (t : timedelta) : float :=
  true_divide ((days t * 86400 + seconds t) * 10 ^ 6 + microseconds t) (10 ^ 6).

(** [int(x)] on a float: truncation towards zero. *)
Definition int_of_float (x : float) : Z :=
  if 0 <=? expo x then mant x * 2 ^ expo x
  else Z.quot (mant x) (2 ^ (- expo x)).

End Datetime.

(* ================================================================= *)
(** ** [class ImageRenderer] *)

Module ImageRenderer.
Import Py.

(** What lies outside the program: the [chafa] subprocess, the
    network, the temporary file and the imaging library.  Each field
    is the answer to one call of the renderer; what a call raises may
    be an [Exception] or not (a keyboard interrupt). *)
Record World (Image : Type) : Type := {
  (* subprocess.run(['chafa', '--version'], capture_output=True, check=True) *)
  chafa_version : outcome unit;
  (* requests.get, raise_for_status and the write to a NamedTemporaryFile:
     the name of the file *)
  fetch_to_temp : string -> outcome string;
  (* subprocess.run(cmd, capture_output=True, text=True, check=True).stdout *)
  run : list string -> outcome string;
  (* os.unlink *)
  unlink : string -> outcome unit;
  (* requests.get, raise_for_status, Image.open *)
  fetch_image : string -> outcome Image;
  (* img.convert('RGB') *)
  convert_RGB : Image -> outcome Image;
  (* ImageOps.fit(img, (w, h), Image.Resampling.LANCZOS) *)
  fit : Image -> Z -> Z -> outcome Image;
  (* img.getpixel((x, y)) *)
  getpixel : Image -> Z -> Z -> outcome (Z * Z * Z)
}.
Arguments chafa_version {Image} w.
Arguments fetch_to_temp {Image} w _.
Arguments run {Image} w _.
Arguments unlink {Image} w _.
Arguments fetch_image {Image} w _.
Arguments convert_RGB {Image} w _.
Arguments fit {Image} w _ _ _.
Arguments getpixel {Image} w _ _ _.

Record ImageRenderer : Type := { width : Z; height : Z }.

(** [__init__(self, size = 20)] *)
Definition init (size : Z) : ImageRenderer := {| width := size; height := size |}.

(** *** [_get_placeholder_lines] *)

Definition boxed (body : string) : string :=
  " " ++ Colors.WHITE ++ body ++ Colors.RESET.

Definition placeholder_box : list string :=
  [ boxed "┌───────────────────────────────┐";
    boxed "│                               │";
    boxed "│                               │";
    boxed "│           NO IMAGE            │";
    boxed "│           AVAILABLE           │";
    boxed "│                               │";
    boxed "│                               │";
    boxed "└───────────────────────────────┘" ].

(** [while len(lines) < n: lines.append(blank)] *)
Definition pad_lines (lines : list string) (n : Z) (blank : string) : list string :=
  (lines ++ repeat blank (Z.to_nat (n - len lines)))%list.

Definition _get_placeholder_lines : list string :=
  pad_lines placeholder_box 20 (spaces 33).

(** *** String helpers of [_render_with_chafa] *)

(** [str.isspace] on one ASCII character: U+0009..U+000D and
    U+001C..U+0020. *)
Definition is_space (c : ascii) : bool :=
  let n := nat_of_ascii c in
  ((Nat.leb 9 n && Nat.leb n 13) || (Nat.leb 28 n && Nat.leb n 32))%bool.

(** The other characters [str.isspace] accepts, by the bytes of their
    encoding: U+0085 and U+00A0 in two bytes; U+1680, U+2000..U+200A,
    U+2028, U+2029, U+202F, U+205F and U+3000 in three. *)
Definition is_space2 (c d : ascii) : bool :=
  (Nat.eqb (nat_of_ascii c) 194
   && (Nat.eqb (nat_of_ascii d) 133 || Nat.eqb (nat_of_ascii d) 160))%bool.

Definition is_space3 (c d e : ascii) : bool :=
  let c := nat_of_ascii c in
  let d := nat_of_ascii d in
  let e := nat_of_ascii e in
  ((Nat.eqb c 225 && Nat.eqb d 154 && Nat.eqb e 128)
   || (Nat.eqb c 226 && Nat.eqb d 128
       && ((Nat.leb 128 e && Nat.leb e 138)
           || Nat.eqb e 168 || Nat.eqb e 169 || Nat.eqb e 175))
   || (Nat.eqb c 226 && Nat.eqb d 129 && Nat.eqb e 159)
   || (Nat.eqb c 227 && Nat.eqb d 128 && Nat.eqb e 128))%bool.

(** [s.lstrip()] *)
Fixpoint lstrip (s : string) : string :=
  match s with
  | EmptyString => EmptyString
  | String c r =>
      if is_space c then lstrip r
      else
        match r with
        | EmptyString => s
        | String d r1 =>
            if is_space2 c d then lstrip r1
            else
              match r1 with
              | EmptyString => s
              | String e r2 => if is_space3 c d e then lstrip r2 else s
              end
        end
  end.

Fixpoint reverse (s : string) : string :=
  match s with
  | EmptyString => EmptyString
  | String c r => reverse r ++ String c EmptyString
  end.

(** [lstrip] on the text read from its end: the bytes of a character
    come last byte first. *)
Fixpoint lstrip_reversed (s : string) : string :=
  match s with
  | EmptyString => EmptyString
  | String c r =>
      if is_space c then lstrip_reversed r
      else
        match r with
        | EmptyString => s
        | String d r1 =>
            if is_space2 d c then lstrip_reversed r1
            else
              match r1 with
              | EmptyString => s
              | String e r2 => if is_space3 e d c then lstrip_reversed r2 else s
              end
        end
  end.

(** [s.rstrip()] *)
Definition rstrip (s : string) : string := reverse (lstrip_reversed (reverse s)).

(** [s.strip()] *)
Definition strip (s : string) : string := rstrip (lstrip s).

(** [s.split('\n')] *)
Fixpoint split_lines (s : string) : list string :=
  match s with
  | EmptyString => [EmptyString]
  | String c r =>
      if Ascii.eqb c "010" then EmptyString :: split_lines r
      else match split_lines r with
           | l :: ls => String c l :: ls
           | [] => [String c EmptyString]
           end
  end.

(** [lines[:n]] *)
Definition slice_to {A : Type} (l : list A) (n : Z) : list A :=
  firstn (Z.to_nat (if n <? 0 then len l + n else n)) l.

Section Methods.
Context {Image : Type}.
Variable w : World Image.
Variable self : ImageRenderer.

(** [_is_chafa_available] *)
Definition _is_chafa_available : outcome bool :=
  match chafa_version w with
  | Returned _ => Returned true
  | Raised e =>
      if (String.eqb (exn_class e) "CalledProcessError"
          || String.eqb (exn_class e) "FileNotFoundError")%bool
      then Returned false
      else Raised e
  end.

(** [_download_to_temp]: [None] when an [Exception] is raised. *)
Definition _download_to_temp (image_url : string) : outcome (option string) :=
  try_except
    (bind (fetch_to_temp w image_url) (fun name => Returned (Some name)))
    (fun _ => Returned None).

(** [_render_with_chafa]: [None] when an [Exception] is raised. *)
Definition chafa_cmd (temp_file : string) : list string :=
  [ "chafa"; "--size"; str (width self * 2) ++ "x" ++ str (height self);
    "--dither"; "ordered"; temp_file ].

Definition _render_with_chafa (image_url : string) : outcome (option (list string)) :=
  try_except
    (bind (_download_to_temp image_url) (fun temp_file =>
     match temp_file with
     | None => Returned None
     | Some temp_file =>
         if negb (truthy_str temp_file) then Returned None else
         bind (run w (chafa_cmd temp_file)) (fun stdout =>
         bind (unlink w temp_file) (fun _ =>
         let lines := split_lines (strip stdout) in
         let lines := map (fun line => " " ++ line) lines in
         let lines :=
           pad_lines lines (height self) (spaces (width self * 2 + 1)) in
         let lines :=
           if height self <? len lines then slice_to lines (height self)
           else lines in
         Returned (Some lines)))
     end))
    (fun _ => Returned None).

(** [_download_image] *)
Definition _download_image (url : string) : outcome Image := fetch_image w url.

(** [_get_block_art_lines] *)
Definition block (rgb : Z * Z * Z) : string :=
  let '(r, g, b) := rgb in
  Colors.ESC ++ "[48;2;" ++ str r ++ ";" ++ str g ++ ";" ++ str b ++ "m  "
    ++ Colors.RESET.

Fixpoint block_line (img : Image) (y : Z) (xs : list Z) (line : string)
  : outcome string :=
  match xs with
  | [] => Returned line
  | x :: rest =>
      bind (getpixel w img x y) (fun rgb =>
      block_line img y rest (line ++ block rgb))
  end.

Fixpoint block_lines (img : Image) (ys : list Z) (lines : list string)
  : outcome (list string) :=
  match ys with
  | [] => Returned lines
  | y :: rest =>
      bind (block_line img y (range 0 (width self)) " ") (fun line =>
      block_lines img rest (lines ++ [line])%list)
  end.

Definition _get_block_art_lines (img : Image) : outcome (list string) :=
  bind (convert_RGB w img) (fun img =>
  bind (fit w img (width self) (height self)) (fun img =>
  block_lines img (range 0 (height self)) [])).

(** [render_image_lines] *)
Definition fallback (image_url : string) : outcome (list string) :=
  try_except
    (bind (_download_image image_url) _get_block_art_lines)
    (fun _ => Returned _get_placeholder_lines).

Definition render_image_lines (image_url : string) : outcome (list string) :=
  if negb (truthy_str image_url) then Returned _get_placeholder_lines else
  bind _is_chafa_available (fun available =>
  if available then
    bind (_render_with_chafa image_url) (fun lines =>
    match lines with
    | Some lines => if truthy_list lines then Returned lines
                    else fallback image_url
    | None => fallback image_url
    end)
  else fallback image_url).
End Methods.

End ImageRenderer.

(* ================================================================= *)
(** ** [class DisplayFormatter]: line formatting and compositing *)

Module DisplayFormatter.
Import Py.

(** [_create_clickable_link]: an OSC 8 terminal hyperlink. *)
Definition _create_clickable_link (url text : string) : string :=
  Colors.ESC ++ "]8;;" ++ url ++ Colors.ESC ++ "\" ++ text
    ++ Colors.ESC ++ "]8;;" ++ Colors.ESC ++ "\".

(** [_format_info_line] *)
Definition min_padding : Z := 2.
Definition max_label_width : Z := 12.

Definition info_padding (label : string) : Z :=
  let label_width := len_str label in
  let padding := max_label_width - label_width + min_padding in
  if padding <? min_padding then min_padding else padding.

Definition _format_info_line (label value color : string) : string :=
  Colors.BOLD ++ label ++ Colors.RESET ++ spaces (info_padding label)
    ++ color ++ value ++ Colors.RESET.

(** [_format_bool] *)
Definition _format_bool (b : bool) : string := if b then "Yes" else "No".

(** [_format_ordinal_date] *)
Definition ordinal_suffix (day : Z) : string :=
  if ((11 <=? day) && (day <=? 13))%bool then "th"
  else match day mod 10 with
       | 1 => "st"
       | 2 => "nd"
       | 3 => "rd"
       | _ => "th"
       end.

Section Platform.
(** The platform's decimal digits and its [date.strftime("%Y")]. *)
Variable decimal : Z -> option Z.
Variable strftime_Y : Datetime.date -> string.

Definition _format_ordinal_date (date_str : string) : outcome string :=
  if negb (truthy_str date_str) then Returned "N/A" else
  bind
    (try_except_class "ValueError"
       (bind (Datetime.strptime_Ymd decimal date_str) (fun date => Returned (inl date)))
       (fun _ =>
          try_except_class "ValueError"
            (bind (Datetime.strptime_Y decimal date_str) (fun date =>
             Returned (inr (strftime_Y date))))
            (fun _ => Returned (inr date_str))))
    (fun r =>
       match r with
       | inr early => Returned early
       | inl date =>
           let day := Datetime.day date in
           let month := Datetime.strftime_b date in
           let year := Datetime.year date in
           Returned (str day ++ ordinal_suffix day ++ " " ++ month
                       ++ " " ++ str year)
       end).
End Platform.

(** [_format_duration] *)
Definition _format_duration (duration : Datetime.timedelta) : string :=
  let total_seconds := Datetime.int_of_float (Datetime.total_seconds duration) in
  let minutes := total_seconds / 60 in
  let seconds := total_seconds mod 60 in
  str minutes ++ ":" ++ fmt_02d seconds.

(** *** [_display_side_by_side_with_links] *)

(** [link.lower()], on the ASCII letters (the only characters whose
    lower-case form can take part in an occurrence of ['spotify']). *)
Definition lower_char (c : ascii) : ascii :=
  let n := nat_of_ascii c in
  if (Nat.leb 65 n && Nat.leb n 90)%bool then ascii_of_nat (n + 32) else c.

Fixpoint lower (s : string) : string :=
  match s with
  | EmptyString => EmptyString
  | String c r => String (lower_char c) (lower r)
  end.

(** [sub in s] *)
Fixpoint contains (sub s : string) : bool :=
  if prefix sub s then true
  else match s with
       | EmptyString => false
       | String _ r => contains sub r
       end.

Definition is_spotify (link : string) : bool := contains "spotify" (lower link).

(** What the function has written with [print] when it stops, and
    whether it stopped by returning or by raising. *)
Definition printed : Type := (list string * outcome unit)%type.

(** A [for] loop whose body evaluates a row and prints it. *)
Fixpoint print_rows (rows : list (outcome string)) : printed :=
  match rows with
  | [] => ([], Returned tt)
  | Returned r :: rest =>
      let (out, res) := print_rows rest in (r :: out, res)
  | Raised e :: _ => ([], Raised e)
  end.

(** Sequencing of two printing blocks. *)
Definition then_print (p : printed) (q : printed) : printed :=
  match p with
  | (out, Returned _) => let (out', res) := q in ((out ++ out')%list, res)
  | (out, Raised e) => (out, Raised e)
  end.

Definition target_lines (image_lines info_lines : list string) : Z :=
  let max_lines := Z.max (len image_lines) (len info_lines) in
  max_lines - 2.

(** [while len(info_lines) < target_lines: info_lines.append("")] *)
Definition pad_info (info_lines : list string) (target : Z) : list string :=
  (info_lines ++ repeat "" (Z.to_nat (target - len info_lines)))%list.

(** [image_lines[i] if i < len(image_lines) else ' ' * 46] *)
Definition image_line_at (image_lines : list string) (i : Z) : outcome string :=
  if i <? len image_lines then getitem image_lines i else Returned (spaces 46).

(** [info_lines[i] if i < len(info_lines) else ""] *)
Definition info_line_at (info_lines : list string) (i : Z) : outcome string :=
  if i <? len info_lines then getitem info_lines i else Returned "".

Definition content_row (image_lines info_lines : list string) (i : Z)
  : outcome string :=
  bind (image_line_at image_lines i) (fun image_line =>
  bind (info_line_at info_lines i) (fun info_line =>
  Returned (image_line ++ "   " ++ info_line))).

(** The [for link in links] loop: the last link mentioning spotify and
    the last link not mentioning it. *)
Definition classify_links (links : list string) : string * string :=
  fold_left
    (fun (acc : string * string) link =>
       let (spotify_link, image_link) := acc in
       if is_spotify link then (link, image_link) else (spotify_link, link))
    links ("", "").

Definition link_line (links : list string) : string :=
  let (spotify_link0, image_link0) := classify_links links in
  let spotify_link :=
    if (negb (truthy_str spotify_link0) && truthy_list links)%bool
    then hd "" links else spotify_link0 in
  let image_link :=
    if (negb (truthy_str image_link0) && (1 <? len links))%bool
    then nth 1 links "" else image_link0 in
  if (truthy_str spotify_link && truthy_str image_link)%bool
  then spotify_link ++ "   " ++ image_link
  else if truthy_str spotify_link then spotify_link
  else image_link.

(** [for i in range(a, len(image_lines)): print(f"{image_lines[i]}   ")] *)
Definition remaining_image_rows (image_lines : list string) (a : Z) : printed :=
  print_rows
    (map (fun i => bind (getitem image_lines i)
                        (fun l => Returned (l ++ "   ")))
         (range a (len image_lines))).

Definition _display_side_by_side_with_links
  (image_lines info_lines links : list string) : printed :=
  let target := target_lines image_lines info_lines in
  let info_lines := pad_info info_lines target in
  then_print
    (print_rows (map (content_row image_lines info_lines) (range 0 target)))
    (if truthy_list links then
       then_print
         (print_rows
            [bind (image_line_at image_lines target) (fun image_line =>
             Returned (image_line ++ "   " ++ link_line links))])
         (remaining_image_rows image_lines (target + 1))
     else
       remaining_image_rows image_lines target).

End DisplayFormatter.

(* ================================================================= *)
(** ** Decoded JSON payloads *)

Module Json.
Import Py.

(** What [response.json()] yields; a [dict] keeps its items in order. *)
#[warnings="-register-all"] Inductive json : Type :=
| JNull
| JBool (b : bool)
| JNum (n : Z)
| JStr (s : string)
| JList (l : list json)
| JDict (d : list (string * json)).

Definition type_name (j : json) : string :=
  match j with
  | JNull => "NoneType"
  | JBool _ => "bool"
  | JNum _ => "int"
  | JStr _ => "str"
  | JList _ => "list"
  | JDict _ => "dict"
  end.

Fixpoint lookup (d : list (string * json)) (k : string) : option json :=
  match d with
  | [] => None
  | (k', v) :: rest => if String.eqb k' k then Some v else lookup rest k
  end.

(** Truth value of a payload in an [if]. *)
Definition truthy (j : json) : bool :=
  match j with
  | JNull => false
  | JBool b => b
  | JNum n => negb (n =? 0)
  | JStr s => truthy_str s
  | JList l => truthy_list l
  | JDict d => truthy_list d
  end.

(** [j.get(k, default)]: only a [dict] has the method. *)
Definition get (j : json) (k : string) (default : json) : outcome json :=
  match j with
  | JDict d =>
      match lookup d k with
      | Some v => Returned v
      | None => Returned default
      end
  | _ => Raised (Exn "AttributeError"
                   ("'" ++ type_name j ++ "' object has no attribute 'get'"))
  end.

(** [j[k]] for a string key. *)
Definition getitem_str (j : json) (k : string) : outcome json :=
  match j with
  | JDict d =>
      match lookup d k with
      | Some v => Returned v
      | None => Raised (Exn "KeyError" ("'" ++ k ++ "'"))
      end
  | JList _ =>
      Raised (Exn "TypeError" "list indices must be integers or slices, not str")
  | JStr _ =>
      Raised (Exn "TypeError" "string indices must be integers, not 'str'")
  | _ => Raised (Exn "TypeError"
                   ("'" ++ type_name j ++ "' object is not subscriptable"))
  end.

(** The bytes that continue the character begun before [s]. *)
Fixpoint continuation (s : string) : string :=
  match s with
  | EmptyString => EmptyString
  | String c r => if is_continuation c then String c (continuation r) else EmptyString
  end.

(** [j[0]]; of a string it is the first character. *)
Definition getitem_0 (j : json) : outcome json :=
  match j with
  | JList l => getitem l 0
  | JDict _ => Raised (Exn "KeyError" "0")
  | JStr (String c r) => Returned (JStr (String c (continuation r)))
  | JStr EmptyString => Raised (Exn "IndexError" "string index out of range")
  | _ => Raised (Exn "TypeError"
                   ("'" ++ type_name j ++ "' object is not subscriptable"))
  end.

End Json.

(* ================================================================= *)
(** ** [class SpotifyClient]: the token cache

    Clock readings and lifetimes are integers (a fixed tick); only their
    order and their sum matter to [_authenticate]. *)

Module SpotifyClient.
Import Py Json.

Record SpotifyClient : Type := {
  client_id : string;
  client_secret : string;
  access_token : json;          (* [None] until the first exchange *)
  token_expiry : Z;
  base_url : string;
  auth_url : string
}.

(** [__init__] *)
Definition init (client_id client_secret : string) : SpotifyClient :=
  {| client_id := client_id;
     client_secret := client_secret;
     access_token := JNull;
     token_expiry := 0;
     base_url := "https://api.spotify.com/v1";
     auth_url := "https://accounts.spotify.com/api/token" |}.

Definition set_access_token (self : SpotifyClient) (v : json) : SpotifyClient :=
  {| client_id := client_id self;
     client_secret := client_secret self;
     access_token := v;
     token_expiry := token_expiry self;
     base_url := base_url self;
     auth_url := auth_url self |}.

Definition set_token_expiry (self : SpotifyClient) (t : Z) : SpotifyClient :=
  {| client_id := client_id self;
     client_secret := client_secret self;
     access_token := access_token self;
     token_expiry := t;
     base_url := base_url self;
     auth_url := auth_url self |}.

(** A [requests.post] call and its response. *)
Record Request : Type := {
  url : string;
  headers : list (string * string);
  data : list (string * string);
  timeout : Z
}.

Record Response : Type := {
  status_code : Z;
  text : string;
  json_body : outcome json      (* response.json() *)
}.

(** The outside of the client: the clock at the two places it is
    read, the base64 encoder and the HTTP endpoint. *)
Record World : Type := {
  time_at_check : Z;            (* time.time() in the validity test *)
  time_at_store : Z;            (* time.time() when the expiry is set *)
  b64encode : string -> string;
  post : Request -> outcome Response
}.

(** [now + expires_in]: the lifetime has to be a number. *)
Definition add_seconds (now : Z) (v : json) : outcome Z :=
  match v with
  | JNum n => Returned (now + n)
  | JBool b => Returned (now + (if b then 1 else 0))
  | _ => Raised (Exn "TypeError"
                   ("unsupported operand type(s) for +: 'float' and '"
                      ++ type_name v ++ "'"))
  end.

Definition token_request (w : World) (self : SpotifyClient) : Request :=
  let credentials := client_id self ++ ":" ++ client_secret self in
  let encoded_credentials := b64encode w credentials in
  {| url := auth_url self;
     headers := [ ("Authorization", "Basic " ++ encoded_credentials);
                  ("Content-Type", "application/x-www-form-urlencoded") ];
     data := [ ("grant_type", "client_credentials") ];
     timeout := 30 |}.

Definition auth_failed (response : Response) : exn :=
  Exn "Exception"
    ("Authentication failed: " ++ str (status_code response) ++ " - "
       ++ text response).

(** The effect of a call: how it ended, the client afterwards, and the
    requests that were sent. *)
Record Effect : Type := {
  result : outcome unit;
  client : SpotifyClient;
  sent : list Request
}.

(** [_authenticate] *)
Definition _authenticate (w : World) (self : SpotifyClient) : Effect :=
  if time_at_check w <? token_expiry self then
    {| result := Returned tt; client := self; sent := [] |}
  else
    let request := token_request w self in
    match post w request with
    | Raised e => {| result := Raised e; client := self; sent := [request] |}
    | Returned response =>
        if negb (status_code response =? 200) then
          {| result := Raised (auth_failed response);
             client := self; sent := [request] |}
        else
          match json_body response with
          | Raised e =>
              {| result := Raised e; client := self; sent := [request] |}
          | Returned token_data =>
              match getitem_str token_data "access_token" with
              | Raised e =>
                  {| result := Raised e; client := self; sent := [request] |}
              | Returned token =>
                  let self := set_access_token self token in
                  match bind (getitem_str token_data "expires_in")
                             (add_seconds (time_at_store w)) with
                  | Raised e =>
                      {| result := Raised e; client := self; sent := [request] |}
                  | Returned expiry =>
                      {| result := Returned tt;
                         client := set_token_expiry self expiry;
                         sent := [request] |}
                  end
              end
          end
    end.

End SpotifyClient.

(* ================================================================= *)
(** ** [src/commands/search.py]: the search orchestrator

    [client] and [formatter] are the two objects [search_auto] and
    [search_specific] receive.  Their methods act on a world [W] (the
    network, the token cache, the terminal) the orchestrator never
    inspects.  What the orchestrator itself does is recorded in a
    journal: every search with its answer, every other method it calls
    and whether the call returned, and every line it prints. *)

Module SearchCommand.
Import Py Json.

Section Orchestrator.
Variables W Track Album Artist : Type.

(** A method of a collaborator: it changes the world and returns or
    raises. *)
Definition method (A : Type) : Type := W -> outcome A * W.

Record Client : Type := {
  search : string -> string -> method json;
  _parse_track : json -> method Track;
  get_album : json -> method Album;
  get_artist : json -> method Artist
}.

(** The display methods; the client they are handed for their
    enrichment calls is part of the method. *)
Record Formatter : Type := {
  display_track : Track -> method unit;
  display_album : Album -> method unit;
  display_artist : Artist -> method unit
}.

Inductive call : Type :=
| ParseTrack (data : json)
| GetAlbum (id : json)
| GetArtist (id : json)
| DisplayTrack (track : Track)
| DisplayAlbum (album : Album)
| DisplayArtist (artist : Artist).

Inductive event : Type :=
| Searched (query kind : string) (answer : outcome json)
| Called (c : call) (returned : bool)
| Printed (line : string).

(** How a function of the module ends: it returns, an exception
    escapes it, or [sys.exit] leaves the interpreter. *)
Inductive ending (A : Type) : Type :=
| Return (a : A)
| Raise (e : exn)
| SysExit (code : Z).
Arguments Return {A} a.
Arguments Raise {A} e.
Arguments SysExit {A} code.

Definition state : Type := (W * list event)%type.
Definition M (A : Type) : Type := state -> ending A * state.

Definition ret {A : Type} (a : A) : M A := fun s => (Return a, s).

Definition seq {A B : Type} (m : M A) (k : A -> M B) : M B :=
  fun s =>
    match m s with
    | (Return a, s') => k a s'
    | (Raise e, s') => (Raise e, s')
    | (SysExit c, s') => (SysExit c, s')
    end.

(** An expression of the orchestrator itself (payload access). *)
Definition eval {A : Type} (o : outcome A) : M A :=
  fun s =>
    match o with
    | Returned a => (Return a, s)
    | Raised e => (Raise e, s)
    end.

(** [client.search(query, kind)]: the journal keeps the answer. *)
Definition invoke_search (search : string -> string -> method json)
  (query kind : string) : M json :=
  fun s =>
    let (w, journal) := s in
    match search query kind w with
    | (Returned a, w') =>
        (Return a, (w', journal ++ [Searched query kind (Returned a)])%list)
    | (Raised e, w') =>
        (Raise e, (w', journal ++ [Searched query kind (Raised e)])%list)
    end.

(** A call of another method of a collaborator. *)
Definition invoke {A : Type} (c : call) (m : method A) : M A :=
  fun s =>
    let (w, journal) := s in
    match m w with
    | (Returned a, w') => (Return a, (w', journal ++ [Called c true])%list)
    | (Raised e, w') => (Raise e, (w', journal ++ [Called c false])%list)
    end.

Definition print (line : string) : M unit :=
  fun s => let (w, journal) := s in (Return tt, (w, journal ++ [Printed line])%list).

Definition sys_exit {A : Type} (code : Z) : M A := fun s => (SysExit code, s).

(** [try: m  except Exception [as e]: h]: what is not an [Exception]
    propagates. *)
Definition try_ {A : Type} (m : M A) (h : exn -> M A) : M A :=
  fun s =>
    match m s with
    | (Raise e, s') => if is_exception e then h e s' else (Raise e, s')
    | other => other
    end.

Variable client : Client.
Variable formatter : Formatter.

(** [result.get(kinds, {}).get('items')] *)
Definition items_or_none (result : json) (kinds : string) : outcome json :=
  bind (get result kinds (JDict [])) (fun group => get group "items" JNull).

(** [result.get(kinds, {}).get('items', [])] *)
Definition items_or_empty (result : json) (kinds : string) : outcome json :=
  bind (get result kinds (JDict [])) (fun group => get group "items" (JList [])).

(** [result[kinds]['items'][0]] *)
Definition first_item (result : json) (kinds : string) : outcome json :=
  bind (getitem_str result kinds) (fun group =>
  bind (getitem_str group "items") getitem_0).

(** *** [search_auto]

    Each [try] block yields [true] when it reached its [return]. *)
Definition try_track (query : string) : M bool :=
  try_
    (seq (invoke_search (search client) query "track")
       (fun result =>
     seq (eval (items_or_none result "tracks")) (fun items =>
     if truthy items then
       seq (eval (first_item result "tracks")) (fun track_data =>
       seq (invoke (ParseTrack track_data) (_parse_track client track_data))
         (fun track =>
       seq (invoke (DisplayTrack track) (display_track formatter track))
         (fun _ => ret true)))
     else ret false)))
    (fun _ => ret false).

Definition try_album (query : string) : M bool :=
  try_
    (seq (invoke_search (search client) query "album")
       (fun result =>
     seq (eval (items_or_none result "albums")) (fun items =>
     if truthy items then
       seq (eval (first_item result "albums")) (fun album_data =>
       seq (eval (getitem_str album_data "id")) (fun id =>
       seq (invoke (GetAlbum id) (get_album client id)) (fun album =>
       seq (invoke (DisplayAlbum album) (display_album formatter album))
         (fun _ => ret true))))
     else ret false)))
    (fun _ => ret false).

Definition try_artist (query : string) : M bool :=
  try_
    (seq (invoke_search (search client) query "artist")
       (fun result =>
     seq (eval (items_or_none result "artists")) (fun items =>
     if truthy items then
       seq (eval (first_item result "artists")) (fun artist_data =>
       seq (eval (getitem_str artist_data "id")) (fun id =>
       seq (invoke (GetArtist id) (get_artist client id)) (fun artist =>
       seq (invoke (DisplayArtist artist) (display_artist formatter artist))
         (fun _ => ret true))))
     else ret false)))
    (fun _ => ret false).

Definition search_auto (query : string) : M unit :=
  seq (try_track query) (fun returned =>
  if returned : bool then ret tt else
  seq (try_album query) (fun returned =>
  if returned : bool then ret tt else
  seq (try_artist query) (fun returned =>
  if returned : bool then ret tt else
  print ("No results found for: " ++ query)))).

(** *** [search_specific] *)
Definition search_specific (query search_type : string) : M unit :=
  try_
    (seq (invoke_search (search client) query search_type)
       (fun result =>
     if String.eqb search_type "track" then
       seq (eval (items_or_empty result "tracks")) (fun tracks =>
       if truthy tracks then
         seq (eval (getitem_0 tracks)) (fun track_data =>
         seq (invoke (ParseTrack track_data) (_parse_track client track_data))
           (fun track =>
         invoke (DisplayTrack track) (display_track formatter track)))
       else print ("No tracks found for: " ++ query))
     else if String.eqb search_type "album" then
       seq (eval (items_or_empty result "albums")) (fun albums =>
       if truthy albums then
         seq (eval (bind (getitem_0 albums) (fun a => getitem_str a "id")))
           (fun id =>
         seq (invoke (GetAlbum id) (get_album client id)) (fun album =>
         invoke (DisplayAlbum album) (display_album formatter album)))
       else print ("No albums found for: " ++ query))
     else if String.eqb search_type "artist" then
       seq (eval (items_or_empty result "artists")) (fun artists =>
       if truthy artists then
         seq (eval (bind (getitem_0 artists) (fun a => getitem_str a "id")))
           (fun id =>
         seq (invoke (GetArtist id) (get_artist client id)) (fun artist =>
         invoke (DisplayArtist artist) (display_artist formatter artist)))
       else print ("No artists found for: " ++ query))
     else ret tt))
    (fun e => seq (print ("Search failed: " ++ exn_str e))
                  (fun _ => sys_exit 1)).

End Orchestrator.

Arguments ParseTrack {Track Album Artist} data.
Arguments GetAlbum {Track Album Artist} id.
Arguments GetArtist {Track Album Artist} id.
Arguments DisplayTrack {Track Album Artist} track.
Arguments DisplayAlbum {Track Album Artist} album.
Arguments DisplayArtist {Track Album Artist} artist.
Arguments search {W Track Album Artist} c _ _ _.
Arguments _parse_track {W Track Album Artist} c _ _.
Arguments get_album {W Track Album Artist} c _ _.
Arguments get_artist {W Track Album Artist} c _ _.
Arguments display_track {W Track Album Artist} f _ _.
Arguments display_album {W Track Album Artist} f _ _.
Arguments display_artist {W Track Album Artist} f _ _.
Arguments try_track {W Track Album Artist} client formatter query _.
Arguments try_album {W Track Album Artist} client formatter query _.
Arguments try_artist {W Track Album Artist} client formatter query _.
Arguments search_auto {W Track Album Artist} client formatter query _.
Arguments search_specific {W Track Album Artist} client formatter query search_type _.
Arguments Searched {Track Album Artist} query kind answer.
Arguments Called {Track Album Artist} c returned.
Arguments Printed {Track Album Artist} line.
Arguments Return {A} a.
Arguments Raise {A} e.
Arguments SysExit {A} code.

End SearchCommand.

(* ================================================================= *)
(** ** [src/config.py]: the credential store

    The configuration file is kept as the value [yaml.safe_load] reads
    from it ([yaml.dump] followed by [yaml.safe_load] gives a mapping of
    strings back unchanged). *)

Module Config.
Import Py Json.

Record Config : Type := {
  spotify_client_id : option string;
  spotify_client_secret : option string
}.

(** [__init__] *)
Definition init : Config :=
  {| spotify_client_id := None; spotify_client_secret := None |}.

(** The machine the program runs on, as far as the configuration file
    goes (the directory [mkdir] makes is not kept track of). *)
Record Host : Type := {
  (* ~/.config/mufetch/config.yaml: [None] when it does not exist,
     [Raised] when opening or parsing it raises *)
  config_file : option (outcome json);
  (* os.getenv *)
  env : string -> option string;
  (* what [mkdir(parents=True, exist_ok=True)] raises, if anything *)
  mkdir_error : option exn;
  (* what [open(file, 'w')] or [yaml.dump] raises, if anything *)
  write_error : option exn;
  (* what a write that raises leaves in the file: [None] when [open]
     raised and the file was not touched, and when [yaml.dump] raised
     after [open] had created or emptied the file, what is read from
     the file afterwards *)
  left_behind : option (outcome json)
}.

(** The file holds [content]. *)
Definition set_content (h : Host) (content : outcome json) : Host :=
  {| config_file := Some content;
     env := env h;
     mkdir_error := mkdir_error h;
     write_error := write_error h;
     left_behind := left_behind h |}.

Definition set_config_file (h : Host) (data : json) : Host :=
  set_content h (Returned data).

(** [with open(config._config_file, 'w') as f: yaml.dump(data, f, ...)] *)
Definition write_file (h : Host) (data : json) : outcome unit * Host :=
  match write_error h with
  | Some e =>
      (Raised e,
       match left_behind h with
       | Some content => set_content h content
       | None => h
       end)
  | None => (Returned tt, set_config_file h data)
  end.

(** [os.getenv(name, '')] *)
Definition getenv (h : Host) (name : string) : string :=
  match env h name with
  | Some v => v
  | None => ""
  end.

(** [v.strip()] on a value read from the file. *)
Definition strip_value (v : json) : outcome string :=
  match v with
  | JStr s => Returned (ImageRenderer.strip s)
  | _ => Raised (Exn "AttributeError"
                   ("'" ++ type_name v ++ "' object has no attribute 'strip'"))
  end.

(** [not x] for an [Optional[str]]. *)
Definition truthy_opt (x : option string) : bool :=
  match x with
  | Some s => truthy_str s
  | None => false
  end.

(** [init_config] *)
Definition init_config (h : Host) : outcome unit * Host :=
  match mkdir_error h with
  | Some e => (Raised e, h)
  | None =>
      match config_file h with
      | Some _ => (Returned tt, h)
      | None =>
          let default_config :=
            JDict [("spotify_client_id", JStr ""); ("spotify_client_secret", JStr "")] in
          write_file h default_config
      end
  end.

(** The part of [load_config] that reads the file. *)
Definition read_file (h : Host) (config : Config) : outcome Config :=
  match config_file h with
  | None => Returned config
  | Some loaded =>
      bind loaded (fun data =>
      let data := if truthy data then data else JDict [] in
      bind (bind (get data "spotify_client_id" (JStr "")) strip_value) (fun id =>
      bind (bind (get data "spotify_client_secret" (JStr "")) strip_value) (fun secret =>
      Returned {| spotify_client_id := Some id;
                  spotify_client_secret := Some secret |})))
  end.

(** [load_config] *)
Definition load_config (h : Host) : outcome Config :=
  bind (read_file h init) (fun config =>
  let id :=
    if negb (truthy_opt (spotify_client_id config))
    then Some (ImageRenderer.strip (getenv h "MUFETCH_SPOTIFY_CLIENT_ID"))
    else spotify_client_id config in
  let secret :=
    if negb (truthy_opt (spotify_client_secret config))
    then Some (ImageRenderer.strip (getenv h "MUFETCH_SPOTIFY_CLIENT_SECRET"))
    else spotify_client_secret config in
  Returned {| spotify_client_id := id; spotify_client_secret := secret |}).

(** [save_credentials]: the fields are set once the file is written. *)
Definition save_credentials (h : Host) (self : Config)
  (client_id client_secret : string) : outcome unit * Config * Host :=
  let config_data :=
    JDict [("spotify_client_id", JStr (ImageRenderer.strip client_id));
           ("spotify_client_secret", JStr (ImageRenderer.strip client_secret))] in
  match write_file h config_data with
  | (Raised e, h') => (Raised e, self, h')
  | (Returned _, h') =>
      (Returned tt,
       {| spotify_client_id := Some (ImageRenderer.strip client_id);
          spotify_client_secret := Some (ImageRenderer.strip client_secret) |},
       h')
  end.

(** [has_credentials] *)
Definition has_credentials (self : Config) : bool :=
  (truthy_opt (spotify_client_id self) && truthy_opt (spotify_client_secret self))%bool.

End Config.

(* ================================================================= *)
(** ** [src/commands/auth.py] *)

Module AuthCommand.
Import Py Json.

(** What [handle_auth] writes: a [print]ed line or the prompt of an
    [input]. *)
Inductive output : Type :=
| Line (text : string)
| Prompt (text : string).

(** How it ends: it returns, or [sys.exit(code)], or an exception
    leaves it. *)
Inductive ending : Type :=
| Return
| SysExit (code : Z)
| Raise (e : exn).

(** The two answers typed at the prompts; [Raised] is what [input]
    raises instead ([KeyboardInterrupt] on an interrupt, [EOFError] at
    the end of the input). *)
Record Keyboard : Type := {
  first_answer : outcome string;
  second_answer : outcome string
}.

Definition instructions : list output :=
  [ Line "Spotify API Authentication Setup";
    Line "";
    Line "To get your Spotify API credentials:";
    Line "1. Go to: https://developer.spotify.com/dashboard";
    Line "2. Log in with your Spotify account";
    Line "3. Click 'Create an App'";
    Line "4. Fill in app name and description";
    Line "5. Copy your Client ID and Client Secret";
    Line "" ].

(** The two [except] clauses: [KeyboardInterrupt], then [Exception];
    anything else is not caught. *)
Definition handler (e : exn) (written : list output) (h : Config.Host)
  : ending * list output * Config.Host :=
  if String.eqb (exn_class e) "KeyboardInterrupt"
  then (SysExit 0, written ++ [Line (String "010" "Operation cancelled.")], h)%list
  else if is_exception e
  then (SysExit 1, written ++ [Line ("Failed to save credentials: " ++ exn_str e)], h)%list
  else (Raise e, written, h).

(** [handle_auth] *)
Definition handle_auth (k : Keyboard) (h : Config.Host)
  : ending * list output * Config.Host :=
  let written := instructions in
  let written := (written ++ [Prompt "Enter your Spotify Client ID: "])%list in
  match first_answer k with
  | Raised e => handler e written h
  | Returned answer =>
      let client_id := ImageRenderer.strip answer in
      let written := (written ++ [Prompt "Enter your Spotify Client Secret: "])%list in
      match second_answer k with
      | Raised e => handler e written h
      | Returned answer =>
          let client_secret := ImageRenderer.strip answer in
          if (negb (truthy_str client_id) || negb (truthy_str client_secret))%bool
          then (SysExit 1,
                written ++ [Line "Error: Both Client ID and Client Secret are required!"],
                h)%list
          else
            let written :=
              if ((len_str client_id <? 10) || (len_str client_secret <? 10))%bool
              then (written ++
                    [Line "Warning: Credentials seem too short. Please verify they are correct."])%list
              else written in
            match Config.save_credentials h Config.init client_id client_secret with
            | (Raised e, _, h') => handler e written h'
            | (Returned _, _, h') =>
                (Return,
                 written ++
                 [Line "Credentials saved successfully!";
                  Line "You can now use 'python mufetch.py search <query>' to search for music."],
                 h')%list
            end
      end
  end.

End AuthCommand.

(* ================================================================= *)
(** ** [src/commands/search.py]: [handle_search] *)

Module SearchHandler.
Import Py Json SearchCommand.

(** The parsed command line. *)
Record Args : Type := { query : string; type : string; size : Z }.

Section Handler.
Variables W Track Album Artist : Type.

(** What [handle_search] does, in order: the text it writes to the
    terminal, the objects it builds, and the journal of the search it
    runs. *)
Inductive step : Type :=
| Wrote (text : string)
| NewClient (client_id client_secret : option string)
| NewFormatter (image_size : Z)
| Ran (journal : list (event Track Album Artist)).

(** [SpotifyClient(id, secret)] and [DisplayFormatter(size)]. *)
Variable new_client : option string -> option string -> Client W Track Album Artist.
Variable new_formatter : Z -> Formatter W Track Album Artist.

Definition hide_cursor : string := Colors.ESC ++ "[?25l".
Definition show_cursor : string := Colors.ESC ++ "[?25h".
Definition newline : string := String "010" "".
Definition clear_line : string :=
  Colors.ESC ++ "[F" ++ Colors.ESC ++ "[K" ++ newline ++ newline.

(** The two [if]s on [image_size]. *)
Definition effective_size (image_size : Z) : Z :=
  let image_size := if image_size <? 15 then 15 else image_size in
  if 35 <? image_size then 35 else image_size.

(** The body of the [try] block. *)
Definition search_body (client : Client W Track Album Artist) (args : Args) (w : W)
  : ending unit * W * list step :=
  let image_size := effective_size (size args) in
  let formatter := new_formatter image_size in
  let run :=
    if String.eqb (type args) "auto"
    then search_auto client formatter (query args) (w, [])
    else search_specific client formatter (query args) (type args) (w, []) in
  let '(result, (w', journal)) := run in
  let steps := [Wrote newline; NewFormatter image_size; Ran journal] in
  match result with
  | Return _ => (Return tt, w', steps ++ [Wrote clear_line])%list
  | other => (other, w', steps)
  end.

(** [handle_search] *)
Definition handle_search (h : Config.Host) (args : Args) (w : W)
  : ending unit * W * list step :=
  match Config.load_config h with
  | Raised e => (Raise e, w, [])
  | Returned config =>
      if negb (Config.has_credentials config) then
        (SysExit 1, w,
         [ Wrote ("No Spotify credentials found!" ++ newline);
           Wrote ("Run 'python mufetch.py auth' to set up your API credentials."
                    ++ newline) ])
      else
        let client := new_client (Config.spotify_client_id config)
                        (Config.spotify_client_secret config) in
        let '(result, w', steps) := search_body client args w in
        (* finally: print('\033[?25h', end='') *)
        (result, w',
         [ NewClient (Config.spotify_client_id config)
             (Config.spotify_client_secret config);
           Wrote hide_cursor ] ++ steps ++ [Wrote show_cursor])%list
  end.

End Handler.

Arguments Wrote {Track Album Artist} text.
Arguments NewClient {Track Album Artist} client_id client_secret.
Arguments NewFormatter {Track Album Artist} image_size.
Arguments Ran {Track Album Artist} journal.
Arguments handle_search {W Track Album Artist} new_client new_formatter h args w.
Arguments search_body {W Track Album Artist} new_formatter client args w.

End SearchHandler.

(* ================================================================= *)
(** ** [class SpotifyClient]: requests *)

Module SpotifyRequests.
Import Py Json SpotifyClient.

(** A [requests.get] call. *)
Record Get : Type := {
  get_url : string;
  get_headers : list (string * string);
  get_params : option (list (string * json));
  get_timeout : Z
}.

(** The outside of a request: what [_authenticate] meets, the catalog
    endpoint, and Python's [repr] for the values other than strings and
    numbers a token could be. *)
Record Net : Type := {
  auth : World;
  get : Get -> outcome Response;
  repr : json -> string
}.

(** What went out, in order. *)
Inductive sent_request : Type :=
| Posted (request : Request)
| Got (request : Get).

(** [f'{value}'] *)
Definition format_value (n : Net) (value : json) : string :=
  match value with
  | JStr s => s
  | JNum k => str k
  | JBool true => "True"
  | JBool false => "False"
  | JNull => "None"
  | _ => repr n value
  end.

Definition request_failed (response : Response) : exn :=
  Exn "Exception"
    ("API request failed: " ++ str (status_code response) ++ " - "
       ++ text response).

Definition api_get (n : Net) (self : SpotifyClient) (endpoint : string)
  (params : option (list (string * json))) : Get :=
  {| get_url := base_url self ++ "/" ++ endpoint;
     get_headers := [("Authorization", "Bearer " ++ format_value n (access_token self))];
     get_params := params;
     get_timeout := 30 |}.

(** [_make_request]: the answer, the client afterwards and the requests
    that were sent. *)
Definition _make_request (n : Net) (self : SpotifyClient) (endpoint : string)
  (params : option (list (string * json)))
  : outcome json * SpotifyClient * list sent_request :=
  let authenticated := _authenticate (auth n) self in
  let posted := map Posted (sent authenticated) in
  let self := client authenticated in
  match result authenticated with
  | Raised e => (Raised e, self, posted)
  | Returned _ =>
      let request := api_get n self endpoint params in
      let sent := (posted ++ [Got request])%list in
      match get n request with
      | Raised e => (Raised e, self, sent)
      | Returned response =>
          if negb (status_code response =? 200)
          then (Raised (request_failed response), self, sent)
          else (json_body response, self, sent)
      end
  end.

(** [search] *)
Definition search (n : Net) (self : SpotifyClient) (query search_type : string)
  : outcome json * SpotifyClient * list sent_request :=
  let params := [("q", JStr query); ("type", JStr search_type); ("limit", JNum 1)] in
  _make_request n self "search" (Some params).

End SpotifyRequests.

(* ================================================================= *)
(** ** [DisplayFormatter._format_number] *)

Module FormatNumber.
Import Py Datetime.

(** [a / b] on [int]s, with the check CPython makes on the size of the
    correctly rounded quotient. *)
Definition int_true_divide (a b : Z) : outcome float :=
  let x := true_divide a b in
  if ((0 <=? expo x) && (2 ^ 1024 <=? Z.abs (mant x) * 2 ^ expo x))%bool
  then Raised (OverflowError "integer division result too large for a float")
  else Returned x.

(** The value of a float in tenths, rounded to the nearest integer,
    ties to even, as [format(x, '.1f')] rounds the exact binary value. *)
Definition tenths (x : float) : Z :=
  let n := 10 * Z.abs (mant x) in
  if 0 <=? expo x then n * 2 ^ expo x
  else
    let d := 2 ^ (- expo x) in
    let q := n / d in
    let r := n mod d in
    if 2 * r <? d then q
    else if d <? 2 * r then q + 1
    else if Z.even q then q else q + 1.

(** [f"{x:.1f}"] *)
Definition format_1f (x : float) : string :=
  let t := tenths x in
  (if mant x <? 0 then "-" else "") ++ str (t / 10) ++ "." ++ str (t mod 10).

(** [_format_number] *)
Definition _format_number (n : Z) : outcome string :=
  if 1000000 <=? n then
    bind (int_true_divide n 1000000) (fun x => Returned (format_1f x ++ "M"))
  else if 1000 <=? n then
    bind (int_true_divide n 1000) (fun x => Returned (format_1f x ++ "K"))
  else Returned (str n).

End FormatNumber.

(* ================================================================= *)
(** ** The dataclasses of [src/spotify_client.py]

    The fields carry values of the annotated types. *)

Module Image.
Record Image : Type := { url : string; height : Z; width : Z }.
End Image.

Module ExternalURL.
Record ExternalURL : Type := { spotify : string }.
End ExternalURL.

Module Followers.
Record Followers : Type := { total : Z }.
End Followers.

Module Artist.
Record Artist : Type := {
  id : string;
  name : string;
  images : list Image.Image;
  genres : list string;
  popularity : Z;
  followers : Followers.Followers;
  external_urls : ExternalURL.ExternalURL;
  type : string
}.
End Artist.

Module Album.
(** [tracks: Optional[List['Track']]] refers to the class below. *)
Record Album (Track : Type) : Type := {
  id : string;
  name : string;
  artists : list Artist.Artist;
  images : list Image.Image;
  release_date : string;
  release_date_precision : string;
  total_tracks : Z;
  genres : list string;
  popularity : Z;
  album_type : string;
  album_group : option string;
  label : string;
  external_urls : ExternalURL.ExternalURL;
  tracks : option (list Track)
}.
Arguments id {Track} a.
Arguments name {Track} a.
Arguments artists {Track} a.
Arguments images {Track} a.
Arguments release_date {Track} a.
Arguments release_date_precision {Track} a.
Arguments total_tracks {Track} a.
Arguments genres {Track} a.
Arguments popularity {Track} a.
Arguments album_type {Track} a.
Arguments album_group {Track} a.
Arguments label {Track} a.
Arguments external_urls {Track} a.
Arguments tracks {Track} a.
End Album.

Module Track.
#[warnings="-register-all"] Inductive Track : Type := Make {
  id : string;
  name : string;
  artists : list Artist.Artist;
  album : Album.Album Track;
  duration_ms : Z;
  popularity : Z;
  track_number : Z;
  disc_number : Z;
  explicit : bool;
  preview_url : option string;
  external_urls : ExternalURL.ExternalURL;
  available_markets : list string
}.
End Track.

(* ================================================================= *)
(** ** [DisplayFormatter.display_track], [display_album], [display_artist] *)

Module DisplayPanels.
Import Py DisplayFormatter.

(** The client as the display functions use it; what a call raises may
    be an [Exception] or not (a keyboard interrupt). *)
Record Client (W : Type) : Type := {
  get_artist : string -> W -> outcome Artist.Artist * W;
  get_artist_top_tracks : string -> W -> outcome (list Track.Track) * W;
  get_artist_albums :
    string -> string -> W -> outcome (list (Album.Album Track.Track)) * W
}.
Arguments get_artist {W} c _ _.
Arguments get_artist_top_tracks {W} c _ _.
Arguments get_artist_albums {W} c _ _ _.

(** The calls a display function made on the client, in order. *)
Inductive call : Type :=
| GetArtist (artist_id : string)
| GetArtistTopTracks (artist_id : string)
| GetArtistAlbums (artist_id include_groups : string).

(** A display function when it stops: what it printed, how it stopped,
    the world the client left and the calls made on it. *)
Record Shown (W : Type) : Type := {
  rows : list string;
  result : outcome unit;
  world : W;
  calls : list call
}.
Arguments rows {W} s.
Arguments result {W} s.
Arguments world {W} s.
Arguments calls {W} s.

(** [sep.join(parts)] *)
Definition join (sep : string) (parts : list string) : string :=
  String.concat sep parts.

(** [f"{n}%"] *)
Definition percent (n : Z) : string := str n ++ "%".

(** [sum(values)] *)
Definition sum (values : list Z) : Z := fold_left Z.add values 0.

Section Methods.
Context {Img W : Type}.
(** [self.renderer] and what it meets. *)
Variable rw : ImageRenderer.World Img.
Variable renderer : ImageRenderer.ImageRenderer.
Variable decimal : Z -> option Z.
Variable strftime_Y : Datetime.date -> string.

Definition raised (e : exn) (w : W) (made : list call) : Shown W :=
  {| rows := []; result := Raised e; world := w; calls := made |}.

(** The [if images: ... else: ...] at the head of each function. *)
Definition image_lines_of (images : list Image.Image) : outcome (list string) :=
  match images with
  | first :: _ => ImageRenderer.render_image_lines rw renderer (Image.url first)
  | [] => Returned ImageRenderer._get_placeholder_lines
  end.

Definition artist_link (artist : Artist.Artist) : string :=
  _create_clickable_link (ExternalURL.spotify (Artist.external_urls artist))
    (Artist.name artist).

(** The genres of the album or, when it has none, of the first artist
    as the client gives them; an [Exception] raised by the client is
    passed over, anything else it raises leaves the function. *)
Definition resolve_genres (client : option (Client W)) (genres : list string)
  (artists : list Artist.Artist) (w : W) : outcome (list string) * W * list call :=
  if (negb (truthy_list genres) && truthy_list artists)%bool then
    match client, artists with
    | Some c, first :: _ =>
        match get_artist c (Artist.id first) w with
        | (Returned artist, w') =>
            (Returned (Artist.genres artist), w', [GetArtist (Artist.id first)])
        | (Raised e, w') =>
            (if is_exception e then Returned genres else Raised e, w',
             [GetArtist (Artist.id first)])
        end
    | _, _ => (Returned genres, w, [])
    end
  else (Returned genres, w, []).

(** [if genres: info_lines.append(...)] *)
Definition genres_line (genres : list string) : list string :=
  if truthy_list genres
  then [_format_info_line "Genres" (join ", " (ImageRenderer.slice_to genres 2)) Colors.RED]
  else [].

Definition track_link (track : Track.Track) : string :=
  Colors.GREEN
    ++ _create_clickable_link (ExternalURL.spotify (Track.external_urls track))
         (Track.name track)
    ++ Colors.RESET.

(** [f"{Colors.BOLD}Top Tracks{Colors.RESET}"] *)
Definition top_tracks_heading : string := Colors.BOLD ++ "Top Tracks" ++ Colors.RESET.

(** The block under [# Add top tracks]. *)
Definition top_tracks_block (tracks : list Track.Track) : list string :=
  if truthy_list tracks
  then ([""; top_tracks_heading]
          ++ map track_link (ImageRenderer.slice_to tracks 5))%list
  else [].

Definition image_link (images : list Image.Image) (text : string) : list string :=
  match images with
  | first :: _ =>
      [Colors.BLUE ++ _create_clickable_link (Image.url first) text ++ Colors.RESET]
  | [] => []
  end.

Definition spotify_link (urls : ExternalURL.ExternalURL) : string :=
  Colors.GREEN ++ _create_clickable_link (ExternalURL.spotify urls) "Spotify"
    ++ Colors.RESET.

(** The links of a track or an album: the cover, if any, then the
    catalog page. *)
Definition cover_links (images : list Image.Image) (urls : ExternalURL.ExternalURL)
  : list string :=
  (image_link images "Album Cover" ++ [spotify_link urls])%list.

(** The links of an artist: the catalog page, then the photo, if any. *)
Definition artist_links (artist : Artist.Artist) : list string :=
  spotify_link (Artist.external_urls artist)
    :: image_link (Artist.images artist) "Artist Photo".

Definition side_by_side (image_lines info_lines links : list string) (w : W)
  (made : list call) : Shown W :=
  let (out, res) := _display_side_by_side_with_links image_lines info_lines links in
  {| rows := out; result := res; world := w; calls := made |}.

(** The eight lines every track has. *)
Definition track_info (track : Track.Track) (duration : Datetime.timedelta)
  (released : string) : list string :=
  let album := Track.album track in
  [ _format_info_line "Name" (Track.name track) Colors.GREEN;
    _format_info_line "Artist" (join ", " (map artist_link (Track.artists track)))
      Colors.YELLOW;
    _format_info_line "Album"
      (_create_clickable_link (ExternalURL.spotify (Album.external_urls album))
         (Album.name album))
      Colors.BLUE;
    _format_info_line "Duration" (_format_duration duration) Colors.WHITE;
    _format_info_line "Track" (str (Track.track_number track)) Colors.CYAN;
    _format_info_line "Explicit" (_format_bool (Track.explicit track)) Colors.RED;
    _format_info_line "Released" released Colors.CYAN;
    _format_info_line "Popularity" (percent (Track.popularity track)) Colors.PURPLE ].

(** [display_track] *)
Definition display_track (track : Track.Track) (client : option (Client W)) (w : W)
  : Shown W :=
  let album := Track.album track in
  match image_lines_of (Album.images album) with
  | Raised e => raised e w []
  | Returned image_lines =>
      match Datetime.timedelta_milliseconds (Track.duration_ms track) with
      | Raised e => raised e w []
      | Returned duration =>
          match resolve_genres client (Album.genres album) (Track.artists track) w with
          | (Raised e, w', made) => raised e w' made
          | (Returned genres, w', made) =>
              match _format_ordinal_date decimal strftime_Y (Album.release_date album) with
              | Raised e => raised e w' made
              | Returned released =>
                  let info_lines :=
                    (track_info track duration released ++ genres_line genres)%list in
                  let links :=
                    cover_links (Album.images album) (Track.external_urls track) in
                  side_by_side image_lines info_lines links w' made
              end
          end
      end
  end.

(** [total_duration] *)
Definition total_duration (album : Album.Album Track.Track) : Z :=
  match Album.tracks album with
  | Some tracks => if truthy_list tracks then sum (map Track.duration_ms tracks) else 0
  | None => 0
  end.

(** [album.tracks] where the code tests and slices it. *)
Definition tracks_or_empty (album : Album.Album Track.Track) : list Track.Track :=
  match Album.tracks album with
  | Some tracks => tracks
  | None => []
  end.

(** The seven lines every album has. *)
Definition album_info (album : Album.Album Track.Track) (released : string)
  (duration : Datetime.timedelta) : list string :=
  [ _format_info_line "Name" (Album.name album) Colors.GREEN;
    _format_info_line "Artist" (join ", " (map artist_link (Album.artists album)))
      Colors.YELLOW;
    _format_info_line "Type" (Album.album_type album) Colors.BLUE;
    _format_info_line "Released" released Colors.CYAN;
    _format_info_line "Tracks" (str (Album.total_tracks album)) Colors.PURPLE;
    _format_info_line "Duration" (_format_duration duration) Colors.WHITE;
    _format_info_line "Popularity" (percent (Album.popularity album)) Colors.PURPLE ].

Definition label_line (label : string) : list string :=
  if truthy_str label then [_format_info_line "Label" label Colors.WHITE] else [].

(** [display_album] *)
Definition display_album (album : Album.Album Track.Track)
  (client : option (Client W)) (w : W) : Shown W :=
  match image_lines_of (Album.images album) with
  | Raised e => raised e w []
  | Returned image_lines =>
      match resolve_genres client (Album.genres album) (Album.artists album) w with
      | (Raised e, w', made) => raised e w' made
      | (Returned genres, w', made) =>
          match _format_ordinal_date decimal strftime_Y (Album.release_date album) with
          | Raised e => raised e w' made
          | Returned released =>
              match Datetime.timedelta_milliseconds (total_duration album) with
              | Raised e => raised e w' made
              | Returned duration =>
                  let info_lines :=
                    (album_info album released duration ++ genres_line genres
                       ++ label_line (Album.label album)
                       ++ top_tracks_block (tracks_or_empty album))%list in
                  let links :=
                    cover_links (Album.images album) (Album.external_urls album) in
                  side_by_side image_lines info_lines links w' made
              end
          end
      end
  end.

(** The [try] block of [display_artist]: the top tracks and the two
    counts as they stand when it is left.  An [Exception] raised by the
    client ends the block; anything else it raises leaves the
    function. *)
Definition left_with (e : exn) (so_far : list Track.Track * Z * Z)
  : outcome (list Track.Track * Z * Z) :=
  if is_exception e then Returned so_far else Raised e.

Definition artist_extras (client : option (Client W)) (artist_id : string) (w : W)
  : outcome (list Track.Track * Z * Z) * W * list call :=
  match client with
  | None => (Returned ([], 0, 0), w, [])
  | Some c =>
      match get_artist_top_tracks c artist_id w with
      | (Raised e, w1) => (left_with e ([], 0, 0), w1, [GetArtistTopTracks artist_id])
      | (Returned top_tracks, w1) =>
          match get_artist_albums c artist_id "album" w1 with
          | (Raised e, w2) =>
              (left_with e (top_tracks, 0, 0), w2,
               [GetArtistTopTracks artist_id; GetArtistAlbums artist_id "album"])
          | (Returned albums, w2) =>
              match get_artist_albums c artist_id "single" w2 with
              | (Raised e, w3) =>
                  (left_with e (top_tracks, 0, 0), w3,
                   [GetArtistTopTracks artist_id; GetArtistAlbums artist_id "album";
                    GetArtistAlbums artist_id "single"])
              | (Returned singles, w3) =>
                  (Returned (top_tracks, len albums, len singles), w3,
                   [GetArtistTopTracks artist_id; GetArtistAlbums artist_id "album";
                    GetArtistAlbums artist_id "single"])
              end
          end
      end
  end.

Definition count_line (label : string) (count : Z) (color : string) : list string :=
  if 0 <? count then [_format_info_line label (str count) color] else [].

(** The three lines every artist has. *)
Definition artist_info (artist : Artist.Artist) (followers : string) : list string :=
  [ _format_info_line "Name" (Artist.name artist) Colors.GREEN;
    _format_info_line "Followers" followers Colors.YELLOW;
    _format_info_line "Popularity" (percent (Artist.popularity artist)) Colors.PURPLE ].

(** [display_artist] *)
Definition display_artist (artist : Artist.Artist) (client : option (Client W))
  (w : W) : Shown W :=
  match image_lines_of (Artist.images artist) with
  | Raised e => raised e w []
  | Returned image_lines =>
      match artist_extras client (Artist.id artist) w with
      | (Raised e, w', made) => raised e w' made
      | (Returned (top_tracks, albums_count, singles_count), w', made) =>
          match FormatNumber._format_number (Followers.total (Artist.followers artist)) with
          | Raised e => raised e w' made
          | Returned followers =>
              let info_lines :=
                (artist_info artist followers
                   ++ genres_line (Artist.genres artist)
                   ++ count_line "Albums" albums_count Colors.GREEN
                   ++ count_line "Singles" singles_count Colors.YELLOW
                   ++ top_tracks_block top_tracks)%list in
              side_by_side image_lines info_lines (artist_links artist) w' made
          end
      end
  end.

End Methods.

End DisplayPanels.

(* ================================================================= *)
(** ** [mufetch.py]: [main], from the parsed command line on

    [argparse] has accepted the command line: there is no subcommand,
    or it is [auth], or it is [search] with its three arguments. *)

Module Main.
Import Py.

Inductive command : Type :=
| NoCommand
| Auth
| Search (args : SearchHandler.Args).

(** How the program ends: [main] returns, or [sys.exit(code)], or an
    exception leaves [main]. *)
Inductive ending : Type :=
| Return
| SysExit (code : Z)
| Uncaught (e : exn).

Section Program.
Variables W Track Album Artist : Type.
Variable new_client :
  option string -> option string -> SearchCommand.Client W Track Album Artist.
Variable new_formatter : Z -> SearchCommand.Formatter W Track Album Artist.

(** What was written, in order: a line printed by [main], the help of
    the parser, and what the two commands wrote. *)
Inductive written : Type :=
| Line (text : string)
| Help
| ByAuth (out : list AuthCommand.output)
| BySearch (steps : list (SearchHandler.step Track Album Artist)).

(** The two [except] clauses around [args.func(args)]:
    [KeyboardInterrupt], then [Exception]; anything else is not
    caught. *)
Definition handler (e : exn) : ending * list written :=
  if String.eqb (exn_class e) "KeyboardInterrupt"
  then (SysExit 0, [Line (String "010" "Operation cancelled.")])
  else if is_exception e
  then (SysExit 1, [Line ("Error: " ++ exn_str e)])
  else (Uncaught e, []).

(** [main] *)
Definition main (cmd : command) (k : AuthCommand.Keyboard) (h : Config.Host) (w : W)
  : ending * list written * Config.Host * W :=
  match Config.init_config h with
  | (Raised e, h) =>
      (* except Exception *)
      if is_exception e
      then (SysExit 1, [Line ("Failed to initialize config: " ++ exn_str e)], h, w)
      else (Uncaught e, [], h, w)
  | (Returned _, h) =>
      match cmd with
      | NoCommand => (Return, [Help], h, w)
      | Auth =>
          let '(ended, out, h') := AuthCommand.handle_auth k h in
          match ended with
          | AuthCommand.Return => (Return, [ByAuth out], h', w)
          | AuthCommand.SysExit code => (SysExit code, [ByAuth out], h', w)
          | AuthCommand.Raise e =>
              let (ended, line) := handler e in
              (ended, (ByAuth out :: line)%list, h', w)
          end
      | Search args =>
          let '(ended, w', steps) :=
            SearchHandler.handle_search new_client new_formatter h args w in
          match ended with
          | SearchCommand.Return _ => (Return, [BySearch steps], h, w')
          | SearchCommand.SysExit code => (SysExit code, [BySearch steps], h, w')
          | SearchCommand.Raise e =>
              let (ended, line) := handler e in
              (ended, (BySearch steps :: line)%list, h, w')
          end
      end
  end.

End Program.

Arguments Line {Track Album Artist} text.
Arguments Help {Track Album Artist}.
Arguments ByAuth {Track Album Artist} out.
Arguments BySearch {Track Album Artist} steps.
Arguments main {W Track Album Artist} new_client new_formatter cmd k h w.

End Main.

(* ================================================================= *)
(** ** [SpotifyClient._parse_artist] and the parsers it calls

    The parsers do not check what they read: the fields of the objects
    they build hold whatever the payload held. *)

Module Parsers.
Import Py Json.

Module Image.
Record Image : Type := { url : json; height : json; width : json }.
End Image.

Module ExternalURL.
Record ExternalURL : Type := { spotify : json }.
End ExternalURL.

Module Followers.
Record Followers : Type := { total : json }.
End Followers.

Module Artist.
Record Artist : Type := {
  id : json;
  name : json;
  images : list Image.Image;
  genres : json;
  popularity : json;
  followers : Followers.Followers;
  external_urls : ExternalURL.ExternalURL;
  type : json
}.
End Artist.

(** What a [for] loop over a payload visits: the items of a list, the
    keys of a dict, the characters of a string; nothing else can be
    iterated. *)
Definition iterate (j : json) : outcome (list json) :=
  match j with
  | JList l => Returned l
  | JDict d => Returned (map (fun item => JStr (fst item)) d)
  | JStr s => Returned (map (fun c => JStr (String c "")) (list_ascii_of_string s))
  | _ => Raised (Exn "TypeError" ("'" ++ type_name j ++ "' object is not iterable"))
  end.

(** [[f(x) for x in items]] *)
Fixpoint comprehension {A : Type} (f : json -> outcome A) (items : list json)
  : outcome (list A) :=
  match items with
  | [] => Returned []
  | x :: rest =>
      bind (f x) (fun a =>
      bind (comprehension f rest) (fun others => Returned (a :: others)))
  end.

(** [_parse_image] *)
Definition _parse_image (image_data : json) : outcome Image.Image :=
  bind (get image_data "url" (JStr "")) (fun url =>
  bind (get image_data "height" (JNum 0)) (fun height =>
  bind (get image_data "width" (JNum 0)) (fun width =>
  Returned {| Image.url := url; Image.height := height; Image.width := width |}))).

(** [_parse_external_urls] *)
Definition _parse_external_urls (urls_data : json) : outcome ExternalURL.ExternalURL :=
  bind (get urls_data "spotify" (JStr "")) (fun spotify =>
  Returned {| ExternalURL.spotify := spotify |}).

(** [_parse_followers] *)
Definition _parse_followers (followers_data : json) : outcome Followers.Followers :=
  bind (get followers_data "total" (JNum 0)) (fun total =>
  Returned {| Followers.total := total |}).

(** [_parse_artist] *)
Definition _parse_artist (artist_data : json) : outcome Artist.Artist :=
  bind (get artist_data "images" (JList [])) (fun images_data =>
  bind (iterate images_data) (fun items =>
  bind (comprehension _parse_image items) (fun images =>
  bind (get artist_data "external_urls" (JDict [])) (fun urls_data =>
  bind (_parse_external_urls urls_data) (fun external_urls =>
  bind (get artist_data "followers" (JDict [])) (fun followers_data =>
  bind (_parse_followers followers_data) (fun followers =>
  bind (get artist_data "id" (JStr "")) (fun id =>
  bind (get artist_data "name" (JStr "")) (fun name =>
  bind (get artist_data "genres" (JList [])) (fun genres =>
  bind (get artist_data "popularity" (JNum 0)) (fun popularity =>
  bind (get artist_data "type" (JStr "artist")) (fun type =>
  Returned {| Artist.id := id;
              Artist.name := name;
              Artist.images := images;
              Artist.genres := genres;
              Artist.popularity := popularity;
              Artist.followers := followers;
              Artist.external_urls := external_urls;
              Artist.type := type |})))))))))))).

End Parsers.

(* ================================================================= *)
(** * Properties *)

Import Py.

(** ** Python lists *)

Lemma len_length {A : Type} (l : list A) : len l = Z.of_nat (List.length l).
Proof. reflexivity. Qed.

Lemma len_nonneg {A : Type} (l : list A) : 0 <= len l.
Proof. unfold len; lia. Qed.

(** Inside its bounds an index picks the element [nth] picks. *)
Lemma getitem_nth {A : Type} (l : list A) (i : nat) (d : A) :
  (i < List.length l)%nat -> getitem l (Z.of_nat i) = Returned (nth i l d).
Proof.
  intros Hi. unfold getitem.
  destruct (Z.of_nat i <? 0) eqn:Hneg; [apply Z.ltb_lt in Hneg; lia|].
  rewrite Hneg, Nat2Z.id.
  destruct (nth_error l i) eqn:Hnth.
  - now rewrite (nth_error_nth l i d Hnth).
  - apply nth_error_None in Hnth. lia.
Qed.

Lemma range_length (a b : Z) : List.length (range a b) = Z.to_nat (b - a).
Proof. unfold range. now rewrite length_map, length_seq. Qed.

Lemma range_from_0 (n : Z) : range 0 n = map Z.of_nat (seq 0 (Z.to_nat n)).
Proof. unfold range. now rewrite Z.sub_0_r. Qed.

Lemma seq_from (a n : nat) : seq a n = map (fun k => (a + k)%nat) (seq 0 n).
Proof.
  revert a. induction n as [|n IH]; intros a; simpl.
  - reflexivity.
  - f_equal; [lia|].
    rewrite (IH (S a)), <- seq_shift, map_map.
    apply map_ext. intros k. lia.
Qed.

Lemma range_shift (a b : Z) :
  0 <= a ->
  range a b = map Z.of_nat (seq (Z.to_nat a) (Z.to_nat (b - a))).
Proof.
  intros Ha. unfold range.
  rewrite (seq_from (Z.to_nat a)), map_map.
  apply map_ext. intros k. lia.
Qed.

(* ================================================================= *)
(** ** The side-by-side compositor *)

Section Compositor.
Import DisplayFormatter.

(** Row [i] of the main block: the image line (or the 46-column blank
    past the image), the gutter, the info line (or nothing). *)
Definition row_at (image_lines info_lines : list string) (i : nat) : string :=
  nth i image_lines (spaces 46) ++ "   " ++ nth i info_lines "".

(** An image row with the gutter and nothing beside it. *)
Definition bare_row (image_lines : list string) (i : nat) : string :=
  nth i image_lines "" ++ "   ".

Lemma print_rows_returned (rows : list string) :
  print_rows (map Returned rows) = (rows, Returned tt).
Proof.
  induction rows as [|r rows IH]; simpl.
  - reflexivity.
  - now rewrite IH.
Qed.

Lemma nth_pad_info (info_lines : list string) (target : Z) (i : nat) :
  nth i (pad_info info_lines target) "" = nth i info_lines "".
Proof.
  unfold pad_info.
  destruct (Nat.lt_ge_cases i (List.length info_lines)) as [Hlt|Hge].
  - now rewrite app_nth1.
  - rewrite app_nth2 by lia. rewrite nth_repeat.
    now rewrite (nth_overflow info_lines).
Qed.

Lemma image_line_at_nth (image_lines : list string) (i : nat) :
  image_line_at image_lines (Z.of_nat i) = Returned (nth i image_lines (spaces 46)).
Proof.
  unfold image_line_at.
  destruct (Z.of_nat i <? len image_lines) eqn:Hi.
  - apply Z.ltb_lt in Hi. apply getitem_nth. unfold len in Hi. lia.
  - apply Z.ltb_ge in Hi. rewrite nth_overflow; [reflexivity|].
    unfold len in Hi. lia.
Qed.

Lemma info_line_at_nth (info_lines : list string) (i : nat) :
  info_line_at info_lines (Z.of_nat i) = Returned (nth i info_lines "").
Proof.
  unfold info_line_at.
  destruct (Z.of_nat i <? len info_lines) eqn:Hi.
  - apply Z.ltb_lt in Hi. apply getitem_nth. unfold len in Hi. lia.
  - apply Z.ltb_ge in Hi. rewrite nth_overflow; [reflexivity|].
    unfold len in Hi. lia.
Qed.

Lemma content_row_at (image_lines info_lines : list string) (target : Z) (i : nat) :
  content_row image_lines (pad_info info_lines target) (Z.of_nat i)
  = Returned (row_at image_lines info_lines i).
Proof.
  unfold content_row, row_at.
  rewrite image_line_at_nth, info_line_at_nth, nth_pad_info. reflexivity.
Qed.

(** The main loop prints [target] rows and never fails. *)
Lemma content_rows (image_lines info_lines : list string) (target : Z) :
  print_rows (map (content_row image_lines (pad_info info_lines target))
                  (range 0 target))
  = (map (row_at image_lines info_lines) (seq 0 (Z.to_nat target)), Returned tt).
Proof.
  rewrite range_from_0, map_map, <- print_rows_returned, <- map_map.
  f_equal. rewrite !map_map. apply map_ext. intros i. apply content_row_at.
Qed.

(** From a non-negative start the closing loop prints what is left of
    the image. *)
Lemma remaining_rows (image_lines : list string) (a : Z) :
  0 <= a ->
  remaining_image_rows image_lines a
  = (map (bare_row image_lines)
         (seq (Z.to_nat a) (List.length image_lines - Z.to_nat a)), Returned tt).
Proof.
  intros Ha. unfold remaining_image_rows.
  rewrite range_shift by assumption.
  replace (Z.to_nat (len image_lines - a))
    with (List.length image_lines - Z.to_nat a)%nat by (unfold len; lia).
  rewrite <- print_rows_returned, !map_map. f_equal.
  apply map_ext_in. intros i Hi. apply in_seq in Hi.
  rewrite (getitem_nth image_lines i "") by lia. reflexivity.
Qed.

(** What follows the main block: the link row and the image rows under
    it, or without links the image rows alone. *)
Definition closing_rows (image_lines links : list string) (t : nat) : list string :=
  if truthy_list links then
    (nth t image_lines (spaces 46) ++ "   " ++ link_line links)
      :: map (bare_row image_lines) (seq (S t) (List.length image_lines - S t))
  else map (bare_row image_lines) (seq t (List.length image_lines - t)).

(** With at least two lines on the longer side the compositor returns,
    and its output is the main block followed by the closing rows. *)
Lemma display_rows (image_lines info_lines links : list string) :
  0 <= target_lines image_lines info_lines ->
  let t := Z.to_nat (target_lines image_lines info_lines) in
  _display_side_by_side_with_links image_lines info_lines links
  = ((map (row_at image_lines info_lines) (seq 0 t)
        ++ closing_rows image_lines links t)%list, Returned tt).
Proof.
  intros Ht t. unfold _display_side_by_side_with_links.
  rewrite content_rows. fold t. unfold closing_rows.
  destruct (truthy_list links); simpl then_print.
  - replace (target_lines image_lines info_lines) with (Z.of_nat t) by (subst t; lia).
    rewrite image_line_at_nth. simpl.
    rewrite remaining_rows by lia.
    replace (Z.to_nat (Z.of_nat t + 1)) with (S t) by lia.
    reflexivity.
  - rewrite remaining_rows by lia. reflexivity.
Qed.

End Compositor.

Section CompositorClaims.
Import DisplayFormatter.

Lemma is_spotify_truthy (link : string) :
  is_spotify link = true -> truthy_str link = true.
Proof. destruct link; [discriminate | reflexivity]. Qed.

Lemma truthy_str_neq (s : string) : s <> "" -> truthy_str s = true.
Proof. destruct s; [congruence | reflexivity]. Qed.

(** One catalog link and one other link, in either order, give the
    catalog link first. *)
Lemma link_line_pair (catalog other : string) (links : list string) :
  is_spotify catalog = true -> is_spotify other = false -> other <> "" ->
  links = [catalog; other] \/ links = [other; catalog] ->
  link_line links = catalog ++ "   " ++ other.
Proof.
  intros Hc Ho Hne Hlinks.
  pose proof (is_spotify_truthy _ Hc) as Htc.
  pose proof (truthy_str_neq _ Hne) as Hto.
  destruct Hlinks as [-> | ->]; unfold link_line, classify_links; simpl;
    rewrite Hc, Ho; simpl; rewrite ?Hc, ?Ho, ?Htc, ?Hto; simpl;
    rewrite ?Htc, ?Hto; reflexivity.
Qed.

Lemma closing_rows_length (image_lines links : list string) (t : nat) :
  List.length (closing_rows image_lines links t)
  = if truthy_list links
    then S (List.length image_lines - S t)
    else (List.length image_lines - t)%nat.
Proof.
  unfold closing_rows. destruct (truthy_list links); simpl;
    now rewrite length_map, length_seq.
Qed.

(** C2. The compositor prints [max(len(imageLines), len(infoLines)) - 2]
    content rows, each an image line, three spaces and an info line (a
    46-column blank or nothing past the end of either list), then the
    link row beside image row [contentRows], then the image rows that are
    left; it returns normally whichever list is the longer, and the
    number of rows follows from the two lengths alone.  With 20 image
    lines, 8 info lines and a catalog link and another link this is 18
    content rows, the link row "catalog   other" beside image row 18 and
    one image-only row: 20 rows. *)
Theorem compositing_rows :
  (forall image_lines info_lines links catalog other,
      List.length image_lines = 20%nat ->
      List.length info_lines = 8%nat ->
      is_spotify catalog = true -> is_spotify other = false -> other <> "" ->
      links = [catalog; other] \/ links = [other; catalog] ->
      exists rows,
        _display_side_by_side_with_links image_lines info_lines links
        = (rows, Returned tt)
        /\ rows = (map (row_at image_lines info_lines) (seq 0 18)
                     ++ [(nth 18 image_lines "" ++ "   " ++ catalog ++ "   " ++ other)%string]
                     ++ [bare_row image_lines 19])%list
        /\ List.length rows = 20%nat)
  /\
  (forall image_lines info_lines links,
      2 <= Z.max (len image_lines) (len info_lines) ->
      let contentRows := Z.to_nat (Z.max (len image_lines) (len info_lines) - 2) in
      exists rows,
        _display_side_by_side_with_links image_lines info_lines links
        = (rows, Returned tt)
        /\ rows = (map (row_at image_lines info_lines) (seq 0 contentRows)
                     ++ closing_rows image_lines links contentRows)%list
        /\ List.length rows
           = if truthy_list links
             then Nat.max (List.length image_lines) (S contentRows)
             else Nat.max (List.length image_lines) contentRows).
Proof.
  split.
  - intros image_lines info_lines links catalog other Himg Hinfo Hc Ho Hne Hlinks.
    assert (Ht : target_lines image_lines info_lines = 18)
      by (unfold target_lines, len; rewrite Himg, Hinfo; reflexivity).
    eexists. split; [|split].
    + rewrite display_rows by (rewrite Ht; lia). rewrite Ht. reflexivity.
    + f_equal. unfold closing_rows.
      replace (truthy_list links) with true by (now destruct Hlinks as [-> | ->]).
      rewrite (link_line_pair catalog other links Hc Ho Hne Hlinks), Himg.
      change (Z.to_nat 18) with 18%nat. simpl.
      rewrite (nth_indep image_lines (spaces 46) "") by lia.
      reflexivity.
    + rewrite length_app, length_map, length_seq, closing_rows_length, Himg.
      now destruct (truthy_list links).
  - intros image_lines info_lines links Hmax contentRows.
    eexists. split; [|split].
    + apply display_rows. unfold target_lines. lia.
    + reflexivity.
    + unfold target_lines. fold contentRows.
      rewrite length_app, length_map, length_seq, closing_rows_length.
      unfold len in *. destruct (truthy_list links); lia.
Qed.

Lemma compositing_rows_witness :
  exists rows,
    _display_side_by_side_with_links (repeat "#" 20) (repeat "i" 8)
      ["cover"; "open.spotify.com"]
    = (rows, Returned tt)
    /\ rows = (map (row_at (repeat "#" 20) (repeat "i" 8)) (seq 0 18)
                 ++ [(nth 18 (repeat "#" 20) "" ++ "   " ++ "open.spotify.com"
                        ++ "   " ++ "cover")%string]
                 ++ [bare_row (repeat "#" 20) 19])%list
    /\ List.length rows = 20%nat.
Proof.
  apply (proj1 compositing_rows (repeat "#" 20) (repeat "i" 8)
           ["cover"; "open.spotify.com"] "open.spotify.com" "cover").
  - reflexivity.
  - reflexivity.
  - reflexivity.
  - reflexivity.
  - discriminate.
  - right. reflexivity.
Defined.

(** C9. When there are more info lines than image lines, what is printed
    depends on the info lines only through their number and the first
    [max(len(imageLines), len(infoLines)) - 2] of them: these stand in
    the content rows, and the rows after them (the link row, or without
    links at most one image row) carry no info line, so the last two
    info lines never appear. *)
Theorem last_two_info_lines_dropped (image_lines info_lines links : list string) :
  len image_lines < len info_lines ->
  let shown := Z.to_nat (Z.max (len image_lines) (len info_lines) - 2) in
  shown = (List.length info_lines - 2)%nat
  /\ (forall info_lines',
         List.length info_lines' = List.length info_lines ->
         firstn shown info_lines' = firstn shown info_lines ->
         _display_side_by_side_with_links image_lines info_lines' links
         = _display_side_by_side_with_links image_lines info_lines links)
  /\ (2 <= len info_lines ->
      _display_side_by_side_with_links image_lines info_lines links
      = ((map (row_at image_lines (firstn shown info_lines)) (seq 0 shown)
            ++ (if truthy_list links
                then [(nth shown image_lines (spaces 46) ++ "   "
                         ++ link_line links)%string]
                else map (bare_row image_lines)
                       (seq shown (List.length image_lines - shown))))%list,
          Returned tt)).
Proof.
  intros Hlonger shown.
  assert (Hshown : shown = (List.length info_lines - 2)%nat)
    by (subst shown; unfold len in *; lia).
  assert (Hrows : forall info, map (row_at image_lines info) (seq 0 shown)
                  = map (row_at image_lines (firstn shown info)) (seq 0 shown)).
  { intros info. apply map_ext_in. intros i Hi. apply in_seq in Hi.
    unfold row_at. rewrite nth_firstn.
    replace (Nat.ltb i shown) with true; [reflexivity|].
    symmetry. apply Nat.ltb_lt. lia. }
  split; [exact Hshown|split].
  - intros info_lines' Hlen Hfirst.
    unfold _display_side_by_side_with_links.
    assert (Ht : target_lines image_lines info_lines'
                 = target_lines image_lines info_lines)
      by (unfold target_lines, len; now rewrite Hlen).
    rewrite Ht, !content_rows.
    replace (Z.to_nat (target_lines image_lines info_lines)) with shown
      by reflexivity.
    now rewrite (Hrows info_lines'), (Hrows info_lines), Hfirst.
  - intros H2.
    rewrite display_rows by (unfold target_lines; lia).
    replace (Z.to_nat (target_lines image_lines info_lines)) with shown
      by reflexivity.
    rewrite (Hrows info_lines). f_equal. f_equal.
    unfold closing_rows. destruct (truthy_list links); [|reflexivity].
    replace (List.length image_lines - S shown)%nat with 0%nat
      by (unfold len in *; lia).
    reflexivity.
Qed.

Lemma last_two_info_lines_dropped_witness :
  _display_side_by_side_with_links ["a"; "b"] ["1"; "2"; "x"; "y"] ["spotify"]
  = _display_side_by_side_with_links ["a"; "b"] ["1"; "2"; "3"; "4"] ["spotify"].
Proof.
  apply (proj1 (proj2 (last_two_info_lines_dropped
                         ["a"; "b"] ["1"; "2"; "3"; "4"] ["spotify"] eq_refl))).
  - reflexivity.
  - reflexivity.
Defined.

End CompositorClaims.

(* ================================================================= *)
(** ** Label and value lines *)

Section InfoLine.
Import DisplayFormatter.

Lemma info_padding_max (label : string) :
  info_padding label = Z.max 2 (14 - len_str label).
Proof.
  unfold info_padding, max_label_width, min_padding.
  destruct (12 - len_str label + 2 <? 2) eqn:H;
    [apply Z.ltb_lt in H | apply Z.ltb_ge in H]; lia.
Qed.

(** C6, as stated, at the label "Name": the line does not have
    [max(2, 12 - 4) = 8] spaces between label and value. *)
Lemma format_info_line_not_12 :
  _format_info_line "Name" "Hey Jude" Colors.GREEN
  <> Colors.BOLD ++ "Name" ++ Colors.RESET
       ++ spaces (Z.max 2 (12 - len_str "Name"))
       ++ Colors.GREEN ++ "Hey Jude" ++ Colors.RESET.
Proof. vm_compute. discriminate. Qed.

(** C6, amended. The info line is the bold label, a reset, then exactly
    [max(2, 14 - len(label))] spaces (the label width 12 plus the
    minimum padding 2), then the colour code, the value and a reset; so
    for every label of at most 12 characters the value starts 14
    columns after the start of the label. *)
Theorem format_info_line_layout (label value color : string) :
  _format_info_line label value color
  = Colors.BOLD ++ label ++ Colors.RESET
      ++ spaces (Z.max 2 (14 - len_str label))
      ++ color ++ value ++ Colors.RESET
  /\ (len_str label <= 12 ->
      len_str label + len_str (spaces (Z.max 2 (14 - len_str label))) = 14).
Proof.
  split.
  - unfold _format_info_line. now rewrite info_padding_max.
  - intros Hlen.
    assert (Hsp : forall n, 0 <= n -> len_str (spaces n) = n).
    { intros n Hn. unfold len_str, spaces.
      rewrite <- (Z2Nat.id n) at 2 by lia.
      f_equal. induction (Z.to_nat n) as [|k IH]; simpl; [reflexivity|now rewrite IH]. }
    rewrite Hsp by lia. lia.
Qed.

Lemma format_info_line_layout_witness :
  len_str "Popularity" + len_str (spaces (Z.max 2 (14 - len_str "Popularity"))) = 14.
Proof.
  apply (proj2 (format_info_line_layout "Popularity" "73%" Colors.PURPLE)).
  vm_compute. discriminate.
Defined.

End InfoLine.

(* ================================================================= *)
(** ** Dates *)

Section OrdinalDate.
Import Datetime DisplayFormatter.

Variable decimal : Z -> option Z.

#[local] Arguments in_range : simpl never.
#[local] Arguments consumed : simpl never.
#[local] Arguments make_date : simpl never.
#[local] Arguments int : simpl never.
#[local] Arguments decode : simpl never.

(** Four of the ASCII digits 0 to 9. *)
Definition four_digits (s : string) : Prop :=
  exists c1 c2 c3 c4,
    s = String c1 (String c2 (String c3 (String c4 "")))
    /\ in_range "0" "9" c1 = true /\ in_range "0" "9" c2 = true
    /\ in_range "0" "9" c3 = true /\ in_range "0" "9" c4 = true.

Lemma consumed_all (s : string) : consumed s "" = s.
Proof.
  unfold consumed. simpl. rewrite Nat.sub_0_r.
  induction s as [|c s IH]; simpl; [reflexivity|].
  now rewrite IH.
Qed.

Lemma make_date_inv (y m d : Z) (dt : date) :
  make_date y m d = Returned dt ->
  dt = Date y m d /\ 1 <= y <= 9999 /\ 1 <= m <= 12 /\ 1 <= d <= days_in_month y m.
Proof.
  unfold make_date.
  destruct ((1 <=? y) && (y <=? 9999))%bool eqn:Hy; simpl; [|discriminate].
  destruct ((1 <=? m) && (m <=? 12))%bool eqn:Hm; simpl; [|discriminate].
  destruct ((1 <=? d) && (d <=? days_in_month y m))%bool eqn:Hd; simpl; [|discriminate].
  intros [= <-].
  apply andb_prop in Hy, Hm, Hd.
  destruct Hy as [Hy1 Hy2], Hm as [Hm1 Hm2], Hd as [Hd1 Hd2].
  apply Z.leb_le in Hy1, Hy2, Hm1, Hm2, Hd1, Hd2. auto.
Qed.

Lemma make_date_ValueError (y m d : Z) (e : exn) :
  make_date y m d = Raised e -> exn_class e = "ValueError".
Proof.
  unfold make_date.
  repeat match goal with
         | |- context [if ?b then _ else _] => destruct b
         end; intros [= <-]; reflexivity.
Qed.

(** *** The expression of a year *)

(** What follows one decimal digit at the head of a string. *)
Definition after_digit (s : string) : option string :=
  match decode s with
  | Some (c, rest) =>
      match digit_of decimal c with
      | Some _ => Some rest
      | None => None
      end
  | None => None
  end.

(** What follows four of them. *)
Definition after_year (s : string) : option string :=
  match after_digit s with
  | Some s1 =>
      match after_digit s1 with
      | Some s2 =>
          match after_digit s2 with
          | Some s3 => after_digit s3
          | None => None
          end
      | None => None
      end
  | None => None
  end.

Lemma rmatch_digit {A : Type} (s : string) (caps : list string)
  (k : string -> list string -> option A) :
  rmatch decimal digit s caps k
  = match after_digit s with
    | Some rest => k rest caps
    | None => None
    end.
Proof.
  unfold digit, after_digit. cbn [rmatch].
  destruct (decode s) as [[c rest]|]; [|reflexivity].
  destruct (digit_of decimal c); reflexivity.
Qed.

Lemma rmatch_year {A : Type} (s : string) (caps : list string)
  (k : string -> list string -> option A) :
  rmatch decimal re_Y s caps k
  = match after_year s with
    | Some rest => k rest (caps ++ [consumed s rest])%list
    | None => None
    end.
Proof.
  unfold re_Y, after_year. cbn [rmatch]. rewrite rmatch_digit.
  destruct (after_digit s) as [s1|]; [|reflexivity]. rewrite rmatch_digit.
  destruct (after_digit s1) as [s2|]; [|reflexivity]. rewrite rmatch_digit.
  destruct (after_digit s2) as [s3|]; [|reflexivity]. rewrite rmatch_digit.
  destruct (after_digit s3); reflexivity.
Qed.

(** A string parses with ["%Y"] exactly when it is four decimal digits
    that read as a year from 1 to 9999; the date is the first of January
    of that year. *)
Lemma strptime_Y_inv (s : string) (dt : date) :
  strptime_Y decimal s = Returned dt ->
  after_year s = Some "" /\ dt = Date (int decimal s) 1 1 /\ 1 <= int decimal s <= 9999.
Proof.
  unfold strptime_Y, re_match. rewrite rmatch_year.
  destruct (after_year s) as [rest|]; [|discriminate]. cbn [app].
  destruct rest as [|c rest]; [|discriminate]. cbn [truthy_str].
  rewrite consumed_all. intros H. apply make_date_inv in H.
  destruct H as (-> & Hy & _). auto.
Qed.

Lemma strptime_Y_ValueError (s : string) (e : exn) :
  strptime_Y decimal s = Raised e -> exn_class e = "ValueError".
Proof.
  unfold strptime_Y.
  destruct (re_match decimal re_Y s) as [[caps rest]|]; [|intros [= <-]; reflexivity].
  destruct caps as [|Y [|? ?]]; try (intros [= <-]; reflexivity).
  destruct (truthy_str rest); [intros [= <-]; reflexivity|].
  apply make_date_ValueError.
Qed.

Lemma strptime_Ymd_ValueError (s : string) (e : exn) :
  strptime_Ymd decimal s = Raised e -> exn_class e = "ValueError".
Proof.
  unfold strptime_Ymd.
  destruct (re_match decimal re_Ymd s) as [[caps rest]|]; [|intros [= <-]; reflexivity].
  destruct caps as [|Y [|m [|d [|? ?]]]]; try (intros [= <-]; reflexivity).
  destruct (truthy_str rest); [intros [= <-]; reflexivity|].
  apply make_date_ValueError.
Qed.

(** A year alone never matches ["%Y-%m-%d"]: the hyphen is missing. *)
Lemma year_not_Ymd (s : string) :
  after_year s = Some "" -> exists e, strptime_Ymd decimal s = Raised e.
Proof.
  intros H. unfold strptime_Ymd, re_match, re_Ymd.
  cbn [rmatch]. rewrite rmatch_year, H. cbn [rmatch]. eexists. reflexivity.
Qed.

Lemma strptime_Ymd_inv (s : string) (dt : date) :
  strptime_Ymd decimal s = Returned dt ->
  1 <= year dt <= 9999 /\ 1 <= month dt <= 12
  /\ 1 <= day dt <= days_in_month (year dt) (month dt).
Proof.
  unfold strptime_Ymd.
  destruct (re_match decimal re_Ymd s) as [[caps rest]|]; [|discriminate].
  destruct caps as [|Y [|m [|d [|? ?]]]]; try discriminate.
  destruct (truthy_str rest); [discriminate|].
  intros Hmk. apply make_date_inv in Hmk. destruct Hmk as (-> & ? & ? & ?).
  simpl. auto.
Qed.

(** *** Decimal digits *)

Definition chr_digit (d : Z) : ascii := ascii_of_nat (Z.to_nat (48 + d)).

Definition digits4 (n : Z) : string :=
  String (chr_digit (n / 1000))
    (String (chr_digit (n / 100 mod 10))
       (String (chr_digit (n / 10 mod 10))
          (String (chr_digit (n mod 10)) ""))).

(** An ASCII digit is a character of its own, its value is its
    distance from ["0"], and it is not the blank. *)
Lemma digit_char (c : ascii) (r : string) :
  in_range "0" "9" c = true ->
  decode (String c r) = Some (byte c, r)
  /\ digit_of decimal (byte c) = Some (byte c - 48)
  /\ 0 <= byte c - 48 <= 9 /\ c = chr_digit (byte c - 48)
  /\ Ascii.eqb c " " = false.
Proof.
  intros H. unfold in_range in H. apply andb_prop in H. destruct H as [H1 H2].
  apply Nat.leb_le in H1, H2.
  change (nat_of_ascii "0") with 48%nat in H1.
  change (nat_of_ascii "9") with 57%nat in H2.
  assert (Hb : 48 <= byte c <= 57) by (unfold byte; lia).
  split; [|split; [|split; [|split]]].
  - unfold decode.
    replace (byte c <? 128) with true by (symmetry; apply Z.ltb_lt; lia).
    reflexivity.
  - unfold digit_of.
    replace (byte c <? 128) with true by (symmetry; apply Z.ltb_lt; lia).
    replace (48 <=? byte c) with true by (symmetry; apply Z.leb_le; lia).
    replace (byte c <=? 57) with true by (symmetry; apply Z.leb_le; lia).
    reflexivity.
  - lia.
  - unfold chr_digit, byte.
    replace (Z.to_nat (48 + (Z.of_nat (nat_of_ascii c) - 48)))
      with (nat_of_ascii c) by lia.
    symmetry. apply ascii_nat_embedding.
  - destruct (Ascii.eqb c " ") eqn:Heq; [|reflexivity].
    apply Ascii.eqb_eq in Heq. subst c.
    change (nat_of_ascii " ") with 32%nat in H1. lia.
Qed.

Lemma in_range_Z (a b n : Z) : a <= n < b -> In n (range a b).
Proof.
  intros H. unfold range. apply in_map_iff.
  exists (Z.to_nat (n - a)). split; [lia|]. apply in_seq. lia.
Qed.

Lemma str_digits4 (n : Z) : 1000 <= n <= 9999 -> str n = digits4 n.
Proof.
  intros H.
  assert (Hall : forallb (fun k => String.eqb (str k) (digits4 k))
                   (range 1000 10000) = true) by (vm_compute; reflexivity).
  rewrite forallb_forall in Hall.
  apply String.eqb_eq, Hall, in_range_Z. lia.
Qed.

(** Reading four ASCII digits and printing the number gives them back,
    unless the first is a zero. *)
Lemma four_digits_int (s : string) :
  four_digits s -> 0 <= int decimal s <= 9999 /\ digits4 (int decimal s) = s.
Proof.
  intros (c1 & c2 & c3 & c4 & -> & H1 & H2 & H3 & H4).
  destruct (digit_char c1 (String c2 (String c3 (String c4 ""))) H1)
    as (D1 & V1 & B1 & E1 & S1).
  destruct (digit_char c2 (String c3 (String c4 "")) H2) as (D2 & V2 & B2 & E2 & S2).
  destruct (digit_char c3 (String c4 "") H3) as (D3 & V3 & B3 & E3 & S3).
  destruct (digit_char c4 "" H4) as (D4 & V4 & B4 & E4 & S4).
  assert (Hint : int decimal (String c1 (String c2 (String c3 (String c4 ""))))
                 = 1000 * (byte c1 - 48) + 100 * (byte c2 - 48)
                   + 10 * (byte c3 - 48) + (byte c4 - 48)).
  { unfold int. cbn [String.length int_acc].
    rewrite S1, D1, S2, D2, S3, D3, S4, D4.
    unfold digit_val. rewrite V1, V2, V3, V4. lia. }
  rewrite Hint. split; [lia|].
  unfold digits4.
  set (n := 1000 * (byte c1 - 48) + 100 * (byte c2 - 48) + 10 * (byte c3 - 48)
            + (byte c4 - 48)).
  replace (n / 1000) with (byte c1 - 48)
    by (subst n; Z.div_mod_to_equations; lia).
  replace (n / 100 mod 10) with (byte c2 - 48)
    by (subst n; Z.div_mod_to_equations; lia).
  replace (n / 10 mod 10) with (byte c3 - 48)
    by (subst n; Z.div_mod_to_equations; lia).
  replace (n mod 10) with (byte c4 - 48)
    by (subst n; Z.div_mod_to_equations; lia).
  now rewrite <- E1, <- E2, <- E3, <- E4.
Qed.

Lemma ordinal_suffix_rule (day : Z) :
  ordinal_suffix day
  = if ((11 <=? day) && (day <=? 13))%bool then "th"
    else if day mod 10 =? 1 then "st"
    else if day mod 10 =? 2 then "nd"
    else if day mod 10 =? 3 then "rd"
    else "th".
Proof.
  unfold ordinal_suffix.
  destruct ((11 <=? day) && (day <=? 13))%bool; [reflexivity|].
  destruct (day mod 10) as [|p|p]; try reflexivity.
  destruct p as [[p|p|]|[p|p|]|]; reflexivity.
Qed.

End OrdinalDate.
Section OrdinalDateClaims.
Import Datetime DisplayFormatter.

Variable decimal : Z -> option Z.
Variable strftime_Y : date -> string.

Lemma format_date_empty : _format_ordinal_date decimal strftime_Y "" = Returned "N/A".
Proof. reflexivity. Qed.

Lemma format_date_Ymd (s : string) (d : date) :
  strptime_Ymd decimal s = Returned d ->
  _format_ordinal_date decimal strftime_Y s
  = Returned (str (day d) ++ ordinal_suffix (day d) ++ " " ++ strftime_b d
                ++ " " ++ str (year d)).
Proof.
  intros H. unfold _format_ordinal_date.
  destruct s as [|c s]; [vm_compute in H; discriminate|].
  change (negb (truthy_str (String c s))) with false. cbv iota.
  rewrite H. reflexivity.
Qed.

Lemma format_date_Y (s : string) (d : date) :
  strptime_Y decimal s = Returned d ->
  _format_ordinal_date decimal strftime_Y s = Returned (strftime_Y d).
Proof.
  intros H. unfold _format_ordinal_date.
  destruct (strptime_Y_inv decimal s d H) as (H4 & _ & _).
  destruct (year_not_Ymd decimal s H4) as [e He].
  destruct s as [|c s]; [vm_compute in H; discriminate|].
  change (negb (truthy_str (String c s))) with false. cbv iota.
  rewrite He, H. simpl.
  rewrite (strptime_Ymd_ValueError _ _ _ He). reflexivity.
Qed.

Lemma format_date_verbatim (s : string) :
  s <> "" ->
  (exists e, strptime_Ymd decimal s = Raised e) ->
  (exists e, strptime_Y decimal s = Raised e) ->
  _format_ordinal_date decimal strftime_Y s = Returned s.
Proof.
  intros Hne [e He] [e' He']. unfold _format_ordinal_date.
  destruct s as [|c s]; [congruence|].
  change (negb (truthy_str (String c s))) with false. cbv iota.
  rewrite He, He'. simpl.
  rewrite (strptime_Ymd_ValueError _ _ _ He). simpl.
  rewrite (strptime_Y_ValueError _ _ _ He'). reflexivity.
Qed.

End OrdinalDateClaims.

Section OrdinalDateTheorems.
Import Datetime DisplayFormatter.

(** C3, as stated, at "0999" where [strftime] is glibc's: the string
    parses as a bare year and is not echoed. *)
Lemma format_ordinal_date_year_not_echoed :
  strptime_Y decimal_unicode14 "0999" = Returned (Date 999 1 1)
  /\ _format_ordinal_date decimal_unicode14 strftime_Y_glibc "0999" = Returned "999"
  /\ _format_ordinal_date decimal_unicode14 strftime_Y_glibc "0999" <> Returned "0999".
Proof.
  split; [|split].
  - vm_compute. reflexivity.
  - vm_compute. reflexivity.
  - vm_compute. discriminate.
Qed.

(** A year written in the digits of another script parses as well, and
    comes back in ASCII digits: the four Arabic-Indic digits of 2014
    give "2014", and with an ASCII month and day, in which only the
    second digit of the day may be of another script, the date of the
    23rd December 2014. *)
Lemma format_ordinal_date_other_scripts :
  _format_ordinal_date decimal_unicode14 strftime_Y_glibc "٢٠١٤" = Returned "2014"
  /\ _format_ordinal_date decimal_unicode14 strftime_Y_glibc "٢٠١٤-12-2٣"
     = Returned "23rd Dec 2014"
  /\ _format_ordinal_date decimal_unicode14 strftime_Y_glibc "٢٠١٤-١٢-٢٣"
     = Returned "٢٠١٤-١٢-٢٣".
Proof. repeat split; vm_compute; reflexivity. Qed.

(** C3, amended. Whatever the decimal digits of the platform are, if
    its [strftime("%Y")] prints a year from 1000 on as its decimal
    digits, then for every string [s]: the empty string gives "N/A"; a
    string that parses as YYYY-MM-DD gives "{day}{suffix} {Mon} {year}"
    with day and year as plain numbers and the suffix "th" for the days
    11 to 13 and otherwise by the last digit (1 st, 2 nd, 3 rd, else
    th); a string that parses as a bare year gives [strftime("%Y")] of
    that year, which is the string itself when it is written in the
    ASCII digits and the year is at least 1000; any other string is
    returned verbatim.  The four examples of the claim hold. *)
Theorem format_ordinal_date_cases (decimal : Z -> option Z) (strftime_Y : date -> string) :
  (forall d, 1000 <= year d <= 9999 -> strftime_Y d = str (year d)) ->
  forall s : string,
    (s = "" -> _format_ordinal_date decimal strftime_Y s = Returned "N/A")
    /\ (forall d, strptime_Ymd decimal s = Returned d ->
          let suffix :=
            if ((11 <=? day d) && (day d <=? 13))%bool then "th"
            else if day d mod 10 =? 1 then "st"
            else if day d mod 10 =? 2 then "nd"
            else if day d mod 10 =? 3 then "rd"
            else "th" in
          _format_ordinal_date decimal strftime_Y s
          = Returned (str (day d) ++ suffix ++ " " ++ strftime_b d ++ " "
                        ++ str (year d)))
    /\ (forall d, strptime_Y decimal s = Returned d ->
          _format_ordinal_date decimal strftime_Y s = Returned (strftime_Y d)
          /\ (four_digits s -> 1000 <= year d ->
              _format_ordinal_date decimal strftime_Y s = Returned s))
    /\ (s <> "" ->
        (exists e, strptime_Ymd decimal s = Raised e) ->
        (exists e, strptime_Y decimal s = Raised e) ->
        _format_ordinal_date decimal strftime_Y s = Returned s)
    /\ _format_ordinal_date decimal strftime_Y "2020-01-01" = Returned "1st Jan 2020"
    /\ _format_ordinal_date decimal strftime_Y "2021-01-11" = Returned "11th Jan 2021"
    /\ _format_ordinal_date decimal strftime_Y "1999" = Returned "1999"
    /\ _format_ordinal_date decimal strftime_Y "not-a-date" = Returned "not-a-date".
Proof.
  intros Hplatform s.
  split; [intros ->; apply format_date_empty|].
  split; [intros d Hd; cbv zeta; rewrite <- ordinal_suffix_rule;
          now apply format_date_Ymd|].
  split.
  { intros d Hd. split; [now apply format_date_Y|].
    intros H4 Hy. rewrite (format_date_Y decimal strftime_Y s d Hd).
    destruct (strptime_Y_inv decimal s d Hd) as (_ & Hdate & Hrange).
    destruct (four_digits_int decimal s H4) as [_ Hdigits].
    assert (Hyear : year d = int decimal s) by (now rewrite Hdate).
    rewrite Hplatform by lia.
    rewrite str_digits4 by lia. now rewrite Hyear, Hdigits. }
  split; [apply format_date_verbatim|].
  split; [vm_compute; reflexivity|].
  split; [vm_compute; reflexivity|].
  split; [|vm_compute; reflexivity].
  rewrite (format_date_Y decimal strftime_Y "1999" (Date 1999 1 1))
    by (vm_compute; reflexivity).
  rewrite Hplatform by (simpl; lia). reflexivity.
Qed.

Lemma format_ordinal_date_cases_witness :
  _format_ordinal_date decimal_unicode14 strftime_Y_glibc "2014" = Returned "2014".
Proof.
  refine (proj2 (proj1 (proj2 (proj2 (format_ordinal_date_cases decimal_unicode14
            strftime_Y_glibc (fun d _ => eq_refl) "2014"))) (Date 2014 1 1) _) _ _).
  - vm_compute. reflexivity.
  - exists "2"%char, "0"%char, "1"%char, "4"%char. repeat split.
  - simpl. lia.
Defined.

End OrdinalDateTheorems.

(* ================================================================= *)
(** ** Durations *)

Section Duration.
Import Datetime DisplayFormatter.

(** The arithmetic behind the rounding: a quotient of [ms * 1000 * P] by
    [10^6], moved up by at most one when the remainder is at least a
    half, still has [ms / 1000] as its integer part as long as the
    milliseconds past the second stay half a unit below the next one. *)
Lemma round_floor_core (ms P q r m : Z) :
  0 <= ms -> 0 < P ->
  1000 * ((ms mod 1000) * P) + 500000 < 1000000 * P ->
  ms * 1000 * P = q * 1000000 + r -> 0 <= r < 1000000 ->
  m = q \/ (m = q + 1 /\ 1000000 <= 2 * r) ->
  m / P = ms / 1000.
Proof.
  intros Hms HP Hroom Hdiv Hr Hm.
  pose proof (Z.div_mod ms 1000 ltac:(lia)) as Hdm.
  pose proof (Z.mod_pos_bound ms 1000 ltac:(lia)) as Hmod.
  set (n := ms / 1000) in *. set (t := ms mod 1000) in *.
  assert (HY : 0 <= t * P) by nia.
  assert (HX : ms * 1000 * P = 1000000 * (n * P) + 1000 * (t * P)) by (rewrite Hdm; ring).
  set (X := n * P) in *. set (Y := t * P) in *.
  symmetry. apply (Z.div_unique m P n (m - X)); [lia|].
  subst X. lia.
Qed.

(** Up to 17592186044416998 ms the float [total_seconds()] truncates to
    the whole seconds. *)
Lemma true_divide_ms (ms : Z) :
  0 <= ms < 17592186044416999 ->
  int_of_float (true_divide (ms * 1000) (10 ^ 6)) = ms / 1000.
Proof.
  intros Hms. unfold true_divide.
  destruct (ms * 1000 =? 0) eqn:Hz.
  - apply Z.eqb_eq in Hz. assert (ms = 0) by lia. subst. reflexivity.
  - apply Z.eqb_neq in Hz.
    rewrite (Z.abs_eq (ms * 1000)) by lia.
    replace (Z.sgn (ms * 1000)) with 1 by (symmetry; apply Z.sgn_pos; lia).
    change (Z.log2 (10 ^ 6)) with 19.
    change (10 ^ 6) with 1000000. change (2 ^ 53) with 9007199254740992.
    set (a := ms * 1000).
    assert (Ha : 0 < a < 17592186044416999000) by (subst a; lia).
    pose proof (Z.log2_nonneg a) as HL0.
    assert (HL : Z.log2 a < 64).
    { apply Z.log2_lt_pow2; [lia|]. change (2 ^ 64) with 18446744073709551616. lia. }
    set (e0 := Z.log2 a - 19 - 53).
    assert (He0 : e0 <= -9) by (subst e0; lia).
    unfold scale at 1.
    replace (e0 <? 0) with true by (symmetry; apply Z.ltb_lt; lia).
    set (e := if a * 2 ^ (- e0) / 1000000 <? 9007199254740992 then e0 else e0 + 1).
    assert (He : e < 0
                 /\ 1000 * ((ms mod 1000) * 2 ^ (- e)) + 500000 < 1000000 * 2 ^ (- e)).
    { pose proof (Z.mod_pos_bound ms 1000 ltac:(lia)) as Hmod.
      destruct (Z_lt_le_dec ms 17592186044416000) as [Hsmall|Hlarge].
      - (* below 2^44 seconds the exponent is at most -9 *)
        assert (He : e <= -9).
        { subst e. destruct (Z.eq_dec e0 (-9)) as [E|E].
          - rewrite E.
            replace (a * 2 ^ (- -9) / 1000000 <? 9007199254740992) with true; [lia|].
            symmetry. apply Z.ltb_lt. apply Z.div_lt_upper_bound; [lia|].
            change (2 ^ (- -9)) with 512. lia.
          - destruct (a * 2 ^ (- e0) / 1000000 <? 9007199254740992); lia. }
        split; [lia|].
        assert (HP : 512 <= 2 ^ (- e)).
        { change 512 with (2 ^ 9). apply Z.pow_le_mono_r; lia. }
        nia.
      - (* from 2^44 seconds on it is -8, and at most 998 ms are left *)
        assert (E : e0 = -9).
        { subst e0.
          assert (Z.log2 a = 63); [|lia].
          apply Z.log2_unique; [lia|].
          change (2 ^ 63) with 9223372036854775808.
          change (2 ^ Z.succ 63) with 18446744073709551616. lia. }
        subst e. rewrite E.
        replace (a * 2 ^ (- -9) / 1000000 <? 9007199254740992) with false.
        + split; [lia|]. change (2 ^ (- (-9 + 1))) with 256.
          assert (ms mod 1000 <= 998)
            by (clear - Hms Hlarge; Z.div_mod_to_equations; lia).
          lia.
        + symmetry. apply Z.ltb_ge. apply Z.div_le_lower_bound; [lia|].
          change (2 ^ (- -9)) with 512. lia. }
    clearbody e. clear He0 e0. destruct He as [He Hroom].
    unfold scale.
    replace (e <? 0) with true by (symmetry; apply Z.ltb_lt; lia).
    set (P := 2 ^ (- e)) in *.
    assert (HP : 0 < P) by (subst P; apply Z.pow_pos_nonneg; lia).
    pose proof (Z.div_mod (a * P) 1000000 ltac:(lia)) as Hdm.
    pose proof (Z.mod_pos_bound (a * P) 1000000 ltac:(lia)) as Hmod.
    assert (Hq : 0 <= a * P / 1000000) by (apply Z.div_pos; nia).
    set (q := a * P / 1000000) in *. set (r := (a * P) mod 1000000) in *.
    set (m := if 2 * r <? 1000000 then q
              else if 1000000 <? 2 * r then q + 1
              else if Z.even q then q else q + 1).
    assert (Hm : m = q \/ (m = q + 1 /\ 1000000 <= 2 * r)).
    { subst m. destruct (2 * r <? 1000000) eqn:C1; [now left|].
      apply Z.ltb_ge in C1.
      destruct (1000000 <? 2 * r); [now right|].
      destruct (Z.even q); [now left|now right]. }
    unfold int_of_float. cbn [mant expo].
    replace (0 <=? e) with false by (symmetry; apply Z.leb_gt; lia).
    fold P. rewrite Z.mul_1_l.
    rewrite Z.quot_div_nonneg by lia.
    apply (round_floor_core ms P q r m); lia.
Qed.

Lemma fmt_02d_seconds (n : Z) :
  0 <= n < 60 -> fmt_02d n = if n <? 10 then "0" ++ str n else str n.
Proof.
  intros H.
  assert (Hall : forallb
                   (fun k => String.eqb (fmt_02d k)
                               (if k <? 10 then "0" ++ str k else str k))
                   (range 0 60) = true) by (vm_compute; reflexivity).
  rewrite forallb_forall in Hall.
  apply String.eqb_eq, Hall, in_range_Z. lia.
Qed.

(** The normalised [timedelta] of a count of milliseconds holds exactly
    its microseconds. *)
Lemma timedelta_milliseconds_total (ms : Z) :
  0 <= ms < 17592186044416999 ->
  exists duration,
    timedelta_milliseconds ms = Returned duration
    /\ total_seconds duration = true_divide (ms * 1000) (10 ^ 6).
Proof.
  intros Hms. unfold timedelta_milliseconds.
  set (us := ms * 1000).
  assert (Hd : 0 <= us / 1000000 / 86400 <= 999999999).
  { split.
    - apply Z.div_pos; [apply Z.div_pos|]; lia.
    - rewrite Z.div_div by lia. apply Z.lt_succ_r.
      apply Z.div_lt_upper_bound; lia. }
  replace (999999999 <? Z.abs (us / 1000000 / 86400)) with false
    by (symmetry; apply Z.ltb_ge; lia).
  eexists. split; [reflexivity|].
  unfold total_seconds. cbn [days seconds microseconds]. f_equal.
  change (10 ^ 6) with 1000000.
  pose proof (Z.div_mod us 1000000 ltac:(lia)).
  pose proof (Z.div_mod (us / 1000000) 86400 ltac:(lia)).
  lia.
Qed.

(** C8, as stated, at 17592186044416999 ms: the float of the seconds
    rounds up to the next whole second and the formatter prints 17
    where the floor division gives 16. *)
Lemma format_duration_rounds_up :
  bind (timedelta_milliseconds 17592186044416999)
       (fun d => Returned (_format_duration d))
  = Returned "293203100740:17"
  /\ bind (timedelta_milliseconds 17592186044416999)
          (fun d => Returned (_format_duration d))
     <> Returned (str (17592186044416999 / 60000) ++ ":"
                    ++ fmt_02d (17592186044416999 / 1000 mod 60)).
Proof. split; vm_compute; [reflexivity | discriminate]. Qed.

(** C8, amended. For every millisecond count from 0 up to
    17592186044416998 (the counts whose seconds are still exact as a
    float), the formatter applied to [timedelta(milliseconds=ms)]
    returns "{ms div 60000}:{(ms div 1000) mod 60}" with the seconds
    zero-filled to two digits; 125000 ms gives "2:05" and 59999 ms
    gives "0:59". *)
Theorem format_duration_floor (ms : Z) :
  0 <= ms < 17592186044416999 ->
  (exists duration,
      timedelta_milliseconds ms = Returned duration
      /\ _format_duration duration
         = str (ms / 60000) ++ ":"
             ++ (let seconds := ms / 1000 mod 60 in
                 if seconds <? 10 then "0" ++ str seconds else str seconds))
  /\ bind (timedelta_milliseconds 125000) (fun d => Returned (_format_duration d))
     = Returned "2:05"
  /\ bind (timedelta_milliseconds 59999) (fun d => Returned (_format_duration d))
     = Returned "0:59".
Proof.
  intros Hms. split; [|split; vm_compute; reflexivity].
  destruct (timedelta_milliseconds_total ms Hms) as (duration & Hd & Htotal).
  exists duration. split; [exact Hd|].
  unfold _format_duration. rewrite Htotal, true_divide_ms by exact Hms.
  rewrite Z.div_div by lia. change (1000 * 60) with 60000.
  rewrite fmt_02d_seconds by (apply Z.mod_pos_bound; lia).
  reflexivity.
Qed.

Lemma format_duration_floor_witness :
  exists duration,
    timedelta_milliseconds 213000 = Returned duration
    /\ _format_duration duration
       = str (213000 / 60000) ++ ":"
           ++ (let seconds := 213000 / 1000 mod 60 in
               if seconds <? 10 then "0" ++ str seconds else str seconds).
Proof.
  refine (proj1 (format_duration_floor 213000 _)). lia.
Defined.

End Duration.

(* ================================================================= *)
(** ** The image renderer *)

Section Renderer.
Import ImageRenderer.

Context {Image : Type}.
Variable w : World Image.
Variable self : ImageRenderer.

Lemma split_lines_nonempty (s : string) : split_lines s <> [].
Proof.
  induction s as [|c s IH]; simpl; [discriminate|].
  destruct (Ascii.eqb c "010"); [discriminate|].
  destruct (split_lines s); [contradiction|discriminate].
Qed.

(** Padding then cutting leaves exactly [n] lines. *)
Lemma pad_then_cut (lines : list string) (n : Z) (blank : string) :
  0 <= n ->
  let padded := pad_lines lines n blank in
  len (if n <? len padded then slice_to padded n else padded) = n.
Proof.
  intros Hn padded.
  assert (Hlen : List.length padded
                 = (List.length lines + Z.to_nat (n - len lines))%nat)
    by (subst padded; unfold pad_lines; now rewrite length_app, repeat_length).
  destruct (n <? len padded) eqn:Hcmp.
  - apply Z.ltb_lt in Hcmp. unfold slice_to.
    replace (n <? 0) with false by (symmetry; apply Z.ltb_ge; lia).
    unfold len in *. rewrite length_firstn. lia.
  - apply Z.ltb_ge in Hcmp. unfold len in *. lia.
Qed.

(** The external renderer's lines are forced to the height. *)
Lemma chafa_lines_height (image_url : string) (lines : list string) :
  0 <= height self ->
  _render_with_chafa w self image_url = Returned (Some lines) ->
  len lines = height self.
Proof.
  intros Hh. unfold _render_with_chafa, _download_to_temp, try_except.
  destruct (fetch_to_temp w image_url) as [temp_file|e]; cbn [bind].
  2:{ destruct (is_exception e); cbn; [discriminate|].
      destruct (is_exception e); discriminate. }
  destruct (negb (truthy_str temp_file)); [discriminate|].
  destruct (run w (chafa_cmd self temp_file)) as [stdout|e]; cbn [bind].
  2:{ destruct (is_exception e); discriminate. }
  destruct (unlink w temp_file) as [u|e]; cbn [bind].
  2:{ destruct (is_exception e); discriminate. }
  intros [= <-]. now apply pad_then_cut.
Qed.

Lemma block_lines_length (img : Image) (ys : list Z) (acc lines : list string) :
  block_lines w self img ys acc = Returned lines ->
  List.length lines = (List.length acc + List.length ys)%nat.
Proof.
  revert acc. induction ys as [|y ys IH]; intros acc; simpl.
  - intros [= <-]. lia.
  - destruct (block_line w img y (range 0 (width self)) " ") as [line|e];
      simpl; [|discriminate].
    intros H. apply IH in H. rewrite H, length_app. simpl. lia.
Qed.

(** The block art has one line per row of the fitted image. *)
Lemma block_art_height (img : Image) (lines : list string) :
  0 <= height self ->
  _get_block_art_lines w self img = Returned lines ->
  len lines = height self.
Proof.
  intros Hh. unfold _get_block_art_lines.
  destruct (convert_RGB w img) as [img1|]; simpl; [|discriminate].
  destruct (fit w img1 (width self) (height self)) as [img2|]; simpl; [|discriminate].
  intros H. apply block_lines_length in H.
  unfold len. rewrite H, range_length. simpl. lia.
Qed.

(** The fallback gives the block art, of the height, or the
    placeholder when the download or the conversion raised an
    [Exception]; anything else that is raised there leaves it. *)
Lemma fallback_lines (image_url : string) :
  0 <= height self ->
  match fallback w self image_url with
  | Returned lines =>
      len lines = height self
      \/ (lines = _get_placeholder_lines
          /\ exists e, bind (_download_image w image_url)
                            (_get_block_art_lines w self) = Raised e
                       /\ is_exception e = true)
  | Raised e =>
      bind (_download_image w image_url) (_get_block_art_lines w self) = Raised e
      /\ is_exception e = false
  end.
Proof.
  intros Hh. unfold fallback.
  destruct (bind (_download_image w image_url) (_get_block_art_lines w self))
    as [lines|e] eqn:Hbody; simpl.
  - left. unfold bind in Hbody.
    destruct (_download_image w image_url) as [img|]; [|discriminate].
    now apply (block_art_height img).
  - destruct (is_exception e) eqn:He.
    + right. split; [reflexivity|]. now exists e.
    + now split.
Qed.

End Renderer.

Section RendererClaims.
Import ImageRenderer.

(** The fallback is reached when the probe says no, or when the
    external renderer gave nothing. *)
Definition on_fallback_path {Image : Type} (w : World Image)
  (self : ImageRenderer) (image_url : string) : Prop :=
  _is_chafa_available w = Returned false
  \/ (_is_chafa_available w = Returned true
      /\ (_render_with_chafa w self image_url = Returned None
          \/ _render_with_chafa w self image_url = Returned (Some []))).

(** A machine without [chafa] and without network. *)
Definition offline : World unit :=
  {| chafa_version := Raised (Exn "FileNotFoundError" "No such file or directory: 'chafa'");
     fetch_to_temp := fun _ => Raised (Exn "ConnectionError" "Network is unreachable");
     run := fun _ => Raised (Exn "FileNotFoundError" "No such file or directory: 'chafa'");
     unlink := fun _ => Returned tt;
     fetch_image := fun _ => Raised (Exn "ConnectionError" "Network is unreachable");
     convert_RGB := fun img => Returned img;
     fit := fun img _ _ => Returned img;
     getpixel := fun _ _ _ => Returned (0, 0, 0) |}.

(** A machine without [chafa] whose downloads succeed, and one with
    [chafa]; the image is black. *)
Definition online : World unit :=
  {| chafa_version := Raised (Exn "FileNotFoundError" "No such file or directory: 'chafa'");
     fetch_to_temp := fun _ => Returned "/tmp/tmpq1w2e3.jpg";
     run := fun _ => Raised (Exn "FileNotFoundError" "No such file or directory: 'chafa'");
     unlink := fun _ => Returned tt;
     fetch_image := fun _ => Returned tt;
     convert_RGB := fun img => Returned img;
     fit := fun img _ _ => Returned img;
     getpixel := fun _ _ _ => Returned (0, 0, 0) |}.

Definition online_with_chafa : World unit :=
  {| chafa_version := Returned tt;
     fetch_to_temp := fun _ => Returned "/tmp/tmpq1w2e3.jpg";
     run := fun _ => Returned ("##" ++ String "010" "##" ++ String "010" "");
     unlink := fun _ => Returned tt;
     fetch_image := fun _ => Returned tt;
     convert_RGB := fun img => Returned img;
     fit := fun img _ _ => Returned img;
     getpixel := fun _ _ _ => Returned (0, 0, 0) |}.

Lemma render_on_fallback {Image : Type} (w : World Image)
  (self : ImageRenderer) (image_url : string) :
  image_url <> "" -> on_fallback_path w self image_url ->
  render_image_lines w self image_url = fallback w self image_url.
Proof.
  intros Hurl Hpath. unfold render_image_lines.
  destruct image_url as [|c u]; [congruence|]. cbn [truthy_str negb].
  destruct Hpath as [Hno | [Hyes [Hnone | Hempty]]].
  - rewrite Hno. reflexivity.
  - rewrite Hyes. simpl. rewrite Hnone. reflexivity.
  - rewrite Hyes. simpl. rewrite Hempty. reflexivity.
Qed.

(** C1. The code at a renderer of size 15 on a machine without [chafa]
    whose download fails: 20 lines come back, not 15.  On the two other
    paths the same renderer returns its 15 lines: the block art where
    the download succeeds, and the output of [chafa] where there is
    one. *)
Lemma render_placeholder_not_height :
  (exists lines,
      render_image_lines offline (init 15) "https://i.scdn.co/image/ab67616d"
      = Returned lines
      /\ len lines = 20 /\ len lines <> height (init 15))
  /\ (exists lines,
         render_image_lines online (init 15) "https://i.scdn.co/image/ab67616d"
         = Returned lines
         /\ len lines = height (init 15))
  /\ (exists lines,
         render_image_lines online_with_chafa (init 15) "https://i.scdn.co/image/ab67616d"
         = Returned lines
         /\ len lines = height (init 15)).
Proof.
  split; [|split].
  - exists _get_placeholder_lines. split; [|split].
    + vm_compute. reflexivity.
    + vm_compute. reflexivity.
    + vm_compute. discriminate.
  - eexists. split; [vm_compute; reflexivity|]. vm_compute. reflexivity.
  - eexists. split; [vm_compute; reflexivity|]. vm_compute. reflexivity.
Qed.

(** *** The placeholder, written out *)

(** A line of the box: a blank, the white colour, 33 characters, the
    reset. *)
Definition white (body : string) : string :=
  " " ++ String "027" "[37m" ++ body ++ String "027" "[0m".

(** The grid: eight lines of box, twelve lines of 33 blanks. *)
Definition no_image_grid : list string :=
  [ white "┌───────────────────────────────┐";
    white "│                               │";
    white "│                               │";
    white "│           NO IMAGE            │";
    white "│           AVAILABLE           │";
    white "│                               │";
    white "│                               │";
    white "└───────────────────────────────┘";
    "                                 ";
    "                                 ";
    "                                 ";
    "                                 ";
    "                                 ";
    "                                 ";
    "                                 ";
    "                                 ";
    "                                 ";
    "                                 ";
    "                                 ";
    "                                 " ].

(** C5. With an empty URL, and whenever the fallback is reached and its
    download or decoding (or the conversion after it) fails with an
    [Exception], the result is the placeholder grid, whatever the size
    of the renderer: 20 lines, of which the first eight are, each after
    a blank and between the white colour and the reset, the 33
    characters of a box line (the top border, two empty lines, "NO
    IMAGE" after 11 blanks, "AVAILABLE" after 11 blanks, two empty
    lines, the bottom border), and the other twelve are 33 blanks. *)
Theorem placeholder_grid {Image : Type} (w : World Image)
  (self : ImageRenderer) (image_url : string) :
  (image_url = "" ->
   render_image_lines w self image_url = Returned no_image_grid)
  /\ (forall e,
         image_url <> "" -> on_fallback_path w self image_url ->
         _download_image w image_url = Raised e -> is_exception e = true ->
         render_image_lines w self image_url = Returned no_image_grid)
  /\ (forall e,
         image_url <> "" -> on_fallback_path w self image_url ->
         bind (_download_image w image_url) (_get_block_art_lines w self) = Raised e ->
         is_exception e = true ->
         render_image_lines w self image_url = Returned no_image_grid)
  /\ List.length no_image_grid = 20%nat
  /\ (forall i, (i < 8)%nat ->
        exists body, nth i no_image_grid "" = white body /\ len_str body = 33)
  /\ (forall i, (8 <= i < 20)%nat -> nth i no_image_grid "" = spaces 33)
  /\ nth 3 no_image_grid ""
     = white ("│" ++ spaces 11 ++ "NO IMAGE" ++ spaces 12 ++ "│")
  /\ nth 4 no_image_grid ""
     = white ("│" ++ spaces 11 ++ "AVAILABLE" ++ spaces 11 ++ "│").
Proof.
  assert (Hgrid : _get_placeholder_lines = no_image_grid) by reflexivity.
  assert (Hbody : forall e,
             image_url <> "" -> on_fallback_path w self image_url ->
             bind (_download_image w image_url) (_get_block_art_lines w self) = Raised e ->
             is_exception e = true ->
             render_image_lines w self image_url = Returned no_image_grid).
  { intros e Hurl Hpath Hfail He.
    rewrite render_on_fallback by assumption.
    unfold fallback, try_except. rewrite Hfail, He, Hgrid. reflexivity. }
  split; [intros ->; reflexivity|].
  split.
  { intros e Hurl Hpath Hfail He. apply (Hbody e Hurl Hpath); [|exact He].
    rewrite Hfail. reflexivity. }
  split; [exact Hbody|].
  split; [reflexivity|].
  split.
  { intros i Hi.
    do 8 (destruct i as [|i]; [eexists; split; reflexivity|]). lia. }
  split.
  { intros i Hi.
    do 8 (destruct i as [|i]; [lia|]).
    do 12 (destruct i as [|i]; [reflexivity|]). lia. }
  split; reflexivity.
Qed.

Lemma placeholder_grid_witness :
  render_image_lines offline (init 35) "https://i.scdn.co/image/ab67616d"
  = Returned no_image_grid.
Proof.
  refine (proj1 (proj2 (placeholder_grid offline (init 35)
                          "https://i.scdn.co/image/ab67616d"))
            (Exn "ConnectionError" "Network is unreachable") _ _ _ _).
  - discriminate.
  - left. reflexivity.
  - reflexivity.
  - reflexivity.
Defined.

End RendererClaims.
(* ================================================================= *)
(** ** The token cache *)

Section Authenticate.
Import Json SpotifyClient.

(** A token endpoint that answers 200 with a one-hour token, read at
    clock 1000. *)
Definition granting : World :=
  {| time_at_check := 1000;
     time_at_store := 1001;
     b64encode := fun credentials => "aWQ6c2VjcmV0";
     post := fun _ =>
       Returned {| status_code := 200;
                   text := "";
                   json_body := Returned (JDict [("access_token", JStr "BQD");
                                                 ("token_type", JStr "Bearer");
                                                 ("expires_in", JNum 3600)]) |} |}.

(** The token exchange of the client-credentials flow: a POST to the
    token address carrying the base64 of "id:secret" as Basic
    authorization and the grant type as form data. *)
Definition client_credentials_grant (w : World) (self : SpotifyClient) : Request :=
  {| url := auth_url self;
     headers :=
       [ ("Authorization",
          "Basic " ++ b64encode w (client_id self ++ ":" ++ client_secret self));
         ("Content-Type", "application/x-www-form-urlencoded") ];
     data := [ ("grant_type", "client_credentials") ];
     timeout := 30 |}.

(** C7. [_authenticate] is lazy: while the clock is before the cached
    expiry it sends nothing and leaves the client as it is; otherwise (a
    new client has expiry 0) it sends exactly one request, the token
    exchange.  After a 200 answer with a token and a lifetime the
    cached token is the token of the answer and the cached expiry is
    [now + expires_in], the rest of the client being as before; any
    other status raises "Authentication failed: {status} - {body}" and
    leaves the client, token and expiry included, as it is. *)
Theorem authenticate_lazy (w : World) (self : SpotifyClient) :
  (time_at_check w < token_expiry self ->
   _authenticate w self = {| result := Returned tt; client := self; sent := [] |})
  /\ (token_expiry self <= time_at_check w ->
      sent (_authenticate w self) = [client_credentials_grant w self])
  /\ (forall id secret,
         0 <= time_at_check w ->
         sent (_authenticate w (init id secret))
         = [ {| url := "https://accounts.spotify.com/api/token";
                headers :=
                  [ ("Authorization", "Basic " ++ b64encode w (id ++ ":" ++ secret));
                    ("Content-Type", "application/x-www-form-urlencoded") ];
                data := [ ("grant_type", "client_credentials") ];
                timeout := 30 |} ])
  /\ (forall response payload token expires_in,
         token_expiry self <= time_at_check w ->
         post w (client_credentials_grant w self) = Returned response ->
         status_code response = 200 ->
         json_body response = Returned (JDict payload) ->
         lookup payload "access_token" = Some token ->
         lookup payload "expires_in" = Some (JNum expires_in) ->
         let after := _authenticate w self in
         result after = Returned tt
         /\ sent after = [client_credentials_grant w self]
         /\ access_token (client after) = token
         /\ token_expiry (client after) = time_at_store w + expires_in
         /\ client_id (client after) = client_id self
         /\ client_secret (client after) = client_secret self
         /\ base_url (client after) = base_url self
         /\ auth_url (client after) = auth_url self)
  /\ (forall response,
         token_expiry self <= time_at_check w ->
         post w (client_credentials_grant w self) = Returned response ->
         status_code response <> 200 ->
         _authenticate w self
         = {| result := Raised (Exn "Exception"
                                  ("Authentication failed: "
                                     ++ str (status_code response) ++ " - "
                                     ++ text response));
              client := self;
              sent := [client_credentials_grant w self] |}).
Proof.
  assert (Hsent : forall c, token_expiry c <= time_at_check w ->
                            sent (_authenticate w c) = [client_credentials_grant w c]).
  { intros c Hexp. unfold _authenticate.
    replace (time_at_check w <? token_expiry c) with false
      by (symmetry; apply Z.ltb_ge; lia).
    destruct (post w (token_request w c)) as [response|e]; [|reflexivity].
    destruct (negb (status_code response =? 200)); [reflexivity|].
    destruct (json_body response) as [token_data|e]; [|reflexivity].
    destruct (getitem_str token_data "access_token") as [token|e]; [|reflexivity].
    destruct (bind (getitem_str token_data "expires_in")
                   (add_seconds (time_at_store w))); reflexivity. }
  split; [|split; [|split; [|split]]].
  - intros Hvalid. unfold _authenticate.
    replace (time_at_check w <? token_expiry self) with true
      by (symmetry; apply Z.ltb_lt; lia).
    reflexivity.
  - apply Hsent.
  - intros id secret Hnow. apply Hsent. exact Hnow.
  - intros response payload token expires_in Hexp Hpost Hok Hjson Htok Hlife after.
    subst after. unfold _authenticate.
    replace (time_at_check w <? token_expiry self) with false
      by (symmetry; apply Z.ltb_ge; lia).
    change (token_request w self) with (client_credentials_grant w self).
    rewrite Hpost, Hok, Hjson. simpl. rewrite Htok, Hlife.
    repeat split.
  - intros response Hexp Hpost Hstatus. unfold _authenticate.
    replace (time_at_check w <? token_expiry self) with false
      by (symmetry; apply Z.ltb_ge; lia).
    change (token_request w self) with (client_credentials_grant w self).
    rewrite Hpost.
    replace (status_code response =? 200) with false
      by (symmetry; apply Z.eqb_neq; exact Hstatus).
    reflexivity.
Qed.

Lemma authenticate_lazy_witness :
  _authenticate granting (client (_authenticate granting (init "id" "secret")))
  = {| result := Returned tt;
       client := client (_authenticate granting (init "id" "secret"));
       sent := [] |}.
Proof.
  refine (proj1 (authenticate_lazy granting
                   (client (_authenticate granting (init "id" "secret")))) _).
  vm_compute. reflexivity.
Defined.

End Authenticate.
(* ================================================================= *)
(** ** The search orchestrator *)

Section Orchestration.
Import Json SearchCommand.

Variables W Track Album Artist : Type.
Variable client : Client W Track Album Artist.
Variable formatter : Formatter W Track Album Artist.

Abbreviation event := (event Track Album Artist).
Abbreviation call := (call Track Album Artist).

(** *** What one kind is expected to do *)

(** The items of a search answer: the answer is an object, its entry
    for the kind is an object, and that has an entry "items". *)
Definition items_found (kinds : string) (result items : json) : Prop :=
  exists entries group,
    result = JDict entries
    /\ lookup entries kinds = Some (JDict group)
    /\ lookup group "items" = Some items.

(** How the attempt at one kind ends: the hit was displayed, or the
    search moves on to the next kind, or something that is not an
    [Exception] was raised and leaves the function. *)
Inductive progress : Type :=
| Shown
| Next
| Stopped (e : exn).

Definition after_raise (e : exn) : progress :=
  if is_exception e then Next else Stopped e.

(** The attempt at one kind, from the world [w]: how it ends, the world
    it leaves and what it adds to the journal.  [key] takes from the
    items what is fetched (the first item, or its id), [fetch] is the
    method that parses or fetches it and [display] the one that shows
    what was fetched. *)
Section Attempt.
Variable X : Type.
Variables (kind kinds : string) (key : json -> outcome json).
Variables (fetch_call : json -> call) (fetch : json -> method W X).
Variables (display_call : X -> call) (display : X -> method W unit).
Variable query : string.

Inductive attempt (w : W) : progress -> W -> list event -> Prop :=
| search_raised (e : exn) (w1 : W) :
    search client query kind w = (Raised e, w1) ->
    attempt w (after_raise e) w1 [Searched query kind (Raised e)]
| nothing_found (result : json) (w1 : W) :
    search client query kind w = (Returned result, w1) ->
    (forall items, items_found kinds result items -> truthy items = false) ->
    attempt w Next w1 [Searched query kind (Returned result)]
| no_key (result items : json) (e : exn) (w1 : W) :
    search client query kind w = (Returned result, w1) ->
    items_found kinds result items -> truthy items = true ->
    key items = Raised e ->
    attempt w Next w1 [Searched query kind (Returned result)]
| fetch_raised (result items p : json) (e : exn) (w1 w2 : W) :
    search client query kind w = (Returned result, w1) ->
    items_found kinds result items -> truthy items = true ->
    key items = Returned p ->
    fetch p w1 = (Raised e, w2) ->
    attempt w (after_raise e) w2
      [Searched query kind (Returned result); Called (fetch_call p) false]
| display_raised (result items p : json) (x : X) (e : exn) (w1 w2 w3 : W) :
    search client query kind w = (Returned result, w1) ->
    items_found kinds result items -> truthy items = true ->
    key items = Returned p ->
    fetch p w1 = (Returned x, w2) ->
    display x w2 = (Raised e, w3) ->
    attempt w (after_raise e) w3
      [Searched query kind (Returned result); Called (fetch_call p) true;
       Called (display_call x) false]
| displayed (result items p : json) (x : X) (w1 w2 w3 : W) :
    search client query kind w = (Returned result, w1) ->
    items_found kinds result items -> truthy items = true ->
    key items = Returned p ->
    fetch p w1 = (Returned x, w2) ->
    display x w2 = (Returned tt, w3) ->
    attempt w Shown w3
      [Searched query kind (Returned result); Called (fetch_call p) true;
       Called (display_call x) true].

End Attempt.

(** The first item of the items, and its id. *)
Definition first_of (items : json) : outcome json := getitem_0 items.
Definition id_of_first_of (items : json) : outcome json :=
  bind (getitem_0 items) (fun entry => getitem_str entry "id").

Definition track_attempt (query : string) : W -> progress -> W -> list event -> Prop :=
  attempt Track "track" "tracks" first_of ParseTrack (_parse_track client)
    DisplayTrack (display_track formatter) query.
Definition album_attempt (query : string) : W -> progress -> W -> list event -> Prop :=
  attempt Album "album" "albums" id_of_first_of GetAlbum (get_album client)
    DisplayAlbum (display_album formatter) query.
Definition artist_attempt (query : string) : W -> progress -> W -> list event -> Prop :=
  attempt Artist "artist" "artists" id_of_first_of GetArtist (get_artist client)
    DisplayArtist (display_artist formatter) query.

(** How a [try] block of [search_auto] ends on each progress. *)
Definition block_ending (p : progress) : ending bool :=
  match p with
  | Shown => Return true
  | Next => Return false
  | Stopped e => Raise e
  end.

(** *** The payload accesses *)

(** What the accesses to a payload raise is an [Exception]. *)
Lemma get_exception (j : json) (k : string) (default : json) (e : exn) :
  get j k default = Raised e -> is_exception e = true.
Proof.
  unfold get. destruct j; try (intros [= <-]; reflexivity).
  destruct (lookup d k); discriminate.
Qed.

Lemma getitem_str_exception (j : json) (k : string) (e : exn) :
  getitem_str j k = Raised e -> is_exception e = true.
Proof.
  unfold getitem_str. destruct j; try (intros [= <-]; reflexivity).
  destruct (lookup d k); [discriminate|intros [= <-]; reflexivity].
Qed.

Lemma getitem_0_exception (j : json) (e : exn) :
  getitem_0 j = Raised e -> is_exception e = true.
Proof.
  unfold getitem_0. destruct j; try (intros [= <-]; reflexivity).
  - destruct s; [intros [= <-]; reflexivity|discriminate].
  - unfold getitem. cbn. destruct l; [intros [= <-]; reflexivity|discriminate].
Qed.

Lemma items_or_none_exception (result : json) (kinds : string) (e : exn) :
  items_or_none result kinds = Raised e -> is_exception e = true.
Proof.
  unfold items_or_none.
  destruct (get result kinds (JDict [])) as [group|e'] eqn:Hg; cbn.
  - apply get_exception.
  - intros [= <-]. eapply get_exception; eauto.
Qed.

(** The items that [result.get(kinds, {}).get('items')] finds, when
    they count as true, are the items of the answer. *)
Lemma items_or_none_found (result : json) (kinds : string) (items : json) :
  items_or_none result kinds = Returned items -> truthy items = true ->
  items_found kinds result items.
Proof.
  unfold items_or_none, get. destruct result; try discriminate.
  destruct (lookup d kinds) as [group|] eqn:Hk; cbn.
  - destruct group; try discriminate.
    destruct (lookup d0 "items") as [v|] eqn:Hi.
    + intros [= <-] _. exists d, d0. auto.
    + intros [= <-]. discriminate.
  - intros [= <-]. discriminate.
Qed.

Lemma items_found_unique (result : json) (kinds : string) (items items' : json) :
  items_found kinds result items -> items_found kinds result items' -> items = items'.
Proof.
  intros (d & g & -> & Hk & Hi) (d' & g' & [= <-] & Hk' & Hi').
  rewrite Hk in Hk'. injection Hk' as <-. rewrite Hi in Hi'. now injection Hi'.
Qed.

Lemma items_found_or_none (result : json) (kinds : string) (items : json) :
  items_found kinds result items -> items_or_none result kinds = Returned items.
Proof.
  intros (d & g & -> & Hk & Hi). unfold items_or_none, get. rewrite Hk. cbn.
  now rewrite Hi.
Qed.

(** On a hit, [result[kinds]['items'][0]] is the first of the items. *)
Lemma first_item_of_found (result : json) (kinds : string) (items : json) :
  items_found kinds result items -> first_item result kinds = getitem_0 items.
Proof.
  intros (d & g & -> & Hk & Hi). unfold first_item, getitem_str.
  rewrite Hk. cbn. now rewrite Hi.
Qed.

(** The first of a list of items is its head. *)
Lemma first_of_list (entry : json) (rest : list json) :
  first_of (JList (entry :: rest)) = Returned entry.
Proof. reflexivity. Qed.

(** *** The three [try] blocks *)

Ltac unfold_monad :=
  unfold try_, seq, invoke_search, invoke, eval, ret; cbn.

Ltac settle :=
  rewrite <- ?app_assoc; do 3 eexists; (split; [|eassumption || (econstructor; eauto)]);
  cbn; try reflexivity.

Lemma try_track_attempt (query : string) (w : W) (journal : list event) :
  exists p w' s,
    try_track client formatter query (w, journal)
    = (block_ending p, (w', journal ++ s)%list)
    /\ track_attempt query w p w' s.
Proof.
  unfold try_track, track_attempt. unfold_monad.
  destruct (search client query "track" w) as [[result|e] w1] eqn:Hs; cbn.
  2:{ exists (after_raise e), w1, [Searched query "track" (Raised e)].
      split; [|now constructor].
      unfold after_raise. destruct (is_exception e); reflexivity. }
  destruct (items_or_none result "tracks") as [items|e] eqn:Hi; cbn.
  2:{ rewrite (items_or_none_exception _ _ _ Hi).
      exists Next, w1, [Searched query "track" (Returned result)].
      split; [reflexivity|]. apply nothing_found; [exact Hs|].
      intros items Hf. apply items_found_or_none in Hf. congruence. }
  destruct (truthy items) eqn:Ht; cbn.
  2:{ exists Next, w1, [Searched query "track" (Returned result)].
      split; [reflexivity|]. apply nothing_found; [exact Hs|].
      intros items' Hf. apply items_found_or_none in Hf. congruence. }
  pose proof (items_or_none_found _ _ _ Hi Ht) as Hfound.
  rewrite (first_item_of_found _ _ _ Hfound).
  destruct (getitem_0 items) as [data|e] eqn:Hp; cbn.
  2:{ rewrite (getitem_0_exception _ _ Hp).
      exists Next, w1, [Searched query "track" (Returned result)].
      split; [reflexivity|]. eapply no_key; eauto. }
  destruct (_parse_track client data w1) as [[track|e] w2] eqn:Hf; cbn.
  2:{ exists (after_raise e), w2,
        [Searched query "track" (Returned result); Called (ParseTrack data) false].
      split; [|eapply fetch_raised; eauto].
      rewrite <- app_assoc. unfold after_raise. destruct (is_exception e); reflexivity. }
  destruct (display_track formatter track w2) as [[[]|e] w3] eqn:Hd; cbn.
  - exists Shown, w3,
      [Searched query "track" (Returned result); Called (ParseTrack data) true;
       Called (DisplayTrack track) true].
    split; [now rewrite <- !app_assoc|]. eapply displayed; eauto.
  - exists (after_raise e), w3,
      [Searched query "track" (Returned result); Called (ParseTrack data) true;
       Called (DisplayTrack track) false].
    split; [|eapply display_raised; eauto].
    rewrite <- !app_assoc. unfold after_raise. destruct (is_exception e); reflexivity.
Qed.

Lemma try_album_attempt (query : string) (w : W) (journal : list event) :
  exists p w' s,
    try_album client formatter query (w, journal)
    = (block_ending p, (w', journal ++ s)%list)
    /\ album_attempt query w p w' s.
Proof.
  unfold try_album, album_attempt. unfold_monad.
  destruct (search client query "album" w) as [[result|e] w1] eqn:Hs; cbn.
  2:{ exists (after_raise e), w1, [Searched query "album" (Raised e)].
      split; [|now constructor].
      unfold after_raise. destruct (is_exception e); reflexivity. }
  destruct (items_or_none result "albums") as [items|e] eqn:Hi; cbn.
  2:{ rewrite (items_or_none_exception _ _ _ Hi).
      exists Next, w1, [Searched query "album" (Returned result)].
      split; [reflexivity|]. apply nothing_found; [exact Hs|].
      intros items Hf. apply items_found_or_none in Hf. congruence. }
  destruct (truthy items) eqn:Ht; cbn.
  2:{ exists Next, w1, [Searched query "album" (Returned result)].
      split; [reflexivity|]. apply nothing_found; [exact Hs|].
      intros items' Hf. apply items_found_or_none in Hf. congruence. }
  pose proof (items_or_none_found _ _ _ Hi Ht) as Hfound.
  rewrite (first_item_of_found _ _ _ Hfound).
  destruct (getitem_0 items) as [data|e] eqn:Hp; cbn.
  2:{ rewrite (getitem_0_exception _ _ Hp).
      exists Next, w1, [Searched query "album" (Returned result)].
      split; [reflexivity|]. eapply no_key; eauto.
      unfold id_of_first_of. now rewrite Hp. }
  destruct (getitem_str data "id") as [id|e] eqn:Hid; cbn.
  2:{ rewrite (getitem_str_exception _ _ _ Hid).
      exists Next, w1, [Searched query "album" (Returned result)].
      split; [reflexivity|]. eapply no_key; eauto.
      unfold id_of_first_of. rewrite Hp. exact Hid. }
  assert (Hkey : id_of_first_of items = Returned id)
    by (unfold id_of_first_of; rewrite Hp; exact Hid).
  destruct (get_album client id w1) as [[album|e] w2] eqn:Hf; cbn.
  2:{ exists (after_raise e), w2,
        [Searched query "album" (Returned result); Called (GetAlbum id) false].
      split; [|eapply fetch_raised; eauto].
      rewrite <- app_assoc. unfold after_raise. destruct (is_exception e); reflexivity. }
  destruct (display_album formatter album w2) as [[[]|e] w3] eqn:Hd; cbn.
  - exists Shown, w3,
      [Searched query "album" (Returned result); Called (GetAlbum id) true;
       Called (DisplayAlbum album) true].
    split; [now rewrite <- !app_assoc|]. eapply displayed; eauto.
  - exists (after_raise e), w3,
      [Searched query "album" (Returned result); Called (GetAlbum id) true;
       Called (DisplayAlbum album) false].
    split; [|eapply display_raised; eauto].
    rewrite <- !app_assoc. unfold after_raise. destruct (is_exception e); reflexivity.
Qed.

Lemma try_artist_attempt (query : string) (w : W) (journal : list event) :
  exists p w' s,
    try_artist client formatter query (w, journal)
    = (block_ending p, (w', journal ++ s)%list)
    /\ artist_attempt query w p w' s.
Proof.
  unfold try_artist, artist_attempt. unfold_monad.
  destruct (search client query "artist" w) as [[result|e] w1] eqn:Hs; cbn.
  2:{ exists (after_raise e), w1, [Searched query "artist" (Raised e)].
      split; [|now constructor].
      unfold after_raise. destruct (is_exception e); reflexivity. }
  destruct (items_or_none result "artists") as [items|e] eqn:Hi; cbn.
  2:{ rewrite (items_or_none_exception _ _ _ Hi).
      exists Next, w1, [Searched query "artist" (Returned result)].
      split; [reflexivity|]. apply nothing_found; [exact Hs|].
      intros items Hf. apply items_found_or_none in Hf. congruence. }
  destruct (truthy items) eqn:Ht; cbn.
  2:{ exists Next, w1, [Searched query "artist" (Returned result)].
      split; [reflexivity|]. apply nothing_found; [exact Hs|].
      intros items' Hf. apply items_found_or_none in Hf. congruence. }
  pose proof (items_or_none_found _ _ _ Hi Ht) as Hfound.
  rewrite (first_item_of_found _ _ _ Hfound).
  destruct (getitem_0 items) as [data|e] eqn:Hp; cbn.
  2:{ rewrite (getitem_0_exception _ _ Hp).
      exists Next, w1, [Searched query "artist" (Returned result)].
      split; [reflexivity|]. eapply no_key; eauto.
      unfold id_of_first_of. now rewrite Hp. }
  destruct (getitem_str data "id") as [id|e] eqn:Hid; cbn.
  2:{ rewrite (getitem_str_exception _ _ _ Hid).
      exists Next, w1, [Searched query "artist" (Returned result)].
      split; [reflexivity|]. eapply no_key; eauto.
      unfold id_of_first_of. rewrite Hp. exact Hid. }
  assert (Hkey : id_of_first_of items = Returned id)
    by (unfold id_of_first_of; rewrite Hp; exact Hid).
  destruct (get_artist client id w1) as [[artist|e] w2] eqn:Hf; cbn.
  2:{ exists (after_raise e), w2,
        [Searched query "artist" (Returned result); Called (GetArtist id) false].
      split; [|eapply fetch_raised; eauto].
      rewrite <- app_assoc. unfold after_raise. destruct (is_exception e); reflexivity. }
  destruct (display_artist formatter artist w2) as [[[]|e] w3] eqn:Hd; cbn.
  - exists Shown, w3,
      [Searched query "artist" (Returned result); Called (GetArtist id) true;
       Called (DisplayArtist artist) true].
    split; [now rewrite <- !app_assoc|]. eapply displayed; eauto.
  - exists (after_raise e), w3,
      [Searched query "artist" (Returned result); Called (GetArtist id) true;
       Called (DisplayArtist artist) false].
    split; [|eapply display_raised; eauto].
    rewrite <- !app_assoc. unfold after_raise. destruct (is_exception e); reflexivity.
Qed.

(** *** The whole of [search_auto] *)

(** After an attempt that ended with [p] in the world [w1], having
    written [s]: the run ends there when the hit was displayed or when
    something that is not an [Exception] was raised, and goes on with
    [next] otherwise. *)
Definition and_then (p : progress) (w1 : W) (s : list event)
  (next : W -> ending unit -> W -> list event -> Prop)
  (ended : ending unit) (w' : W) (journal : list event) : Prop :=
  match p with
  | Shown => ended = Return tt /\ w' = w1 /\ journal = s
  | Stopped e => ended = Raise e /\ w' = w1 /\ journal = s
  | Next => exists rest, journal = (s ++ rest)%list /\ next w1 ended w' rest
  end.

(** Track, then album, then artist, then the line that nothing was
    found. *)
Definition nothing_left (query : string) (w3 : W)
  (ended : ending unit) (w' : W) (journal : list event) : Prop :=
  ended = Return tt /\ w' = w3
  /\ journal = [Printed ("No results found for: " ++ query)].

Definition from_artist (query : string) (w2 : W)
  (ended : ending unit) (w' : W) (journal : list event) : Prop :=
  exists p w3 s,
    artist_attempt query w2 p w3 s
    /\ and_then p w3 s (nothing_left query) ended w' journal.

Definition from_album (query : string) (w1 : W)
  (ended : ending unit) (w' : W) (journal : list event) : Prop :=
  exists p w2 s,
    album_attempt query w1 p w2 s
    /\ and_then p w2 s (from_artist query) ended w' journal.

Definition from_track (query : string) (w : W)
  (ended : ending unit) (w' : W) (journal : list event) : Prop :=
  exists p w1 s,
    track_attempt query w p w1 s
    /\ and_then p w1 s (from_album query) ended w' journal.

(** A method that raises nothing but [Exception]s. *)
Definition raises_exceptions {A : Type} (m : method W A) : Prop :=
  forall w e w', m w = (Raised e, w') -> is_exception e = true.

Definition collaborators_raise_exceptions : Prop :=
  (forall query kind, raises_exceptions (search client query kind))
  /\ (forall data, raises_exceptions (_parse_track client data))
  /\ (forall id, raises_exceptions (get_album client id))
  /\ (forall id, raises_exceptions (get_artist client id))
  /\ (forall track, raises_exceptions (display_track formatter track))
  /\ (forall album, raises_exceptions (display_album formatter album))
  /\ (forall artist, raises_exceptions (display_artist formatter artist)).

Lemma attempt_not_stopped (X : Type) (kind kinds : string)
  (key : json -> outcome json)
  (fetch_call : json -> call) (fetch : json -> method W X)
  (display_call : X -> call) (display : X -> method W unit)
  (query : string) (w : W) (p : progress) (w' : W) (s : list event) :
  (forall q k, raises_exceptions (search client q k)) ->
  (forall data, raises_exceptions (fetch data)) ->
  (forall x, raises_exceptions (display x)) ->
  attempt X kind kinds key fetch_call fetch display_call display query w p w' s ->
  p = Shown \/ p = Next.
Proof.
  intros Hsearch Hfetch Hdisplay Ha.
  destruct Ha as [e w1 H| | |? ? ? e ? ? ? ? ? ? H|? ? ? ? e ? ? ? ? ? ? ? ? H| ];
    auto; right; unfold after_raise.
  - now rewrite (Hsearch _ _ _ _ _ H).
  - now rewrite (Hfetch _ _ _ _ H).
  - now rewrite (Hdisplay _ _ _ _ H).
Qed.

(** C4. [search_auto] tries track, then album, then artist.  One kind
    is tried so: the search is sent; when its answer holds items that
    count as true, the first of them (for a track) or the id of the
    first of them (for an album or an artist) is handed to
    [_parse_track], [get_album] or [get_artist], and what that returns
    is handed to the display method of the kind; when this was displayed
    the function returns, and no later kind is searched.  When there
    were no such items, or a step raised an [Exception], the next kind
    is tried from the world as it was left, and after the artist kind
    the line "No results found for: <query>" is printed and the function
    returns.  Only what is not an [Exception], raised by the client or
    the formatter, leaves the function: with collaborators that raise
    [Exception]s only, [search_auto] returns.  The first of a list of
    items is its head, and the id is the head's entry "id". *)
Theorem search_auto_first_hit (query : string) (w : W) :
  exists ended w' journal,
    search_auto client formatter query (w, []) = (ended, (w', journal))
    /\ from_track query w ended w' journal
    /\ (collaborators_raise_exceptions -> ended = Return tt)
    /\ (forall entry rest, first_of (JList (entry :: rest)) = Returned entry)
    /\ (forall fields id rest,
           lookup fields "id" = Some id ->
           id_of_first_of (JList (JDict fields :: rest)) = Returned id).
Proof.
  assert (Hkeys :
    (forall entry rest, first_of (JList (entry :: rest)) = Returned entry)
    /\ (forall fields id rest,
           lookup fields "id" = Some id ->
           id_of_first_of (JList (JDict fields :: rest)) = Returned id)).
  { split; [reflexivity|]. intros fields id rest Hid.
    unfold id_of_first_of. cbn. unfold getitem_str. now rewrite Hid. }
  unfold search_auto, seq.
  destruct (try_track_attempt query w []) as (p1 & w1 & s1 & E1 & A1).
  rewrite E1. cbn [app] in *.
  destruct p1 as [| |e1]; cbn [block_ending].
  { exists (Return tt), w1, s1. split; [reflexivity|]. split; [|split; [auto|exact Hkeys]].
    exists Shown, w1, s1. cbn. auto. }
  2:{ exists (Raise e1), w1, s1. split; [reflexivity|]. split; [|split; [|exact Hkeys]].
      - exists (Stopped e1), w1, s1. cbn. auto.
      - intros (Hs & Hp & _ & _ & Hd & _).
        destruct (attempt_not_stopped _ _ _ _ _ _ _ _ _ _ _ _ _ Hs Hp Hd A1);
          discriminate. }
  destruct (try_album_attempt query w1 s1) as (p2 & w2 & s2 & E2 & A2).
  rewrite E2.
  destruct p2 as [| |e2]; cbn [block_ending].
  { exists (Return tt), w2, (s1 ++ s2)%list. split; [reflexivity|].
    split; [|split; [auto|exact Hkeys]].
    exists Next, w1, s1. split; [exact A1|]. exists s2. split; [reflexivity|].
    exists Shown, w2, s2. cbn. auto. }
  2:{ exists (Raise e2), w2, (s1 ++ s2)%list. split; [reflexivity|].
      split; [|split; [|exact Hkeys]].
      - exists Next, w1, s1. split; [exact A1|]. exists s2. split; [reflexivity|].
        exists (Stopped e2), w2, s2. cbn. auto.
      - intros (Hs & _ & Hp & _ & _ & Hd & _).
        destruct (attempt_not_stopped _ _ _ _ _ _ _ _ _ _ _ _ _ Hs Hp Hd A2);
          discriminate. }
  destruct (try_artist_attempt query w2 (s1 ++ s2)%list) as (p3 & w3 & s3 & E3 & A3).
  rewrite E3.
  destruct p3 as [| |e3]; cbn [block_ending].
  { exists (Return tt), w3, (s1 ++ s2 ++ s3)%list. rewrite <- app_assoc.
    split; [reflexivity|]. split; [|split; [auto|exact Hkeys]].
    exists Next, w1, s1. split; [exact A1|]. exists (s2 ++ s3)%list. split; [reflexivity|].
    exists Next, w2, s2. split; [exact A2|]. exists s3. split; [reflexivity|].
    exists Shown, w3, s3. cbn. auto. }
  2:{ exists (Raise e3), w3, (s1 ++ s2 ++ s3)%list. rewrite <- app_assoc.
      split; [reflexivity|]. split; [|split; [|exact Hkeys]].
      - exists Next, w1, s1. split; [exact A1|]. exists (s2 ++ s3)%list.
        split; [reflexivity|].
        exists Next, w2, s2. split; [exact A2|]. exists s3. split; [reflexivity|].
        exists (Stopped e3), w3, s3. cbn. auto.
      - intros (Hs & _ & _ & Hp & _ & _ & Hd).
        destruct (attempt_not_stopped _ _ _ _ _ _ _ _ _ _ _ _ _ Hs Hp Hd A3);
          discriminate. }
  unfold print.
  exists (Return tt), w3,
    (s1 ++ s2 ++ s3 ++ [Printed ("No results found for: " ++ query)])%list.
  split; [now rewrite <- !app_assoc|]. split; [|split; [auto|exact Hkeys]].
  exists Next, w1, s1. split; [exact A1|]. eexists. split; [reflexivity|].
  exists Next, w2, s2. split; [exact A2|]. eexists. split; [reflexivity|].
  exists Next, w3, s3. split; [exact A3|]. eexists. split; [reflexivity|].
  unfold nothing_left. auto.
Qed.

(** C10, amended. For a kind other than track, album and artist,
    [search_specific] still sends the search.  When the search returns,
    whatever it returns, nothing else is called and nothing is
    printed, and the function returns.  When the search raises an
    [Exception], the line "Search failed: <error>" is printed and the
    interpreter exits with status 1, as for the three kinds; what is
    not an [Exception] leaves the function as it was raised, and
    nothing is printed. *)
Theorem search_specific_other_kind (query kind : string) (w : W) :
  kind <> "track" -> kind <> "album" -> kind <> "artist" ->
  (forall result w',
      search client query kind w = (Returned result, w') ->
      search_specific client formatter query kind (w, [])
      = (Return tt, (w', [Searched query kind (Returned result)])))
  /\ (forall e w',
         search client query kind w = (Raised e, w') ->
         search_specific client formatter query kind (w, [])
         = if is_exception e
           then (SysExit 1,
                 (w', [Searched query kind (Raised e);
                       Printed ("Search failed: " ++ exn_str e)]))
           else (Raise e, (w', [Searched query kind (Raised e)]))).
Proof.
  intros Htrack Halbum Hartist.
  apply String.eqb_neq in Htrack, Halbum, Hartist.
  split.
  - intros result w' Hsearch.
    unfold search_specific, try_, seq, invoke_search. cbn.
    rewrite Hsearch, Htrack, Halbum, Hartist. reflexivity.
  - intros e w' Hsearch.
    unfold search_specific, try_, seq, invoke_search. cbn.
    rewrite Hsearch. destruct (is_exception e); reflexivity.
Qed.

End Orchestration.

Section OrchestrationExamples.
Import Json SearchCommand.

(** A catalog that knows playlists besides the three kinds and answers
    400 to any other kind; its records are not looked at here. *)
Definition catalog : Client unit unit unit unit :=
  {| search := fun query kind w =>
       if existsb (String.eqb kind) ["track"; "album"; "artist"; "playlist"]
       then (Returned (JDict [(kind ++ "s", JDict [("items", JList [JDict [("id", JStr "37i9")]])])]), w)
       else (Raised (Exn "Exception" "API request failed: 400 - Bad search type field"), w);
     _parse_track := fun _ w => (Returned tt, w);
     get_album := fun _ w => (Returned tt, w);
     get_artist := fun _ w => (Returned tt, w) |}.

Definition terminal : Formatter unit unit unit unit :=
  {| display_track := fun _ w => (Returned tt, w);
     display_album := fun _ w => (Returned tt, w);
     display_artist := fun _ w => (Returned tt, w) |}.

Lemma catalog_raises_exceptions :
  collaborators_raise_exceptions unit unit unit unit catalog terminal.
Proof.
  unfold collaborators_raise_exceptions, raises_exceptions.
  split; [|repeat split; intros; discriminate].
  intros query kind [] e w'. cbn [search catalog].
  destruct (existsb (String.eqb kind) ["track"; "album"; "artist"; "playlist"]);
    [discriminate|]. intros [= <-]. reflexivity.
Qed.

Lemma search_auto_first_hit_witness :
  exists ended w' journal,
    search_auto catalog terminal "Queen" (tt, []) = (ended, (w', journal))
    /\ ended = Return tt.
Proof.
  destruct (search_auto_first_hit unit unit unit unit catalog terminal "Queen" tt)
    as (ended & w' & journal & E & _ & Hreturn & _).
  exists ended, w', journal. split; [exact E|].
  apply Hreturn. exact catalog_raises_exceptions.
Defined.

(** C10, as stated, at the kind "genre": the search is refused, an
    error line is printed and the interpreter exits. *)
Lemma search_specific_prints_error :
  search_specific catalog terminal "Queen" "genre" (tt, [])
  = (SysExit 1,
     (tt, [Searched "Queen" "genre"
             (Raised (Exn "Exception" "API request failed: 400 - Bad search type field"));
           Printed "Search failed: API request failed: 400 - Bad search type field"]))
  /\ search_specific catalog terminal "Queen" "genre" (tt, [])
     <> (Return tt,
         (tt, [Searched "Queen" "genre"
                 (Raised (Exn "Exception" "API request failed: 400 - Bad search type field"))])).
Proof. split; [reflexivity|discriminate]. Qed.

Lemma search_specific_other_kind_witness :
  search_specific catalog terminal "Chill" "playlist" (tt, [])
  = (Return tt,
     (tt, [Searched "Chill" "playlist"
             (Returned (JDict [("playlists",
                                JDict [("items", JList [JDict [("id", JStr "37i9")]])])]))])).
Proof.
  refine (proj1 (search_specific_other_kind unit unit unit unit catalog terminal
                   "Chill" "playlist" tt _ _ _) _ tt _).
  - discriminate.
  - discriminate.
  - discriminate.
  - reflexivity.
Defined.

End OrchestrationExamples.

(* ================================================================= *)
(** * Further properties *)

(** ** [str.strip] *)

Section Strip.
Import ImageRenderer.

(** A text that does not begin with a whitespace character. *)
Definition starts_clean (s : string) : bool :=
  match s with
  | EmptyString => true
  | String c r =>
      negb (is_space c)
      && match r with
         | EmptyString => true
         | String d r1 =>
             negb (is_space2 c d)
             && match r1 with
                | EmptyString => true
                | String e _ => negb (is_space3 c d e)
                end
         end
  end.

(** The same on the text read from its end. *)
Definition starts_clean_reversed (s : string) : bool :=
  match s with
  | EmptyString => true
  | String c r =>
      negb (is_space c)
      && match r with
         | EmptyString => true
         | String d r1 =>
             negb (is_space2 d c)
             && match r1 with
                | EmptyString => true
                | String e _ => negb (is_space3 e d c)
                end
         end
  end.

Lemma lstrip_clean (s : string) : starts_clean s = true -> lstrip s = s.
Proof.
  destruct s as [|c [|d [|e r]]]; cbn; try reflexivity.
  - now destruct (is_space c).
  - destruct (is_space c); [discriminate|]. now destruct (is_space2 c d).
  - destruct (is_space c); [discriminate|].
    destruct (is_space2 c d); [discriminate|].
    now destruct (is_space3 c d e).
Qed.

Lemma lstrip_reversed_clean (s : string) :
  starts_clean_reversed s = true -> lstrip_reversed s = s.
Proof.
  destruct s as [|c [|d [|e r]]]; cbn; try reflexivity.
  - now destruct (is_space c).
  - destruct (is_space c); [discriminate|]. now destruct (is_space2 d c).
  - destruct (is_space c); [discriminate|].
    destruct (is_space2 d c); [discriminate|].
    now destruct (is_space3 e d c).
Qed.

(** What [lstrip] leaves is a clean end of the text. *)
Lemma lstrip_spec (n : nat) (s : string) :
  (String.length s <= n)%nat ->
  starts_clean (lstrip s) = true /\ exists v, s = v ++ lstrip s.
Proof.
  revert s. induction n as [|n IH]; intros s Hn.
  - destruct s; [|cbn in Hn; lia]. split; [reflexivity|now exists ""].
  - destruct s as [|c r]; [split; [reflexivity|now exists ""]|].
    cbn in Hn. cbn [lstrip].
    destruct (is_space c) eqn:Hc.
    { destruct (IH r ltac:(lia)) as (H1 & v & H2). split; [exact H1|].
      exists (String c v). cbn. now rewrite <- H2. }
    destruct r as [|d r1].
    { split; [cbn; now rewrite Hc|now exists ""]. }
    cbn in Hn.
    destruct (is_space2 c d) eqn:Hd.
    { destruct (IH r1 ltac:(lia)) as (H1 & v & H2). split; [exact H1|].
      exists (String c (String d v)). cbn. now rewrite <- H2. }
    destruct r1 as [|e r2].
    { split; [cbn; now rewrite Hc, Hd|now exists ""]. }
    cbn in Hn.
    destruct (is_space3 c d e) eqn:He.
    { destruct (IH r2 ltac:(lia)) as (H1 & v & H2). split; [exact H1|].
      exists (String c (String d (String e v))). cbn. now rewrite <- H2. }
    split; [cbn; now rewrite Hc, Hd, He|now exists ""].
Qed.

Lemma lstrip_reversed_spec (n : nat) (s : string) :
  (String.length s <= n)%nat ->
  starts_clean_reversed (lstrip_reversed s) = true
  /\ exists v, s = v ++ lstrip_reversed s.
Proof.
  revert s. induction n as [|n IH]; intros s Hn.
  - destruct s; [|cbn in Hn; lia]. split; [reflexivity|now exists ""].
  - destruct s as [|c r]; [split; [reflexivity|now exists ""]|].
    cbn in Hn. cbn [lstrip_reversed].
    destruct (is_space c) eqn:Hc.
    { destruct (IH r ltac:(lia)) as (H1 & v & H2). split; [exact H1|].
      exists (String c v). cbn. now rewrite <- H2. }
    destruct r as [|d r1].
    { split; [cbn; now rewrite Hc|now exists ""]. }
    cbn in Hn.
    destruct (is_space2 d c) eqn:Hd.
    { destruct (IH r1 ltac:(lia)) as (H1 & v & H2). split; [exact H1|].
      exists (String c (String d v)). cbn. now rewrite <- H2. }
    destruct r1 as [|e r2].
    { split; [cbn; now rewrite Hc, Hd|now exists ""]. }
    cbn in Hn.
    destruct (is_space3 e d c) eqn:He.
    { destruct (IH r2 ltac:(lia)) as (H1 & v & H2). split; [exact H1|].
      exists (String c (String d (String e v))). cbn. now rewrite <- H2. }
    split; [cbn; now rewrite Hc, Hd, He|now exists ""].
Qed.

(** The beginning of a text that begins clean begins clean. *)
Lemma starts_clean_prefix (u v : string) :
  starts_clean (u ++ v) = true -> starts_clean u = true.
Proof.
  destruct u as [|c [|d [|e r]]]; cbn; try reflexivity.
  - destruct (is_space c); [discriminate|reflexivity].
  - destruct (is_space c); [discriminate|]. cbn.
    destruct v; cbn; [now rewrite Bool.andb_true_r|].
    destruct (is_space2 c d); [discriminate|reflexivity].
  - auto.
Qed.

Lemma app_empty_r (s : string) : s ++ "" = s.
Proof. induction s as [|c r IH]; cbn; [reflexivity|now rewrite IH]. Qed.

Lemma app_assoc_str (a b c : string) : (a ++ b) ++ c = a ++ (b ++ c).
Proof. induction a as [|x a IH]; cbn; [reflexivity|now rewrite IH]. Qed.

Lemma reverse_app (a b : string) : reverse (a ++ b) = reverse b ++ reverse a.
Proof.
  induction a as [|c a IH]; cbn.
  - now rewrite app_empty_r.
  - now rewrite IH, app_assoc_str.
Qed.

Lemma reverse_involutive (s : string) : reverse (reverse s) = s.
Proof.
  induction s as [|c r IH]; cbn; [reflexivity|].
  rewrite reverse_app, IH. reflexivity.
Qed.

Lemma rstrip_idempotent (s : string) : rstrip (rstrip s) = rstrip s.
Proof.
  unfold rstrip. rewrite reverse_involutive. f_equal.
  apply lstrip_reversed_clean.
  apply (lstrip_reversed_spec (String.length (reverse s))). lia.
Qed.

(** [rstrip] leaves a beginning of the text. *)
Lemma rstrip_prefix (s : string) : exists v, s = rstrip s ++ v.
Proof.
  unfold rstrip.
  destruct (lstrip_reversed_spec (String.length (reverse s)) (reverse s) ltac:(lia))
    as (_ & v & Hv).
  exists (reverse v).
  rewrite <- reverse_app, <- Hv. symmetry. apply reverse_involutive.
Qed.

Lemma strip_idempotent (s : string) : strip (strip s) = strip s.
Proof.
  unfold strip.
  destruct (lstrip_spec (String.length s) s ltac:(lia)) as (Hclean & _).
  destruct (rstrip_prefix (lstrip s)) as (v & Hv).
  rewrite Hv in Hclean at 1. apply starts_clean_prefix in Hclean.
  rewrite (lstrip_clean _ Hclean). apply rstrip_idempotent.
Qed.

End Strip.

(* ================================================================= *)
(** ** The credential store *)

Section Credentials.
Import Json Config.

Lemma truthy_str_false (s : string) : truthy_str s = false -> s = "".
Proof. destruct s; [reflexivity|discriminate]. Qed.

(** What [load_config] finds after [save_credentials] wrote [id] and
    [secret]. *)
Lemma load_after_write (h : Host) (id secret : string) :
  load_config
    (set_config_file h
       (JDict [("spotify_client_id", JStr (ImageRenderer.strip id));
               ("spotify_client_secret", JStr (ImageRenderer.strip secret))]))
  = Returned
      {| spotify_client_id :=
           Some (if truthy_str (ImageRenderer.strip id)
                 then ImageRenderer.strip id
                 else ImageRenderer.strip (getenv h "MUFETCH_SPOTIFY_CLIENT_ID"));
         spotify_client_secret :=
           Some (if truthy_str (ImageRenderer.strip secret)
                 then ImageRenderer.strip secret
                 else ImageRenderer.strip (getenv h "MUFETCH_SPOTIFY_CLIENT_SECRET")) |}.
Proof.
  unfold load_config, read_file, set_config_file. cbn.
  rewrite !strip_idempotent.
  destruct (truthy_str (ImageRenderer.strip id));
    destruct (truthy_str (ImageRenderer.strip secret)); reflexivity.
Qed.

(** X1. Saving and loading round-trip: once [save_credentials] has
    written the file, [load_config] returns the two stripped strings
    that were saved, whatever the environment holds, and
    [has_credentials] is true of them. *)
Theorem save_then_load (h : Host) (self : Config) (id secret : string) :
  write_error h = None ->
  ImageRenderer.strip id <> "" -> ImageRenderer.strip secret <> "" ->
  exists h',
    save_credentials h self id secret
    = (Returned tt,
       {| spotify_client_id := Some (ImageRenderer.strip id);
          spotify_client_secret := Some (ImageRenderer.strip secret) |}, h')
    /\ load_config h'
       = Returned {| spotify_client_id := Some (ImageRenderer.strip id);
                     spotify_client_secret := Some (ImageRenderer.strip secret) |}
    /\ (forall config, load_config h' = Returned config ->
                       has_credentials config = true).
Proof.
  intros Hwrite Hid Hsecret.
  unfold save_credentials, write_file. rewrite Hwrite.
  eexists. split; [reflexivity|].
  rewrite load_after_write.
  rewrite (truthy_str_neq _ Hid), (truthy_str_neq _ Hsecret).
  split; [reflexivity|].
  intros config [= <-]. unfold has_credentials. cbn.
  now rewrite (truthy_str_neq _ Hid), (truthy_str_neq _ Hsecret).
Qed.

Definition fresh_host : Host :=
  {| config_file := None;
     env := fun _ => None;
     mkdir_error := None;
     write_error := None;
     left_behind := None |}.

Lemma save_then_load_witness :
  exists h',
    save_credentials fresh_host init " 0a1b2c3d4e5f " "f6e5d4c3b2a1"
    = (Returned tt,
       {| spotify_client_id := Some (ImageRenderer.strip " 0a1b2c3d4e5f ");
          spotify_client_secret := Some (ImageRenderer.strip "f6e5d4c3b2a1") |}, h')
    /\ load_config h'
       = Returned {| spotify_client_id := Some (ImageRenderer.strip " 0a1b2c3d4e5f ");
                     spotify_client_secret := Some (ImageRenderer.strip "f6e5d4c3b2a1") |}
    /\ (forall config, load_config h' = Returned config ->
                       has_credentials config = true).
Proof.
  apply (save_then_load fresh_host init " 0a1b2c3d4e5f " "f6e5d4c3b2a1").
  - reflexivity.
  - vm_compute. discriminate.
  - vm_compute. discriminate.
Defined.

(** X2. A credential the file holds as something other than a string
    (a blank YAML value is read as null) makes [load_config] raise
    [AttributeError], even when the environment could supply it. *)
Theorem load_config_not_a_string (h : Host) (entries : list (string * json)) (v : json) :
  config_file h = Some (Returned (JDict entries)) ->
  lookup entries "spotify_client_id" = Some v ->
  (forall s, v <> JStr s) ->
  exists e, load_config h = Raised e /\ exn_class e = "AttributeError".
Proof.
  intros Hfile Hkey Hv. unfold load_config, read_file. rewrite Hfile.
  destruct entries as [|entry entries]; [discriminate|].
  cbn [bind truthy truthy_list get]. rewrite Hkey. cbn [bind].
  destruct v; try (eexists; split; reflexivity).
  now destruct (Hv s).
Qed.

Lemma load_config_not_a_string_witness :
  exists e,
    load_config
      {| config_file :=
           Some (Returned (JDict [("spotify_client_id", JNull);
                                  ("spotify_client_secret", JStr "f6e5d4c3b2a1")]));
         env := fun _ => Some "0a1b2c3d4e5f";
         mkdir_error := None;
         write_error := None;
         left_behind := None |} = Raised e
    /\ exn_class e = "AttributeError".
Proof.
  eapply load_config_not_a_string.
  - reflexivity.
  - reflexivity.
  - discriminate.
Defined.

(** Each credential falls back on its environment variable on its
    own: the value of the file is used when it is not empty after
    stripping, the stripped variable otherwise, and a missing file
    leaves both to the environment. *)
Theorem load_config_fallback (h : Host) :
  (forall entries id secret,
      config_file h = Some (Returned (JDict entries)) ->
      lookup entries "spotify_client_id" = Some (JStr id) ->
      lookup entries "spotify_client_secret" = Some (JStr secret) ->
      load_config h
      = Returned
          {| spotify_client_id :=
               Some (if truthy_str (ImageRenderer.strip id)
                     then ImageRenderer.strip id
                     else ImageRenderer.strip (getenv h "MUFETCH_SPOTIFY_CLIENT_ID"));
             spotify_client_secret :=
               Some (if truthy_str (ImageRenderer.strip secret)
                     then ImageRenderer.strip secret
                     else ImageRenderer.strip (getenv h "MUFETCH_SPOTIFY_CLIENT_SECRET")) |})
  /\ (config_file h = None ->
      load_config h
      = Returned
          {| spotify_client_id :=
               Some (ImageRenderer.strip (getenv h "MUFETCH_SPOTIFY_CLIENT_ID"));
             spotify_client_secret :=
               Some (ImageRenderer.strip (getenv h "MUFETCH_SPOTIFY_CLIENT_SECRET")) |}).
Proof.
  split.
  - intros entries id secret Hfile Hid Hsecret.
    unfold load_config, read_file. rewrite Hfile.
    destruct entries as [|entry entries]; [discriminate|].
    cbn [bind truthy truthy_list get]. rewrite Hid, Hsecret. cbn.
    destruct (truthy_str (ImageRenderer.strip id));
      destruct (truthy_str (ImageRenderer.strip secret)); reflexivity.
  - intros Hfile. unfold load_config, read_file. rewrite Hfile. reflexivity.
Qed.

Lemma load_config_fallback_witness :
  load_config
    {| config_file := None;
       env := fun name => if String.eqb name "MUFETCH_SPOTIFY_CLIENT_ID"
                          then Some "0a1b2c3d4e5f " else None;
       mkdir_error := None;
       write_error := None;
       left_behind := None |}
  = Returned {| spotify_client_id := Some (ImageRenderer.strip "0a1b2c3d4e5f ");
                spotify_client_secret := Some (ImageRenderer.strip "") |}.
Proof.
  refine (proj2 (load_config_fallback _) _). reflexivity.
Defined.

End Credentials.

Section ConfigFile.
Import Json Config.



End ConfigFile.

(* ================================================================= *)
(** ** The [auth] command *)

Section Auth.
Import Json Config AuthCommand.

(** X4. [handle_auth] changes the host only by saving: when both
    answers are given and not empty after stripping and the file can be
    written, it stores exactly the two stripped answers and returns, and
    the next [load_config] gives them back; credentials shorter than 10
    characters are stored all the same, after one warning line. *)
Theorem handle_auth_saves (k : Keyboard) (h : Host) (id secret : string) :
  first_answer k = Returned id -> second_answer k = Returned secret ->
  ImageRenderer.strip id <> "" -> ImageRenderer.strip secret <> "" ->
  write_error h = None ->
  exists written h',
    handle_auth k h = (Return, written, h')
    /\ config_file h'
       = Some (Returned
                 (JDict [("spotify_client_id", JStr (ImageRenderer.strip id));
                         ("spotify_client_secret", JStr (ImageRenderer.strip secret))]))
    /\ load_config h'
       = Returned {| spotify_client_id := Some (ImageRenderer.strip id);
                     spotify_client_secret := Some (ImageRenderer.strip secret) |}
    /\ (In (Line "Warning: Credentials seem too short. Please verify they are correct.")
           written
        <-> len_str (ImageRenderer.strip id) < 10
            \/ len_str (ImageRenderer.strip secret) < 10).
Proof.
  intros H1 H2 Hid Hsecret Hwrite.
  unfold handle_auth. rewrite H1, H2.
  rewrite (truthy_str_neq _ Hid), (truthy_str_neq _ Hsecret). cbn [negb orb].
  unfold save_credentials, write_file. rewrite Hwrite.
  rewrite !strip_idempotent.
  eexists _, _. split; [reflexivity|]. split; [reflexivity|]. split.
  - rewrite <- (strip_idempotent id), <- (strip_idempotent secret) at 1.
    rewrite load_after_write, !strip_idempotent.
    now rewrite (truthy_str_neq _ Hid), (truthy_str_neq _ Hsecret).
  - destruct (len_str (ImageRenderer.strip id) <? 10) eqn:L1;
      destruct (len_str (ImageRenderer.strip secret) <? 10) eqn:L2;
      cbn [orb]; rewrite ?Z.ltb_lt, ?Z.ltb_ge in *;
      (split; [intros Hin | intros Hshort]);
      try lia; try (now left); try (now right);
      try (apply in_or_app; left; apply in_or_app; right; now left).
    + simpl in Hin.
      repeat (destruct Hin as [Hin | Hin]; [discriminate|]). contradiction.
Qed.

Definition typed (id secret : string) : Keyboard :=
  {| first_answer := Returned id; second_answer := Returned secret |}.

Lemma handle_auth_saves_witness :
  exists written h',
    handle_auth (typed "abc" " 0a1b2c3d4e5f ") fresh_host = (Return, written, h')
    /\ config_file h'
       = Some (Returned
                 (JDict [("spotify_client_id", JStr (ImageRenderer.strip "abc"));
                         ("spotify_client_secret",
                          JStr (ImageRenderer.strip " 0a1b2c3d4e5f "))]))
    /\ load_config h'
       = Returned {| spotify_client_id := Some (ImageRenderer.strip "abc");
                     spotify_client_secret := Some (ImageRenderer.strip " 0a1b2c3d4e5f ") |}
    /\ (In (Line "Warning: Credentials seem too short. Please verify they are correct.")
           written
        <-> len_str (ImageRenderer.strip "abc") < 10
            \/ len_str (ImageRenderer.strip " 0a1b2c3d4e5f ") < 10).
Proof.
  apply (handle_auth_saves (typed "abc" " 0a1b2c3d4e5f ") fresh_host).
  - reflexivity.
  - reflexivity.
  - vm_compute. discriminate.
  - vm_compute. discriminate.
  - reflexivity.
Defined.

(** U+00A0 NO-BREAK SPACE, in its two bytes. *)
Definition no_break_space : string := String "194" (String "160" "").

(** Characters are counted and stripped as code points: seven accented
    letters are seven characters, hence short, and an answer that is a
    no-break space is empty after stripping. *)
Lemma handle_auth_other_scripts :
  len_str "ééééééé" = 7
  /\ String.length "ééééééé" = 14%nat
  /\ (exists written h',
         handle_auth (typed "ééééééé" "0a1b2c3d4e5f") fresh_host = (Return, written, h')
         /\ In (Line "Warning: Credentials seem too short. Please verify they are correct.")
              written)
  /\ ImageRenderer.strip no_break_space = ""
  /\ exists written,
       handle_auth (typed "0a1b2c3d4e5f" no_break_space) fresh_host = (SysExit 1, written, fresh_host)
       /\ last written (Line "")
          = Line "Error: Both Client ID and Client Secret are required!".
Proof.
  split; [reflexivity|]. split; [reflexivity|].
  split; [eexists _, _; split; [vm_compute; reflexivity|]; cbn; tauto|].
  split; [reflexivity|].
  eexists. split; vm_compute; reflexivity.
Qed.

(** What a write of the configuration file that failed leaves of the
    host: the file holds what the write left behind, if it left
    anything. *)
Definition after_failed_write (h : Host) : Host :=
  match left_behind h with
  | Some content =>
      {| config_file := Some content;
         env := env h;
         mkdir_error := mkdir_error h;
         write_error := write_error h;
         left_behind := left_behind h |}
  | None => h
  end.




End Auth.

(* ================================================================= *)
(** ** Searching for one kind *)

Section SpecificSearch.
Import Json SearchCommand.

Variables W Track Album Artist : Type.
Variable client : Client W Track Album Artist.
Variable formatter : Formatter W Track Album Artist.

Abbreviation event := (event Track Album Artist).
Abbreviation call := (call Track Album Artist).

Definition failed_line (e : exn) : event := Printed ("Search failed: " ++ exn_str e).

(** What [except Exception as e] makes of a raise: the line and the
    exit with status 1 for an [Exception]; anything else leaves the
    function as it was raised. *)
Definition caught (e : exn) : ending unit :=
  if is_exception e then SysExit 1 else Raise e.
Definition report (e : exn) : list event :=
  if is_exception e then [failed_line e] else [].

(** An answer in which items can be looked for: an object whose entry
    for the kind, if it has one, is an object. *)
Definition well_formed (kinds : string) (result : json) : Prop :=
  exists entries,
    result = JDict entries
    /\ forall group, lookup entries kinds = Some group -> exists fields, group = JDict fields.

(** The ways [search_specific] runs for one of its three kinds, from
    the world [w]: how it ends, the world it leaves and its journal.
    [key] takes from the items what is fetched, [fetch] parses or
    fetches it and [display] shows what was fetched. *)
Section Run.
Variable X : Type.
Variables (kind kinds : string) (key : json -> outcome json).
Variables (fetch_call : json -> call) (fetch : json -> method W X).
Variables (display_call : X -> call) (display : X -> method W unit).
Variable query : string.

Inductive specific_run (w : W) : ending unit -> W -> list event -> Prop :=
| specific_search_raised (e : exn) (w1 : W) :
    search client query kind w = (Raised e, w1) ->
    specific_run w (caught e) w1 (Searched query kind (Raised e) :: report e)
| specific_malformed (result : json) (e : exn) (w1 : W) :
    search client query kind w = (Returned result, w1) ->
    ~ well_formed kinds result ->
    exn_class e = "AttributeError" ->
    specific_run w (SysExit 1) w1
      [Searched query kind (Returned result); failed_line e]
| specific_nothing (result : json) (w1 : W) :
    search client query kind w = (Returned result, w1) ->
    well_formed kinds result ->
    (forall items, items_found kinds result items -> truthy items = false) ->
    specific_run w (Return tt) w1
      [Searched query kind (Returned result);
       Printed ("No " ++ kinds ++ " found for: " ++ query)]
| specific_key_raised (result items : json) (e : exn) (w1 : W) :
    search client query kind w = (Returned result, w1) ->
    items_found kinds result items -> truthy items = true ->
    key items = Raised e ->
    specific_run w (SysExit 1) w1
      [Searched query kind (Returned result); failed_line e]
| specific_fetch_raised (result items p : json) (e : exn) (w1 w2 : W) :
    search client query kind w = (Returned result, w1) ->
    items_found kinds result items -> truthy items = true ->
    key items = Returned p ->
    fetch p w1 = (Raised e, w2) ->
    specific_run w (caught e) w2
      (Searched query kind (Returned result) :: Called (fetch_call p) false :: report e)
| specific_display_raised (result items p : json) (x : X) (e : exn) (w1 w2 w3 : W) :
    search client query kind w = (Returned result, w1) ->
    items_found kinds result items -> truthy items = true ->
    key items = Returned p ->
    fetch p w1 = (Returned x, w2) ->
    display x w2 = (Raised e, w3) ->
    specific_run w (caught e) w3
      (Searched query kind (Returned result) :: Called (fetch_call p) true
         :: Called (display_call x) false :: report e)
| specific_displayed (result items p : json) (x : X) (w1 w2 w3 : W) :
    search client query kind w = (Returned result, w1) ->
    items_found kinds result items -> truthy items = true ->
    key items = Returned p ->
    fetch p w1 = (Returned x, w2) ->
    display x w2 = (Returned tt, w3) ->
    specific_run w (Return tt) w3
      [Searched query kind (Returned result); Called (fetch_call p) true;
       Called (display_call x) true].

End Run.

(** [result.get(kinds, {}).get('items', [])] on the three sorts of
    answer. *)
Lemma items_or_empty_raised (result : json) (kinds : string) (e : exn) :
  items_or_empty result kinds = Raised e ->
  ~ well_formed kinds result
  /\ exn_class e = "AttributeError" /\ is_exception e = true.
Proof.
  unfold items_or_empty, get. destruct result;
    try (intros [= <-]; split; [intros (d & [=] & _)|split; reflexivity]).
  destruct (lookup d kinds) as [group|] eqn:Hk; cbn.
  - destruct group; try (destruct (lookup d0 "items"); discriminate);
      (intros [= <-]; split; [|split; reflexivity]);
      intros (d' & [= <-] & Hg); destruct (Hg _ Hk); discriminate.
  - discriminate.
Qed.

Lemma items_or_empty_returned (result : json) (kinds : string) (items : json) :
  items_or_empty result kinds = Returned items ->
  well_formed kinds result
  /\ (items_found kinds result items
      \/ (items = JList [] /\ forall found, ~ items_found kinds result found)).
Proof.
  unfold items_or_empty, get. destruct result; try discriminate.
  destruct (lookup d kinds) as [group|] eqn:Hk; cbn.
  - destruct group; try discriminate.
    destruct (lookup d0 "items") as [v|] eqn:Hi; intros [= <-].
    + split.
      * exists d. split; [reflexivity|]. intros g Hg. rewrite Hk in Hg.
        injection Hg as <-. now exists d0.
      * left. exists d, d0. auto.
    + split.
      * exists d. split; [reflexivity|]. intros g Hg. rewrite Hk in Hg.
        injection Hg as <-. now exists d0.
      * right. split; [reflexivity|].
        intros found (d' & g' & [= <-] & Hk' & Hi').
        rewrite Hk in Hk'. injection Hk' as <-. congruence.
  - intros [= <-]. split.
    + exists d. split; [reflexivity|]. intros g Hg. congruence.
    + right. split; [reflexivity|].
      intros found (d' & g' & [= <-] & Hk' & _). congruence.
Qed.

Lemma no_truthy_items (result : json) (kinds : string) (items : json) :
  items_or_empty result kinds = Returned items -> truthy items = false ->
  forall found, items_found kinds result found -> truthy found = false.
Proof.
  intros Hi Ht found Hfound.
  destruct (items_or_empty_returned _ _ _ Hi) as (_ & [Hf | (_ & Hnone)]).
  - now rewrite (items_found_unique _ _ _ _ Hfound Hf).
  - now destruct (Hnone found).
Qed.

Lemma truthy_items_found (result : json) (kinds : string) (items : json) :
  items_or_empty result kinds = Returned items -> truthy items = true ->
  items_found kinds result items.
Proof.
  intros Hi Ht.
  destruct (items_or_empty_returned _ _ _ Hi) as (_ & [Hf | (-> & _)]);
    [exact Hf|discriminate].
Qed.

Ltac unfold_run :=
  unfold search_specific, try_, seq, invoke_search, invoke, eval, ret, print,
    sys_exit; cbn.

Ltac by_caught e :=
  unfold caught, report, failed_line; destruct (is_exception e); reflexivity.

Abbreviation bind_ := (seq W Track Album Artist).
Abbreviation value := (eval W Track Album Artist).

Section OneKind.
Variable X : Type.
Variables (kind kinds : string) (key : json -> outcome json).
Variables (fetch_call : json -> call) (fetch : json -> method W X).
Variables (display_call : X -> call) (display : X -> method W unit).
Variable query : string.
Variable noun : string.

(** The branch of [search_specific] for one kind, after the search. *)
Definition branch (result : json) : M W Track Album Artist unit :=
  bind_ (value (items_or_empty result kinds)) (fun items =>
  if truthy items then
    bind_ (value (key items)) (fun p =>
    bind_ (invoke W Track Album Artist (fetch_call p) (fetch p)) (fun x =>
    invoke W Track Album Artist (display_call x) (display x)))
  else print W Track Album Artist ("No " ++ kinds ++ " found for: " ++ query)).

Hypothesis key_exception : forall items e, key items = Raised e -> is_exception e = true.

Lemma branch_run (w : W) :
  exists r w' journal,
    try_ W Track Album Artist
      (bind_ (invoke_search W Track Album Artist (search client) query kind) branch)
      (fun e => bind_ (print W Track Album Artist ("Search failed: " ++ exn_str e))
                  (fun _ => sys_exit W Track Album Artist 1))
      (w, [])
    = (r, (w', journal))
    /\ specific_run X kind kinds key fetch_call fetch display_call display query
         w r w' journal.
Proof.
  unfold branch. unfold_run.
  destruct (search client query kind w) as [[result|e] w1] eqn:Hs; cbn.
  2:{ exists (caught e), w1, (Searched query kind (Raised e) :: report e).
      split; [by_caught e|now constructor]. }
  destruct (items_or_empty result kinds) as [items|e] eqn:Hi; cbn.
  2:{ destruct (items_or_empty_raised _ _ _ Hi) as (Hbad & Hclass & He).
      rewrite He. do 3 eexists. split; [reflexivity|].
      eapply specific_malformed; eauto. }
  destruct (items_or_empty_returned _ _ _ Hi) as (Hwf & _).
  destruct (truthy items) eqn:Ht; cbn.
  2:{ do 3 eexists. split; [reflexivity|].
      eapply specific_nothing; eauto. eapply no_truthy_items; eauto. }
  pose proof (truthy_items_found _ _ _ Hi Ht) as Hfound.
  destruct (key items) as [p|e] eqn:Hp; cbn.
  2:{ rewrite (key_exception _ _ Hp). do 3 eexists. split; [reflexivity|].
      eapply specific_key_raised; eauto. }
  destruct (fetch p w1) as [[x|e] w2] eqn:Hf; cbn.
  2:{ exists (caught e), w2,
        (Searched query kind (Returned result) :: Called (fetch_call p) false :: report e).
      split; [by_caught e|eapply specific_fetch_raised; eauto]. }
  destruct (display x w2) as [[[]|e] w3] eqn:Hd; cbn.
  - do 3 eexists. split; [reflexivity|]. eapply specific_displayed; eauto.
  - exists (caught e), w3,
      (Searched query kind (Returned result) :: Called (fetch_call p) true
         :: Called (display_call x) false :: report e).
    split; [by_caught e|eapply specific_display_raised; eauto].
Qed.

End OneKind.

Lemma first_of_exception (items : json) (e : exn) :
  first_of items = Raised e -> is_exception e = true.
Proof. apply getitem_0_exception. Qed.

Lemma id_of_first_of_exception (items : json) (e : exn) :
  id_of_first_of items = Raised e -> is_exception e = true.
Proof.
  unfold id_of_first_of. destruct (getitem_0 items) as [entry|e'] eqn:H; cbn.
  - apply getitem_str_exception.
  - intros [= <-]. eapply getitem_0_exception; eauto.
Qed.

Definition track_run (query : string) : W -> ending unit -> W -> list event -> Prop :=
  specific_run Track "track" "tracks" first_of ParseTrack (_parse_track client)
    DisplayTrack (display_track formatter) query.
Definition album_run (query : string) : W -> ending unit -> W -> list event -> Prop :=
  specific_run Album "album" "albums" id_of_first_of GetAlbum (get_album client)
    DisplayAlbum (display_album formatter) query.
Definition artist_run (query : string) : W -> ending unit -> W -> list event -> Prop :=
  specific_run Artist "artist" "artists" id_of_first_of GetArtist (get_artist client)
    DisplayArtist (display_artist formatter) query.

(** X6. For each of the kinds track, album and artist [search_specific]
    runs in one of these ways.  The search is sent.  When the answer
    holds items that count as true, the first of them (for a track) or
    the id of the first of them (for an album or an artist) is handed to
    [_parse_track], [get_album] or [get_artist], what that returns is
    handed to the display method of the kind, and the function returns.
    When the answer has no such items, "No <kind>s found for: <query>"
    is printed and the function returns.  When a step raised an
    [Exception] (the search, the access to the payload, the fetch or
    the display), "Search failed: <error>" is printed as the last line
    and the interpreter exits with status 1; nothing else is tried.
    What is not an [Exception] leaves the function as it was raised,
    and no line is printed for it. *)
Theorem search_specific_runs (query : string) (w : W) :
  (exists r w' journal,
      search_specific client formatter query "track" (w, []) = (r, (w', journal))
      /\ track_run query w r w' journal)
  /\ (exists r w' journal,
         search_specific client formatter query "album" (w, []) = (r, (w', journal))
         /\ album_run query w r w' journal)
  /\ (exists r w' journal,
         search_specific client formatter query "artist" (w, []) = (r, (w', journal))
         /\ artist_run query w r w' journal)
  /\ (forall e, caught e = if is_exception e then SysExit 1 else Raise e)
  /\ (forall e, report e
                = if is_exception e then [Printed ("Search failed: " ++ exn_str e)] else []).
Proof.
  split; [|split; [|split; [|split; reflexivity]]].
  - exact (branch_run Track "track" "tracks" first_of ParseTrack (_parse_track client)
             DisplayTrack (display_track formatter) query first_of_exception w).
  - exact (branch_run Album "album" "albums" id_of_first_of GetAlbum (get_album client)
             DisplayAlbum (display_album formatter) query id_of_first_of_exception w).
  - exact (branch_run Artist "artist" "artists" id_of_first_of GetArtist
             (get_artist client) DisplayArtist (display_artist formatter) query
             id_of_first_of_exception w).
Qed.

(** A non-empty list of items under [kinds] is read the same way by the
    two search functions. *)
Lemma items_of_list (result : json) (kinds : string) (entry : json) (rest : list json) :
  items_or_none result kinds = Returned (JList (entry :: rest)) ->
  items_or_empty result kinds = Returned (JList (entry :: rest))
  /\ first_item result kinds = Returned entry.
Proof.
  unfold items_or_none, items_or_empty, first_item, get, getitem_str.
  destruct result; try discriminate. cbn [bind].
  destruct (lookup d kinds) as [group|]; cbn [bind]; [|discriminate].
  destruct group; try discriminate.
  destruct (lookup d0 "items") as [items|]; [|discriminate].
  intros [= ->]. split; reflexivity.
Qed.

(** X7. When the track search answers with a non-empty list of items
    whose first entry parses and displays, [search_auto] and
    [search_specific] for the kind track do the same: the same three
    steps and the same world afterwards, and neither prints a line of
    its own. *)
Theorem track_hit_same_in_both_modes (query : string) (w w1 w2 w3 : W)
  (result entry : json) (rest : list json) (track : Track) :
  search client query "track" w = (Returned result, w1) ->
  items_or_none result "tracks" = Returned (JList (entry :: rest)) ->
  _parse_track client entry w1 = (Returned track, w2) ->
  display_track formatter track w2 = (Returned tt, w3) ->
  let journal := [Searched query "track" (Returned result);
                  Called (ParseTrack entry) true;
                  Called (DisplayTrack track) true] in
  search_auto client formatter query (w, []) = (Return tt, (w3, journal))
  /\ search_specific client formatter query "track" (w, []) = (Return tt, (w3, journal)).
Proof.
  intros Hsearch Hitems Hparse Hdisplay journal.
  destruct (items_of_list _ _ _ _ Hitems) as [Hempty Hfirst].
  split.
  - unfold search_auto, try_track, try_, seq, invoke_search, invoke, eval, ret. cbn.
    rewrite Hsearch. cbn. rewrite Hitems. cbn. rewrite Hfirst. cbn.
    rewrite Hparse. cbn. rewrite Hdisplay. reflexivity.
  - unfold_run. rewrite Hsearch. cbn. rewrite Hempty. cbn.
    rewrite Hparse. cbn. rewrite Hdisplay. reflexivity.
Qed.

End SpecificSearch.

Section SearchModes.
Import Json SearchCommand.

Variables W Track Album Artist : Type.
Variable client : Client W Track Album Artist.
Variable formatter : Formatter W Track Album Artist.

(** What leaves a [try] block with [except Exception] whose handler
    returns is not an [Exception]. *)
Lemma try_raise (A : Type) (m : M W Track Album Artist A) (a : A)
  (s s' : W * list (event Track Album Artist)) (e : exn) :
  try_ W Track Album Artist m (fun _ => ret W Track Album Artist a) s = (Raise e, s') ->
  is_exception e = false.
Proof.
  unfold try_, ret. destruct (m s) as [[x|e0|c] s0]; try discriminate.
  destruct (is_exception e0) eqn:He; [discriminate|].
  now intros [= <- _].
Qed.

(** [search_auto] returns, unless something that is not an [Exception]
    was raised. *)
Lemma search_auto_ending (query : string) (w : W) :
  exists r w' journal,
    search_auto client formatter query (w, []) = (r, (w', journal))
    /\ (r = Return tt \/ exists e, r = Raise e /\ is_exception e = false).
Proof.
  unfold search_auto, seq.
  destruct (try_track_attempt W Track Album Artist client formatter query w [])
    as (p1 & w1 & s1 & E1 & _).
  cbn [app] in E1. rewrite E1.
  destruct p1 as [| |e1]; cbn [block_ending]; [unfold ret; eauto 7| |].
  2:{ do 3 eexists. split; [reflexivity|]. right. exists e1. split; [reflexivity|].
      exact (try_raise _ _ _ _ _ _ E1). }
  destruct (try_album_attempt W Track Album Artist client formatter query w1 s1)
    as (p2 & w2 & s2 & E2 & _).
  rewrite E2.
  destruct p2 as [| |e2]; cbn [block_ending]; [unfold ret; eauto 7| |].
  2:{ do 3 eexists. split; [reflexivity|]. right. exists e2. split; [reflexivity|].
      exact (try_raise _ _ _ _ _ _ E2). }
  destruct (try_artist_attempt W Track Album Artist client formatter query w2
              (s1 ++ s2)%list) as (p3 & w3 & s3 & E3 & _).
  rewrite E3.
  destruct p3 as [| |e3]; cbn [block_ending]; [unfold ret; eauto 7| |].
  2:{ do 3 eexists. split; [reflexivity|]. right. exists e3. split; [reflexivity|].
      exact (try_raise _ _ _ _ _ _ E3). }
  unfold print. eauto 7.
Qed.

(** [search_specific] returns or exits with status 1, whatever the
    kind, unless something that is not an [Exception] was raised. *)
Lemma search_specific_ending (query kind : string) (w : W) :
  exists r w' journal,
    search_specific client formatter query kind (w, []) = (r, (w', journal))
    /\ (r = Return tt \/ r = SysExit 1
        \/ exists e, r = Raise e /\ is_exception e = false).
Proof.
  unfold search_specific, try_.
  match goal with
  | |- context [match ?m (w, []) with _ => _ end] =>
      destruct (m (w, [])) as [[[]|e|c] [w1 journal]] eqn:E
  end.
  - eauto 7.
  - destruct (is_exception e) eqn:He.
    + unfold seq, print, sys_exit. eauto 7.
    + eauto 9.
  - exfalso. revert E.
    unfold seq, invoke_search, invoke, eval, ret, print, sys_exit. cbn.
    destruct (search client query kind w) as [[result|e] w2]; cbn; [|discriminate].
    destruct (String.eqb kind "track").
    { destruct (items_or_empty result "tracks") as [items|e]; cbn; [|discriminate].
      destruct (truthy items); cbn; [|discriminate].
      destruct (getitem_0 items) as [data|e]; cbn; [|discriminate].
      destruct (_parse_track client data w2) as [[track|e] w3]; cbn; [|discriminate].
      destruct (display_track formatter track w3) as [[[]|e] w4]; cbn; discriminate. }
    destruct (String.eqb kind "album").
    { destruct (items_or_empty result "albums") as [items|e]; cbn; [|discriminate].
      destruct (truthy items); cbn; [|discriminate].
      destruct (bind (getitem_0 items) (fun a => getitem_str a "id")) as [id|e];
        cbn; [|discriminate].
      destruct (get_album client id w2) as [[album|e] w3]; cbn; [|discriminate].
      destruct (display_album formatter album w3) as [[[]|e] w4]; cbn; discriminate. }
    destruct (String.eqb kind "artist"); [|cbn; discriminate].
    destruct (items_or_empty result "artists") as [items|e]; cbn; [|discriminate].
    destruct (truthy items); cbn; [|discriminate].
    destruct (bind (getitem_0 items) (fun a => getitem_str a "id")) as [id|e];
      cbn; [|discriminate].
    destruct (get_artist client id w2) as [[artist|e] w3]; cbn; [|discriminate].
    destruct (display_artist formatter artist w3) as [[[]|e] w4]; cbn; discriminate.
Qed.

(** X8. A catalog none of whose searches can be made (no network, bad
    credentials: each search raises an [Exception]) is reported
    differently by the two modes: [search_auto] tries the three kinds,
    prints "No results found for: <query>" and returns as if nothing
    matched; [search_specific] prints "Search failed: <error>" and
    exits with status 1. *)
Theorem unreachable_catalog (query : string) :
  (forall kind w,
      exists e w', search client query kind w = (Raised e, w') /\ is_exception e = true) ->
  forall w,
    (exists e1 e2 e3 w1 w2 w3,
        search client query "track" w = (Raised e1, w1)
        /\ search client query "album" w1 = (Raised e2, w2)
        /\ search client query "artist" w2 = (Raised e3, w3)
        /\ search_auto client formatter query (w, [])
           = (Return tt,
              (w3, [Searched query "track" (Raised e1);
                    Searched query "album" (Raised e2);
                    Searched query "artist" (Raised e3);
                    Printed ("No results found for: " ++ query)])))
    /\ (forall kind,
           exists e w',
             search client query kind w = (Raised e, w')
             /\ search_specific client formatter query kind (w, [])
                = (SysExit 1,
                   (w', [Searched query kind (Raised e);
                         Printed ("Search failed: " ++ exn_str e)]))).
Proof.
  intros Hdown w. split.
  - destruct (Hdown "track" w) as (e1 & w1 & H1 & X1).
    destruct (Hdown "album" w1) as (e2 & w2 & H2 & X2).
    destruct (Hdown "artist" w2) as (e3 & w3 & H3 & X3).
    exists e1, e2, e3, w1, w2, w3. repeat (split; [assumption|]).
    unfold search_auto, try_track, try_album, try_artist, try_, seq,
      invoke_search, ret, print. cbn.
    rewrite H1. cbn. rewrite X1, H2. cbn. rewrite X2, H3. cbn. rewrite X3.
    reflexivity.
  - intros kind. destruct (Hdown kind w) as (e & w' & H & X).
    exists e, w'. split; [exact H|].
    unfold search_specific, try_, seq, invoke_search, print, sys_exit. cbn.
    rewrite H. cbn. rewrite X. reflexivity.
Qed.

(** A search interrupted from the keyboard, or ended by anything else
    that is not an [Exception], ends both modes at once. *)
Lemma interrupted_search (query : string) (w w' : W) (e : exn) :
  search client query "track" w = (Raised e, w') -> is_exception e = false ->
  search_auto client formatter query (w, [])
  = (Raise e, (w', [Searched query "track" (Raised e)]))
  /\ search_specific client formatter query "track" (w, [])
     = (Raise e, (w', [Searched query "track" (Raised e)])).
Proof.
  intros H X. split.
  - unfold search_auto, try_track, try_, seq, invoke_search. cbn.
    rewrite H. cbn. rewrite X. reflexivity.
  - unfold search_specific, try_, seq, invoke_search. cbn.
    rewrite H. cbn. rewrite X. reflexivity.
Qed.

End SearchModes.

Section SearchModesExamples.
Import Json SearchCommand.

(** A client without network, and a catalog with one track. *)
Definition unplugged : Client unit unit unit unit :=
  {| search := fun _ _ w => (Raised (Exn "ConnectionError" "Network is unreachable"), w);
     _parse_track := fun _ w => (Returned tt, w);
     get_album := fun _ w => (Returned tt, w);
     get_artist := fun _ w => (Returned tt, w) |}.

Definition one_track : json :=
  JDict [("tracks", JDict [("items", JList [JDict [("id", JStr "4u7EnebtmKWzUH433cf5Qv")]])])].

Definition jukebox : Client unit unit unit unit :=
  {| search := fun _ _ w => (Returned one_track, w);
     _parse_track := fun _ w => (Returned tt, w);
     get_album := fun _ w => (Returned tt, w);
     get_artist := fun _ w => (Returned tt, w) |}.

Definition screen : Formatter unit unit unit unit :=
  {| display_track := fun _ w => (Returned tt, w);
     display_album := fun _ w => (Returned tt, w);
     display_artist := fun _ w => (Returned tt, w) |}.

Lemma unreachable_catalog_witness :
  exists e1 e2 e3 w1 w2 w3,
    search unplugged "Queen" "track" tt = (Raised e1, w1)
    /\ search unplugged "Queen" "album" w1 = (Raised e2, w2)
    /\ search unplugged "Queen" "artist" w2 = (Raised e3, w3)
    /\ search_auto unplugged screen "Queen" (tt, [])
       = (Return tt,
          (w3, [Searched "Queen" "track" (Raised e1);
                Searched "Queen" "album" (Raised e2);
                Searched "Queen" "artist" (Raised e3);
                Printed ("No results found for: " ++ "Queen")])).
Proof.
  refine (proj1 (unreachable_catalog unit unit unit unit unplugged screen "Queen" _ tt)).
  intros kind w. eexists _, _. split; reflexivity.
Defined.

Lemma track_hit_same_in_both_modes_witness :
  search_auto jukebox screen "Bohemian Rhapsody" (tt, [])
  = (Return tt,
     (tt, [Searched "Bohemian Rhapsody" "track" (Returned one_track);
           Called (ParseTrack (JDict [("id", JStr "4u7EnebtmKWzUH433cf5Qv")])) true;
           Called (DisplayTrack tt) true]))
  /\ search_specific jukebox screen "Bohemian Rhapsody" "track" (tt, [])
     = (Return tt,
        (tt, [Searched "Bohemian Rhapsody" "track" (Returned one_track);
              Called (ParseTrack (JDict [("id", JStr "4u7EnebtmKWzUH433cf5Qv")])) true;
              Called (DisplayTrack tt) true])).
Proof.
  apply (track_hit_same_in_both_modes unit unit unit unit jukebox screen
           "Bohemian Rhapsody" tt tt tt tt one_track
           (JDict [("id", JStr "4u7EnebtmKWzUH433cf5Qv")]) [] tt);
    reflexivity.
Defined.

End SearchModesExamples.

(* ================================================================= *)
(** ** The [search] command *)

Section HandleSearch.
Import Json SearchCommand SearchHandler.

Variables W Track Album Artist : Type.
Variable new_client : option string -> option string -> Client W Track Album Artist.
Variable new_formatter : Z -> Formatter W Track Album Artist.

Lemma effective_size_clamp (image_size : Z) :
  effective_size image_size = Z.max 15 (Z.min 35 image_size).
Proof.
  unfold effective_size.
  destruct (image_size <? 15) eqn:Hlow;
    [apply Z.ltb_lt in Hlow | apply Z.ltb_ge in Hlow].
  - simpl. lia.
  - destruct (35 <? image_size) eqn:Hhigh;
      [apply Z.ltb_lt in Hhigh | apply Z.ltb_ge in Hhigh]; lia.
Qed.

(** The [try] block ends by returning or by [sys.exit(1)], or is left
    by what is not an [Exception]; the line that clears the cursor row
    is written only when it returns. *)
Lemma search_body_steps (client : Client W Track Album Artist) (args : Args) (w : W) :
  exists result w' journal,
    search_body new_formatter client args w
    = (result, w',
       [Wrote newline; NewFormatter (effective_size (size args)); Ran journal]
         ++ match result with
            | Return _ => [Wrote clear_line]
            | _ => []
            end)%list
    /\ (result = Return tt \/ (result = SysExit 1 /\ type args <> "auto")
        \/ exists e, result = Raise e /\ is_exception e = false).
Proof.
  unfold search_body.
  destruct (String.eqb (type args) "auto") eqn:Hauto.
  - destruct (search_auto_ending W Track Album Artist client
                (new_formatter (effective_size (size args))) (query args) w)
      as (r & w' & journal & E & [-> | (e & -> & He)]); rewrite E.
    + exists (Return tt), w', journal. split; [reflexivity|now left].
    + exists (Raise e), w', journal. split; [reflexivity|]. right. right. eauto.
  - apply String.eqb_neq in Hauto.
    destruct (search_specific_ending W Track Album Artist client
                (new_formatter (effective_size (size args))) (query args)
                (type args) w) as (r & w' & journal & E & [-> | [-> | (e & -> & He)]]);
      rewrite E.
    + exists (Return tt), w', journal. split; [reflexivity|now left].
    + exists (SysExit 1), w', journal. split; [reflexivity|]. right. now left.
    + exists (Raise e), w', journal. split; [reflexivity|]. right. right. eauto.
Qed.

(** X9. Once [handle_search] has hidden the cursor it shows it again
    as the last thing it does, on every path: when the search returns,
    when a failed search of one kind exits with status 1, and when the
    search is left by what is not an [Exception] (a keyboard
    interrupt).  Before the cursor is hidden only the client is built;
    between the two sequences come the empty line, the formatter, the
    search, and the line-clearing sequence, which is written only when
    the search returned.  In mode auto the command returns unless it is
    left in that last way. *)
Theorem handle_search_cursor (h : Config.Host) (args : Args) (w : W) (config : Config.Config) :
  Config.load_config h = Returned config ->
  Config.has_credentials config = true ->
  exists result w' journal,
    handle_search new_client new_formatter h args w
    = (result, w',
       [NewClient (Config.spotify_client_id config) (Config.spotify_client_secret config);
        Wrote hide_cursor;
        Wrote newline;
        NewFormatter (effective_size (size args));
        Ran journal]
         ++ match result with
            | Return _ => [Wrote clear_line]
            | _ => []
            end
         ++ [Wrote show_cursor])%list
    /\ (result = Return tt \/ (result = SysExit 1 /\ type args <> "auto")
        \/ exists e, result = Raise e /\ is_exception e = false)
    /\ hide_cursor = String "027" "[?25l"
    /\ show_cursor = String "027" "[?25h".
Proof.
  intros Hload Hcreds. unfold handle_search. rewrite Hload, Hcreds. cbn [negb].
  destruct (search_body_steps
              (new_client (Config.spotify_client_id config)
                 (Config.spotify_client_secret config)) args w)
    as (result & w' & journal & E & Hend).
  rewrite E. exists result, w', journal.
  split; [reflexivity|]. split; [exact Hend|]. split; reflexivity.
Qed.

(** X10. Without both credentials [handle_search] prints its two lines
    of advice and exits with status 1; it builds no client, runs no
    search and never touches the cursor.  An empty or missing
    credential is enough, whatever the arguments. *)
Theorem handle_search_no_credentials (h : Config.Host) (args : Args) (w : W)
  (config : Config.Config) :
  Config.load_config h = Returned config ->
  Config.spotify_client_id config = Some "" \/ Config.spotify_client_secret config = Some "" ->
  handle_search new_client new_formatter h args w
  = (SysExit 1, w,
     [Wrote ("No Spotify credentials found!" ++ newline);
      Wrote ("Run 'python mufetch.py auth' to set up your API credentials." ++ newline)]).
Proof.
  intros Hload Hempty. unfold handle_search. rewrite Hload.
  replace (Config.has_credentials config) with false; [reflexivity|].
  unfold Config.has_credentials.
  destruct Hempty as [-> | ->]; cbn; [reflexivity|].
  now destruct (Config.truthy_opt (Config.spotify_client_id config)).
Qed.

(** X11. The formatter is always built with a size between 15 and 35:
    the requested size when it lies in that range, and the nearer bound
    otherwise. *)
Theorem handle_search_size (h : Config.Host) (args : Args) (w : W) (image_size : Z) :
  In (NewFormatter image_size) (snd (handle_search new_client new_formatter h args w)) ->
  15 <= image_size <= 35
  /\ image_size = Z.max 15 (Z.min 35 (size args))
  /\ (15 <= size args <= 35 -> image_size = size args).
Proof.
  unfold handle_search.
  destruct (Config.load_config h) as [config|e]; [|intros []].
  destruct (Config.has_credentials config); cbn [negb].
  - destruct (search_body_steps
                (new_client (Config.spotify_client_id config)
                   (Config.spotify_client_secret config)) args w)
      as (result & w' & journal & E & _).
    rewrite E. cbn [snd]. intros Hin.
    assert (Hsize : image_size = effective_size (size args)).
    { cbn in Hin.
      destruct Hin as [Hin|[Hin|[Hin|[Hin|Hin]]]]; try discriminate.
      - now injection Hin.
      - destruct Hin as [Hin|Hin]; [discriminate|].
        apply in_app_or in Hin. destruct Hin as [Hin|Hin].
        + destruct result; cbn in Hin;
            repeat (destruct Hin as [Hin|Hin]; try discriminate); contradiction.
        + cbn in Hin. destruct Hin as [Hin|Hin]; [discriminate|contradiction]. }
    rewrite Hsize, effective_size_clamp. lia.
  - cbn. intros [Hin|[Hin|Hin]]; try discriminate. contradiction.
Qed.

End HandleSearch.

Section HandleSearchExamples.
Import Json SearchCommand SearchHandler.

Definition configured : Config.Host :=
  {| Config.config_file :=
       Some (Returned (JDict [("spotify_client_id", JStr "0a1b2c3d4e5f");
                              ("spotify_client_secret", JStr "f6e5d4c3b2a1")]));
     Config.env := fun _ => None;
     Config.mkdir_error := None;
     Config.write_error := None;
     Config.left_behind := None |}.

Definition half_configured : Config.Host :=
  {| Config.config_file :=
       Some (Returned (JDict [("spotify_client_id", JStr "0a1b2c3d4e5f")]));
     Config.env := fun _ => None;
     Config.mkdir_error := None;
     Config.write_error := None;
     Config.left_behind := None |}.

Definition asked (kind : string) (image_size : Z) : Args :=
  {| query := "Queen"; type := kind; size := image_size |}.

Lemma handle_search_cursor_witness :
  exists result w' journal,
    handle_search (fun _ _ => unplugged) (fun _ => screen) configured
      (asked "artist" 50) tt
    = (result, w',
       [NewClient (Some (ImageRenderer.strip "0a1b2c3d4e5f"))
          (Some (ImageRenderer.strip "f6e5d4c3b2a1"));
        Wrote hide_cursor;
        Wrote newline;
        NewFormatter (effective_size 50);
        Ran journal]
         ++ match result with
            | Return _ => [Wrote clear_line]
            | _ => []
            end
         ++ [Wrote show_cursor])%list
    /\ (result = Return tt \/ (result = SysExit 1 /\ "artist" <> "auto")
        \/ exists e, result = Raise e /\ is_exception e = false)
    /\ hide_cursor = String "027" "[?25l"
    /\ show_cursor = String "027" "[?25h".
Proof.
  apply (handle_search_cursor unit unit unit unit (fun _ _ => unplugged)
           (fun _ => screen) configured (asked "artist" 50) tt
           {| Config.spotify_client_id := Some (ImageRenderer.strip "0a1b2c3d4e5f");
              Config.spotify_client_secret := Some (ImageRenderer.strip "f6e5d4c3b2a1") |}).
  - reflexivity.
  - reflexivity.
Defined.

Lemma handle_search_no_credentials_witness :
  handle_search (fun _ _ => jukebox) (fun _ => screen) half_configured
    (asked "auto" 20) tt
  = (SysExit 1, tt,
     [Wrote ("No Spotify credentials found!" ++ newline);
      Wrote ("Run 'python mufetch.py auth' to set up your API credentials." ++ newline)]).
Proof.
  apply (handle_search_no_credentials unit unit unit unit (fun _ _ => jukebox)
           (fun _ => screen) half_configured (asked "auto" 20) tt
           {| Config.spotify_client_id := Some (ImageRenderer.strip "0a1b2c3d4e5f");
              Config.spotify_client_secret := Some (ImageRenderer.strip "") |}).
  - reflexivity.
  - right. reflexivity.
Defined.

Lemma handle_search_size_witness :
  15 <= 15 <= 35
  /\ 15 = Z.max 15 (Z.min 35 (size (asked "auto" 10)))
  /\ (15 <= size (asked "auto" 10) <= 35 -> 15 = size (asked "auto" 10)).
Proof.
  apply (handle_search_size unit unit unit unit (fun _ _ => jukebox)
           (fun _ => screen) configured (asked "auto" 10) tt 15).
  vm_compute. right. right. right. left. reflexivity.
Defined.

End HandleSearchExamples.

(* ================================================================= *)
(** ** More on the compositor *)

Section LinkRow.
Import DisplayFormatter.

(** The link row on lists of one or two links: a single link that
    mentions spotify is printed once, a single link that does not is
    printed twice (it is taken both as the fallback catalog link and as
    the image link); of two links that both mention spotify the second
    is printed twice and the first is lost; two links that both do not
    are printed in their order. *)
Theorem link_line_edge_cases (a b : string) :
  a <> "" -> b <> "" ->
  (is_spotify a = true -> link_line [a] = a)
  /\ (is_spotify a = false -> link_line [a] = a ++ "   " ++ a)
  /\ (is_spotify a = true -> is_spotify b = true ->
      link_line [a; b] = b ++ "   " ++ b)
  /\ (is_spotify a = false -> is_spotify b = false ->
      link_line [a; b] = a ++ "   " ++ b).
Proof.
  intros Ha Hb.
  pose proof (truthy_str_neq _ Ha) as Ta.
  pose proof (truthy_str_neq _ Hb) as Tb.
  repeat split; intros; unfold link_line, classify_links; simpl;
    repeat match goal with
           | H : is_spotify _ = _ |- _ => rewrite H
           end; simpl; rewrite ?Ta, ?Tb; simpl; rewrite ?Ta, ?Tb; reflexivity.
Qed.

Lemma link_line_edge_cases_witness :
  link_line ["https://i.scdn.co/image/ab67616d"]
  = "https://i.scdn.co/image/ab67616d" ++ "   " ++ "https://i.scdn.co/image/ab67616d".
Proof.
  refine (proj1 (proj2 (link_line_edge_cases "https://i.scdn.co/image/ab67616d" "x" _ _)) _).
  - discriminate.
  - discriminate.
  - reflexivity.
Defined.

(** A panel at least two lines shorter than the image is printed
    whole, one row per image line. *)
Lemma fitting_panel (image_lines info_lines links : list string) :
  (List.length info_lines + 2 <= List.length image_lines)%nat ->
  links <> [] ->
  exists rows,
    _display_side_by_side_with_links image_lines info_lines links
    = (rows, Returned tt)
    /\ List.length rows = List.length image_lines
    /\ (forall i, (i < List.length info_lines)%nat ->
                  nth i rows "" = nth i image_lines "" ++ "   " ++ nth i info_lines "").
Proof.
  intros Hfit Hlinks.
  set (n := List.length image_lines) in *.
  assert (Ht : Z.to_nat (target_lines image_lines info_lines) = (n - 2)%nat)
    by (unfold target_lines, len; fold n; lia).
  eexists. split; [apply display_rows; unfold target_lines, len; lia|].
  rewrite Ht. split.
  - rewrite length_app, length_map, length_seq, closing_rows_length.
    replace (truthy_list links) with true by (destruct links; [congruence|reflexivity]).
    fold n. lia.
  - intros i Hi. rewrite app_nth1 by (rewrite length_map, length_seq; lia).
    rewrite (nth_indep _ "" (row_at image_lines info_lines 0))
      by (rewrite length_map, length_seq; lia).
    rewrite map_nth, seq_nth by lia. unfold row_at. cbn [Nat.add].
    now rewrite (nth_indep image_lines (spaces 46) "") by (fold n; lia).
Qed.

(** X12. When the info panel is at least two lines shorter than the
    image and there is a link, the compositor prints exactly one row per
    image line: every info line stands on its row beside the image line
    of the same index, the rows below the panel carry the image alone,
    the link row is the last but one, and the last row is the last image
    line. *)
Theorem panel_fits (image_lines info_lines links : list string) :
  (List.length info_lines + 2 <= List.length image_lines)%nat ->
  links <> [] ->
  exists rows,
    _display_side_by_side_with_links image_lines info_lines links
    = (rows, Returned tt)
    /\ List.length rows = List.length image_lines
    /\ (forall i, (i < List.length info_lines)%nat ->
                  nth i rows "" = nth i image_lines "" ++ "   " ++ nth i info_lines "")
    /\ (forall i, (List.length info_lines <= i < List.length image_lines - 2)%nat ->
                  nth i rows "" = nth i image_lines "" ++ "   ")
    /\ nth (List.length image_lines - 2) rows ""
       = nth (List.length image_lines - 2) image_lines "" ++ "   " ++ link_line links
    /\ nth (List.length image_lines - 1) rows ""
       = nth (List.length image_lines - 1) image_lines "" ++ "   ".
Proof.
  intros Hfit Hlinks.
  set (n := List.length image_lines) in *.
  assert (Ht : target_lines image_lines info_lines = Z.of_nat (n - 2))
    by (unfold target_lines, len; fold n; lia).
  eexists. split; [apply display_rows; lia|].
  rewrite Ht, Nat2Z.id. unfold closing_rows.
  replace (truthy_list links) with true by (destruct links; [congruence|reflexivity]).
  fold n. replace (n - S (n - 2))%nat with 1%nat by lia.
  cbn [seq map].
  assert (Hlen : List.length (map (row_at image_lines info_lines) (seq 0 (n - 2)))
                 = (n - 2)%nat) by now rewrite length_map, length_seq.
  assert (Hrow : forall i, (i < n - 2)%nat ->
            nth i (map (row_at image_lines info_lines) (seq 0 (n - 2))) ""
            = row_at image_lines info_lines i).
  { intros i Hi.
    rewrite (nth_indep _ "" (row_at image_lines info_lines 0)) by lia.
    rewrite map_nth, seq_nth by lia. reflexivity. }
  split; [|split; [|split; [|split]]].
  - rewrite length_app, Hlen. simpl. lia.
  - intros i Hi. rewrite app_nth1 by lia. rewrite Hrow by lia.
    unfold row_at. now rewrite (nth_indep image_lines (spaces 46) "") by (fold n; lia).
  - intros i Hi. rewrite app_nth1 by lia. rewrite Hrow by lia.
    unfold row_at. rewrite (nth_indep image_lines (spaces 46) "") by (fold n; lia).
    now rewrite (nth_overflow info_lines) by lia.
  - rewrite app_nth2 by lia. rewrite Hlen, Nat.sub_diag. cbn [nth].
    now rewrite (nth_indep image_lines (spaces 46) "") by (fold n; lia).
  - rewrite app_nth2 by lia. rewrite Hlen.
    replace (n - 1 - (n - 2))%nat with 1%nat by lia. cbn [nth].
    unfold bare_row. now replace (S (n - 2)) with (n - 1)%nat by lia.
Qed.

Lemma panel_fits_witness :
  exists rows,
    _display_side_by_side_with_links ["a"; "b"; "c"; "d"] ["1"; "2"] ["spotify"]
    = (rows, Returned tt)
    /\ List.length rows = List.length ["a"; "b"; "c"; "d"]
    /\ (forall i, (i < List.length ["1"; "2"])%nat ->
                  nth i rows "" = nth i ["a"; "b"; "c"; "d"] "" ++ "   " ++ nth i ["1"; "2"] "")
    /\ (forall i, (List.length ["1"; "2"] <= i < List.length ["a"; "b"; "c"; "d"] - 2)%nat ->
                  nth i rows "" = nth i ["a"; "b"; "c"; "d"] "" ++ "   ")
    /\ nth (List.length ["a"; "b"; "c"; "d"] - 2) rows ""
       = nth (List.length ["a"; "b"; "c"; "d"] - 2) ["a"; "b"; "c"; "d"] ""
           ++ "   " ++ link_line ["spotify"]
    /\ nth (List.length ["a"; "b"; "c"; "d"] - 1) rows ""
       = nth (List.length ["a"; "b"; "c"; "d"] - 1) ["a"; "b"; "c"; "d"] "" ++ "   ".
Proof.
  apply (panel_fits ["a"; "b"; "c"; "d"] ["1"; "2"] ["spotify"]).
  - simpl. lia.
  - discriminate.
Defined.

End LinkRow.

(* ================================================================= *)
(** ** Requests to the catalog *)

Section Requests.
Import Json SpotifyClient SpotifyRequests.

(** X13. A request goes out only after authentication: when
    [_authenticate] raises, [_make_request] raises the same error and
    sends no GET; when the catalog answers with a status other than
    200 it raises "API request failed: {status} - {body}" and the
    cached token stays as authentication left it. *)
Theorem make_request_failures (n : Net) (self : SpotifyClient) (endpoint : string)
  (params : option (list (string * json))) :
  (forall e,
      result (_authenticate (auth n) self) = Raised e ->
      exists self' sent,
        _make_request n self endpoint params = (Raised e, self', sent)
        /\ forall request, ~ In (Got request) sent)
  /\ (forall response,
         result (_authenticate (auth n) self) = Returned tt ->
         get n (api_get n (client (_authenticate (auth n) self)) endpoint params)
         = Returned response ->
         status_code response <> 200 ->
         exists sent,
           _make_request n self endpoint params
           = (Raised (Exn "Exception"
                        ("API request failed: " ++ str (status_code response)
                           ++ " - " ++ text response)),
              client (_authenticate (auth n) self), sent)).
Proof.
  split.
  - intros e Hauth. unfold _make_request. rewrite Hauth.
    eexists _, _. split; [reflexivity|].
    intros request Hin. apply in_map_iff in Hin.
    destruct Hin as (r & Hr & _). discriminate.
  - intros response Hauth Hget Hstatus. unfold _make_request.
    rewrite Hauth, Hget.
    replace (status_code response =? 200) with false
      by (symmetry; now apply Z.eqb_neq).
    eexists. reflexivity.
Qed.

(** What a successful exchange leaves in the client. *)
Lemma authenticate_stores (w : World) (self : SpotifyClient) (response : Response)
  (payload : list (string * json)) (token : json) (lifetime : Z) :
  token_expiry self <= time_at_check w ->
  post w (token_request w self) = Returned response ->
  status_code response = 200 ->
  json_body response = Returned (JDict payload) ->
  lookup payload "access_token" = Some token ->
  lookup payload "expires_in" = Some (JNum lifetime) ->
  _authenticate w self
  = {| result := Returned tt;
       client := set_token_expiry (set_access_token self token)
                   (time_at_store w + lifetime);
       sent := [token_request w self] |}.
Proof.
  intros Hexp Hpost Hok Hjson Htok Hlife. unfold _authenticate.
  replace (time_at_check w <? token_expiry self) with false
    by (symmetry; apply Z.ltb_ge; lia).
  rewrite Hpost, Hok, Hjson. simpl. rewrite Htok, Hlife. reflexivity.
Qed.

(** X14. One token serves the requests that follow it: after a request
    that had to fetch a token, a second request made before that token
    expires posts nothing; it sends a single GET that carries the same
    token as "Bearer <token>", and leaves the client unchanged. *)
Theorem token_is_reused (n1 n2 : Net) (self : SpotifyClient)
  (endpoint1 endpoint2 : string) (params1 params2 : option (list (string * json)))
  (response : Response) (payload : list (string * json)) (token : string) (lifetime : Z) :
  token_expiry self <= time_at_check (auth n1) ->
  post (auth n1) (token_request (auth n1) self) = Returned response ->
  status_code response = 200 ->
  json_body response = Returned (JDict payload) ->
  lookup payload "access_token" = Some (JStr token) ->
  lookup payload "expires_in" = Some (JNum lifetime) ->
  time_at_check (auth n2) < time_at_store (auth n1) + lifetime ->
  exists answer1 self1 answer2,
    _make_request n1 self endpoint1 params1
    = (answer1, self1,
       [Posted (token_request (auth n1) self);
        Got {| get_url := base_url self ++ "/" ++ endpoint1;
               get_headers := [("Authorization", "Bearer " ++ token)];
               get_params := params1;
               get_timeout := 30 |}])
    /\ _make_request n2 self1 endpoint2 params2
       = (answer2, self1,
          [Got {| get_url := base_url self ++ "/" ++ endpoint2;
                  get_headers := [("Authorization", "Bearer " ++ token)];
                  get_params := params2;
                  get_timeout := 30 |}]).
Proof.
  intros Hexp Hpost Hok Hjson Htok Hlife Hfresh.
  pose proof (authenticate_stores _ _ _ _ _ _ Hexp Hpost Hok Hjson Htok Hlife) as Hauth.
  set (self1 := set_token_expiry (set_access_token self (JStr token))
                  (time_at_store (auth n1) + lifetime)) in *.
  assert (Hvalid : _authenticate (auth n2) self1
                   = {| result := Returned tt; client := self1; sent := [] |}).
  { unfold _authenticate.
    replace (time_at_check (auth n2) <? token_expiry self1) with true
      by (symmetry; apply Z.ltb_lt; exact Hfresh).
    reflexivity. }
  assert (H1 : exists answer1,
             _make_request n1 self endpoint1 params1
             = (answer1, self1,
                [Posted (token_request (auth n1) self);
                 Got (api_get n1 self1 endpoint1 params1)])).
  { unfold _make_request. rewrite Hauth. cbn [result client sent map app].
    destruct (get n1 (api_get n1 self1 endpoint1 params1)) as [r|e];
      [destruct (negb (status_code r =? 200))|]; eexists; reflexivity. }
  assert (H2 : exists answer2,
             _make_request n2 self1 endpoint2 params2
             = (answer2, self1, [Got (api_get n2 self1 endpoint2 params2)])).
  { unfold _make_request. rewrite Hvalid. cbn [result client sent map app].
    destruct (get n2 (api_get n2 self1 endpoint2 params2)) as [r|e];
      [destruct (negb (status_code r =? 200))|]; eexists; reflexivity. }
  destruct H1 as [answer1 H1], H2 as [answer2 H2].
  exists answer1, self1, answer2. split; [exact H1|exact H2].
Qed.

End Requests.

Section RequestsExamples.
Import Json SpotifyClient SpotifyRequests.

(** An endpoint that grants a one-hour token and a catalog that is
    down; the clock reads [now]. *)
Definition at_time (now : Z) : Net :=
  {| auth := {| time_at_check := now;
                time_at_store := now;
                b64encode := fun _ => "MGExYjJjOmY2ZTVkNA==";
                post := fun _ =>
                  Returned {| status_code := 200;
                              text := "";
                              json_body :=
                                Returned (JDict [("access_token", JStr "BQDx");
                                                 ("expires_in", JNum 3600)]) |} |};
     get := fun _ => Returned {| status_code := 503;
                                 text := "Service Unavailable";
                                 json_body := Raised (Exn "JSONDecodeError" "") |};
     repr := fun _ => "" |}.

(** An endpoint that refuses the credentials. *)
Definition refused : Net :=
  {| auth := {| time_at_check := 1000;
                time_at_store := 1000;
                b64encode := fun _ => "MGExYjJjOmY2ZTVkNA==";
                post := fun _ =>
                  Returned {| status_code := 400;
                              text := "invalid_client";
                              json_body := Raised (Exn "JSONDecodeError" "") |} |};
     get := fun _ => Raised (Exn "ConnectionError" "");
     repr := fun _ => "" |}.

Lemma make_request_failures_witness :
  exists self' sent,
    _make_request refused (init "0a1b2c" "f6e5d4") "search" None
    = (Raised (Exn "Exception" "Authentication failed: 400 - invalid_client"),
       self', sent)
    /\ forall request, ~ In (Got request) sent.
Proof.
  apply (proj1 (make_request_failures refused (init "0a1b2c" "f6e5d4") "search" None)).
  reflexivity.
Defined.

Lemma token_is_reused_witness :
  exists answer1 self1 answer2,
    _make_request (at_time 1000) (init "0a1b2c" "f6e5d4") "search" None
    = (answer1, self1,
       [Posted (token_request (auth (at_time 1000)) (init "0a1b2c" "f6e5d4"));
        Got {| get_url := base_url (init "0a1b2c" "f6e5d4") ++ "/" ++ "search";
               get_headers := [("Authorization", "Bearer " ++ "BQDx")];
               get_params := None;
               get_timeout := 30 |}])
    /\ _make_request (at_time 4599) self1 "artists/1dfeR4HaWDbWqFHLkxsg1d" None
       = (answer2, self1,
          [Got {| get_url := base_url (init "0a1b2c" "f6e5d4") ++ "/"
                               ++ "artists/1dfeR4HaWDbWqFHLkxsg1d";
                  get_headers := [("Authorization", "Bearer " ++ "BQDx")];
                  get_params := None;
                  get_timeout := 30 |}]).
Proof.
  eapply (token_is_reused (at_time 1000) (at_time 4599) (init "0a1b2c" "f6e5d4")).
  - cbn. lia.
  - reflexivity.
  - reflexivity.
  - reflexivity.
  - reflexivity.
  - reflexivity.
  - cbn. lia.
Defined.

End RequestsExamples.

(* ================================================================= *)
(** ** More on the image renderer *)

Section ExternalRenderer.
Import ImageRenderer.

Context {Image : Type}.
Variable w : World Image.
Variable self : ImageRenderer.

(** X15. The external renderer's output is used only when all four
    steps succeed: [_render_with_chafa] gives nothing exactly when the
    download to the temporary file raises an [Exception], or the file
    has no name, or the [chafa] run raises one, or deleting the
    temporary file raises one (in which case a finished rendering is
    thrown away).  What these steps raise that is not an [Exception]
    leaves the function as it was raised. *)
Theorem render_with_chafa_none (image_url : string) :
  (_render_with_chafa w self image_url = Returned None
   <-> (exists e, fetch_to_temp w image_url = Raised e /\ is_exception e = true)
       \/ fetch_to_temp w image_url = Returned ""
       \/ (exists temp_file e,
              fetch_to_temp w image_url = Returned temp_file
              /\ run w (chafa_cmd self temp_file) = Raised e
              /\ is_exception e = true)
       \/ (exists temp_file stdout e,
              fetch_to_temp w image_url = Returned temp_file
              /\ run w (chafa_cmd self temp_file) = Returned stdout
              /\ unlink w temp_file = Raised e
              /\ is_exception e = true))
  /\ (forall e,
         _render_with_chafa w self image_url = Raised e
         <-> is_exception e = false
             /\ (fetch_to_temp w image_url = Raised e
                 \/ exists temp_file,
                     fetch_to_temp w image_url = Returned temp_file
                     /\ temp_file <> ""
                     /\ (run w (chafa_cmd self temp_file) = Raised e
                         \/ exists stdout,
                             run w (chafa_cmd self temp_file) = Returned stdout
                             /\ unlink w temp_file = Raised e))).
Proof.
  unfold _render_with_chafa, _download_to_temp, try_except.
  destruct (fetch_to_temp w image_url) as [temp_file|e] eqn:Hfetch; cbn [bind].
  2:{ destruct (is_exception e) eqn:He; cbn [bind].
      - split.
        + split; [|reflexivity]. intros _. left. now exists e.
        + intros e'. split; [discriminate|].
          intros (He' & [[= <-] | (t & [=] & _)]). congruence.
      - rewrite He. split.
        + split; [discriminate|].
          intros [(e' & [= <-] & He') | [H | [(t & e' & H & _) | (t & o & e' & H & _)]]];
            congruence.
        + intros e'. split.
          * intros [= <-]. auto.
          * intros (_ & [[= <-] | (t & [=] & _)]). reflexivity. }
  destruct temp_file as [|c name]; cbn [truthy_str negb].
  { split.
    - split; [intros _; right; now left|reflexivity].
    - intros e. split; [discriminate|].
      intros (_ & [[=] | (t & [= <-] & Hne & _)]). congruence. }
  destruct (run w (chafa_cmd self (String c name))) as [stdout|e] eqn:Hrun; cbn [bind].
  2:{ destruct (is_exception e) eqn:He.
      - split.
        + split; [|reflexivity]. intros _. right. right. left.
          now exists (String c name), e.
        + intros e'. split; [discriminate|].
          intros (He' & [[=] | (t & [= <-] & _ & [Hr | (o & Hr & _)])]);
            rewrite Hrun in Hr; [injection Hr as <-|]; congruence.
      - split.
        + split; [discriminate|].
          intros [(e' & [=] & _) | [[=] | [(t & e' & [= <-] & Hr & He')
                                          | (t & o & e' & [= <-] & Hr & _)]]];
            rewrite Hrun in Hr; [injection Hr as <-|]; congruence.
        + intros e'. split.
          * intros [= <-]. split; [exact He|]. right. exists (String c name).
            repeat split; [discriminate|now left].
          * intros (_ & [[=] | (t & [= <-] & _ & [Hr | (o & Hr & _)])]);
              rewrite Hrun in Hr; [now injection Hr as <-|discriminate]. }
  destruct (unlink w (String c name)) as [[]|e] eqn:Hunlink; cbn [bind].
  - split.
    + split; [discriminate|].
      intros [(e' & [=] & _) | [[=] | [(t & e' & [= <-] & Hr & _)
                                      | (t & o & e' & [= <-] & _ & Hu & _)]]];
        congruence.
    + intros e'. split; [discriminate|].
      intros (_ & [[=] | (t & [= <-] & _ & [Hr | (o & _ & Hu)])]); congruence.
  - destruct (is_exception e) eqn:He.
    + split.
      * split; [|reflexivity]. intros _. right. right. right.
        now exists (String c name), stdout, e.
      * intros e'. split; [discriminate|].
        intros (He' & [[=] | (t & [= <-] & _ & [Hr | (o & _ & Hu)])]);
          [congruence|]. rewrite Hunlink in Hu. injection Hu as <-. congruence.
    + split.
      * split; [discriminate|].
        intros [(e' & [=] & _) | [[=] | [(t & e' & [= <-] & Hr & _)
                                        | (t & o & e' & [= <-] & _ & Hu & He')]]];
          [congruence|]. rewrite Hunlink in Hu. injection Hu as <-. congruence.
      * intros e'. split.
        -- intros [= <-]. split; [exact He|]. right. exists (String c name).
           repeat split; [discriminate|]. right. now exists stdout.
        -- intros (_ & [[=] | (t & [= <-] & _ & [Hr | (o & _ & Hu)])]);
             [congruence|]. rewrite Hunlink in Hu. now injection Hu as <-.
Qed.

(** X16. When they succeed, the lines are those of the trimmed output
    of [chafa], each behind one space, cut or filled to the height:
    line [i] is a space and line [i] of the output while there is one,
    and [2 * width + 1] spaces after that. *)
Theorem render_with_chafa_lines (image_url temp_file stdout : string) :
  0 <= height self ->
  fetch_to_temp w image_url = Returned temp_file -> temp_file <> "" ->
  run w (chafa_cmd self temp_file) = Returned stdout ->
  unlink w temp_file = Returned tt ->
  exists lines,
    _render_with_chafa w self image_url = Returned (Some lines)
    /\ len lines = height self
    /\ forall i, (i < List.length lines)%nat ->
                 nth i lines ""
                 = if Nat.ltb i (List.length (split_lines (strip stdout)))
                   then " " ++ nth i (split_lines (strip stdout)) ""
                   else spaces (width self * 2 + 1).
Proof.
  intros Hh Hfetch Hname Hrun Hunlink.
  unfold _render_with_chafa, _download_to_temp, try_except.
  rewrite Hfetch. cbn [bind].
  rewrite (truthy_str_neq _ Hname), Hrun. cbn [negb bind].
  rewrite Hunlink. cbn [bind].
  set (out := split_lines (strip stdout)).
  set (padded := pad_lines (map (fun line => " " ++ line) out) (height self)
                   (spaces (width self * 2 + 1))).
  eexists. split; [reflexivity|]. split; [now apply pad_then_cut|].
  assert (Hnth : forall i, (i < List.length padded)%nat ->
            nth i padded ""
            = if Nat.ltb i (List.length out) then " " ++ nth i out ""
              else spaces (width self * 2 + 1)).
  { intros i Hi. subst padded. unfold pad_lines in *.
    rewrite length_app, length_map, repeat_length in Hi.
    destruct (Nat.ltb i (List.length out)) eqn:Hlt;
      [apply Nat.ltb_lt in Hlt | apply Nat.ltb_ge in Hlt].
    - rewrite app_nth1 by (rewrite length_map; lia).
      rewrite (nth_indep _ "" ((fun line => " " ++ line) ""))
        by (rewrite length_map; lia).
      now rewrite map_nth.
    - rewrite app_nth2 by (rewrite length_map; lia).
      rewrite length_map. apply nth_repeat_lt. lia. }
  intros i Hi.
  destruct (height self <? len padded) eqn:Hcut.
  - unfold slice_to in *.
    replace (height self <? 0) with false in * by (symmetry; apply Z.ltb_ge; lia).
    rewrite length_firstn in Hi.
    rewrite nth_firstn.
    replace (Nat.ltb i (Z.to_nat (height self))) with true
      by (symmetry; apply Nat.ltb_lt; lia).
    apply Hnth. lia.
  - now apply Hnth.
Qed.

End ExternalRenderer.

Section BlockArt.
Import ImageRenderer.

(** What a terminal shows of a line: the colour sequences, from the
    escape character to the letter m, take no room. *)
Fixpoint visible_from (escaped : bool) (s : string) : string :=
  match s with
  | EmptyString => EmptyString
  | String c r =>
      if escaped then visible_from (negb (Ascii.eqb c "m")) r
      else if Ascii.eqb c "027" then visible_from true r
      else String c (visible_from false r)
  end.

Definition visible (s : string) : string := visible_from false s.

Fixpoint concat_strings (l : list string) : string :=
  match l with
  | [] => EmptyString
  | s :: r => s ++ concat_strings r
  end.

Lemma string_app_assoc (a b c : string) : (a ++ b) ++ c = a ++ (b ++ c).
Proof. induction a as [|x a IH]; simpl; [reflexivity|now rewrite IH]. Qed.

Lemma string_app_empty (a : string) : a ++ "" = a.
Proof. induction a as [|x a IH]; simpl; [reflexivity|now rewrite IH]. Qed.

(** The digits of a number hold no letter m. *)
Lemma visible_uint (d : Decimal.uint) (rest : string) :
  visible_from true (NilEmpty.string_of_uint d ++ rest) = visible_from true rest.
Proof.
  induction d; simpl; try assumption; reflexivity.
Qed.

Lemma visible_str (n : Z) (rest : string) :
  visible_from true (str n ++ rest) = visible_from true rest.
Proof.
  unfold str, NilZero.string_of_int.
  destruct (Z.to_int n) as [d|d].
  - unfold NilZero.string_of_uint. destruct d; try apply visible_uint. reflexivity.
  - simpl. unfold NilZero.string_of_uint. destruct d; try apply visible_uint. reflexivity.
Qed.

(** A block shows as two spaces. *)
Lemma visible_block (rgb : Z * Z * Z) (rest : string) :
  visible (block rgb ++ rest) = "  " ++ visible rest.
Proof.
  destruct rgb as [[r g] b]. unfold visible, block, Colors.RESET, Colors.ESC.
  rewrite !string_app_assoc. cbn [append visible_from Ascii.eqb Bool.eqb negb].
  rewrite visible_str. cbn [append visible_from Ascii.eqb Bool.eqb negb].
  rewrite visible_str. cbn [append visible_from Ascii.eqb Bool.eqb negb].
  rewrite visible_str. reflexivity.
Qed.

Lemma visible_blocks (pixels : list (Z * Z * Z)) :
  visible (concat_strings (map block pixels))
  = repeat_char " " (2 * List.length pixels).
Proof.
  induction pixels as [|p pixels IH]; [reflexivity|].
  cbn [map concat_strings]. rewrite visible_block, IH.
  replace (2 * List.length (p :: pixels))%nat
    with (S (S (2 * List.length pixels))) by (simpl; lia).
  reflexivity.
Qed.

(** Row [y] of the art: a space, then a block per pixel. *)
Definition art_row (pixels : Z -> Z -> Z * Z * Z) (width y : Z) : string :=
  " " ++ concat_strings (map (fun x => block (pixels x y)) (range 0 width)).

Context {Image : Type}.
Variable w : World Image.
Variable self : ImageRenderer.

(** The inner loop appends one block per pixel of the row. *)
Lemma block_line_blocks (img : Image) (y : Z) (pixels : Z -> Z -> Z * Z * Z)
  (xs : list Z) (line : string) :
  (forall x, In x xs -> getpixel w img x y = Returned (pixels x y)) ->
  block_line w img y xs line
  = Returned (line ++ concat_strings (map (fun x => block (pixels x y)) xs)).
Proof.
  revert line. induction xs as [|x xs IH]; intros line Hpix; simpl.
  - now rewrite string_app_empty.
  - rewrite (Hpix x) by now left. simpl.
    rewrite IH by (intros x' Hx'; apply Hpix; now right).
    now rewrite string_app_assoc.
Qed.

Lemma block_lines_rows (img : Image) (pixels : Z -> Z -> Z * Z * Z)
  (ys : list Z) (lines : list string) :
  (forall x y, In x (range 0 (width self)) -> In y ys ->
               getpixel w img x y = Returned (pixels x y)) ->
  block_lines w self img ys lines
  = Returned (lines ++ map (art_row pixels (width self)) ys)%list.
Proof.
  revert lines. induction ys as [|y ys IH]; intros lines Hpix; simpl.
  - now rewrite app_nil_r.
  - rewrite (block_line_blocks img y pixels)
      by (intros x Hx; apply Hpix; [exact Hx|now left]).
    simpl. rewrite IH by (intros x y' Hx Hy'; apply Hpix; [exact Hx|now right]).
    now rewrite <- app_assoc.
Qed.

Lemma in_range_bounds (a b n : Z) : In n (range a b) -> a <= n < b.
Proof.
  unfold range. intros Hin. apply in_map_iff in Hin.
  destruct Hin as (k & <- & Hk). apply in_seq in Hk. lia.
Qed.

(** X17. The block art of an image that converts and fits is a
    rectangle: [height] lines, line [y] being one space followed by one
    true-colour block per pixel of row [y], left to right; on the
    terminal every line shows as [2 * width + 1] spaces. *)
Theorem block_art_rectangle (img rgb fitted : Image) (pixels : Z -> Z -> Z * Z * Z) :
  0 <= width self -> 0 <= height self ->
  convert_RGB w img = Returned rgb ->
  fit w rgb (width self) (height self) = Returned fitted ->
  (forall x y, 0 <= x < width self -> 0 <= y < height self ->
               getpixel w fitted x y = Returned (pixels x y)) ->
  exists lines,
    _get_block_art_lines w self img = Returned lines
    /\ len lines = height self
    /\ forall y, (y < List.length lines)%nat ->
                 nth y lines "" = art_row pixels (width self) (Z.of_nat y)
                 /\ visible (nth y lines "") = spaces (2 * width self + 1).
Proof.
  intros Hw Hh Hconvert Hfit Hpix.
  unfold _get_block_art_lines. rewrite Hconvert. cbn [bind]. rewrite Hfit. cbn [bind].
  rewrite (block_lines_rows fitted pixels)
    by (intros x y Hx Hy; apply in_range_bounds in Hx, Hy; now apply Hpix).
  cbn [app]. eexists. split; [reflexivity|].
  split; [unfold len; rewrite length_map, range_length; lia|].
  intros y Hy. rewrite length_map, range_length in Hy.
  rewrite (nth_indep _ "" (art_row pixels (width self) 0))
    by (rewrite length_map, range_length; lia).
  rewrite map_nth. rewrite (range_from_0 (height self)).
  rewrite (nth_indep _ 0 (Z.of_nat 0)) by (rewrite length_map, length_seq; lia).
  rewrite map_nth, seq_nth by lia. cbn [Nat.add].
  split; [reflexivity|].
  unfold art_row.
  change (visible (" " ++ ?s)) with (String " "%char (visible s)).
  rewrite <- (map_map (fun x => pixels x (Z.of_nat y)) block).
  rewrite visible_blocks, length_map, range_length.
  unfold spaces.
  replace (Z.to_nat (2 * width self + 1))
    with (S (2 * Z.to_nat (width self - 0))) by lia.
  reflexivity.
Qed.

End BlockArt.

Section RendererExamples.
Import ImageRenderer.

(** A machine with [chafa] and network; the image is a gradient. *)
Definition with_chafa : World unit :=
  {| chafa_version := Returned tt;
     fetch_to_temp := fun _ => Returned "/tmp/tmpab12cd.jpg";
     run := fun _ => Returned ("ab" ++ String "010" "cd" ++ String "010" "");
     unlink := fun _ => Returned tt;
     fetch_image := fun _ => Returned tt;
     convert_RGB := fun img => Returned img;
     fit := fun img _ _ => Returned img;
     getpixel := fun _ x y => Returned (x, y, 0) |}.

Lemma render_with_chafa_lines_witness :
  exists lines,
    _render_with_chafa with_chafa (init 3) "https://i.scdn.co/image/ab67616d"
    = Returned (Some lines)
    /\ len lines = height (init 3)
    /\ forall i, (i < List.length lines)%nat ->
                 nth i lines ""
                 = if Nat.ltb i (List.length
                                   (split_lines
                                      (strip ("ab" ++ String "010" "cd" ++ String "010" ""))))
                   then " " ++ nth i (split_lines
                                        (strip ("ab" ++ String "010" "cd" ++ String "010" "")))
                                  ""
                   else spaces (width (init 3) * 2 + 1).
Proof.
  apply (render_with_chafa_lines with_chafa (init 3)
           "https://i.scdn.co/image/ab67616d" "/tmp/tmpab12cd.jpg").
  - simpl. lia.
  - reflexivity.
  - discriminate.
  - reflexivity.
  - reflexivity.
Defined.

Lemma block_art_rectangle_witness :
  exists lines,
    _get_block_art_lines with_chafa (init 2) tt = Returned lines
    /\ len lines = height (init 2)
    /\ forall y, (y < List.length lines)%nat ->
                 nth y lines "" = art_row (fun x y => (x, y, 0)) (width (init 2)) (Z.of_nat y)
                 /\ visible (nth y lines "") = spaces (2 * width (init 2) + 1).
Proof.
  apply (block_art_rectangle with_chafa (init 2) tt tt tt (fun x y => (x, y, 0))).
  - simpl. lia.
  - simpl. lia.
  - reflexivity.
  - reflexivity.
  - reflexivity.
Defined.

End RendererExamples.

(* ================================================================= *)
(** ** Counts in thousands and millions *)

Section Numbers.
Import Datetime FormatNumber.

(** The nearest integer, ties to even, is within half a unit. *)
Lemma nearest_even (n d : Z) :
  0 < d ->
  let q := n / d in
  let r := n mod d in
  let m := if 2 * r <? d then q
           else if d <? 2 * r then q + 1
           else if Z.even q then q else q + 1 in
  - d <= 2 * (m * d - n) <= d.
Proof.
  intros Hd q r m.
  pose proof (Z.div_mod n d ltac:(lia)) as Hdm.
  pose proof (Z.mod_pos_bound n d Hd) as Hr.
  fold q in Hdm. fold r in Hdm, Hr.
  subst m.
  destruct (2 * r <? d) eqn:E1; [apply Z.ltb_lt in E1; nia|].
  apply Z.ltb_ge in E1.
  destruct (d <? 2 * r) eqn:E2; [apply Z.ltb_lt in E2; nia|].
  apply Z.ltb_ge in E2.
  destruct (Z.even q); nia.
Qed.

(** The float quotient of two positive integers whose sizes differ by
    at most 51 bits: the exponent is negative and the mantissa is the
    nearest integer to the scaled quotient. *)
Lemma true_divide_near (a b : Z) :
  0 < a -> 0 < b -> Z.log2 a - Z.log2 b <= 51 ->
  exists m e,
    true_divide a b = Float m e /\
    e <= Z.log2 a - Z.log2 b - 52 /\
    0 <= m /\
    - b <= 2 * (m * b - a * 2 ^ (- e)) <= b.
Proof.
  intros Ha Hb HL. unfold true_divide.
  replace (a =? 0) with false by (symmetry; apply Z.eqb_neq; lia).
  rewrite (Z.abs_eq a) by lia.
  replace (Z.sgn a) with 1 by (symmetry; apply Z.sgn_pos; lia).
  set (e0 := Z.log2 a - Z.log2 b - 53).
  unfold scale at 1.
  replace (e0 <? 0) with true by (symmetry; apply Z.ltb_lt; lia).
  set (e := if a * 2 ^ (- e0) / b <? 2 ^ 53 then e0 else e0 + 1).
  assert (He : e <= e0 + 1) by (subst e; destruct (_ <? _); lia).
  unfold scale.
  replace (e <? 0) with true by (symmetry; apply Z.ltb_lt; lia).
  set (P := 2 ^ (- e)).
  assert (HP : 0 < P) by (subst P; apply Z.pow_pos_nonneg; lia).
  pose proof (nearest_even (a * P) b Hb) as Hn. cbv zeta in Hn.
  set (m := if 2 * ((a * P) mod b) <? b then a * P / b
            else if b <? 2 * ((a * P) mod b) then a * P / b + 1
            else if Z.even (a * P / b) then a * P / b else a * P / b + 1) in *.
  exists m, e. split; [f_equal; lia|].
  split; [lia|]. split; [|lia].
  assert (0 <= a * P / b) by (apply Z.div_pos; nia).
  subst m.
  destruct (2 * ((a * P) mod b) <? b); [lia|].
  destruct (b <? 2 * ((a * P) mod b)); [lia|].
  destruct (Z.even (a * P / b)); lia.
Qed.

(** [n / (10 * c)] printed with one decimal: the tenths printed are
    the nearest to [n / c], as long as the quotient has room for the
    divisor below the binary point. *)
Lemma format_1f_nearest (n c : Z) :
  0 < n -> 0 < c ->
  Z.log2 n - Z.log2 (10 * c) <= 51 ->
  10 * c < 2 ^ (52 - (Z.log2 n - Z.log2 (10 * c))) ->
  exists x t,
    int_true_divide n (10 * c) = Returned x /\
    format_1f x = str (t / 10) ++ "." ++ str (t mod 10) /\
    0 <= t /\
    - c <= 2 * (c * t - n) <= c.
Proof.
  intros Hn Hc HL Hroom.
  destruct (true_divide_near n (10 * c) Hn ltac:(lia) HL) as (m & e & Hx & He & Hm & Hnear).
  set (P := 2 ^ (- e)) in *.
  assert (HP : 2 ^ (52 - (Z.log2 n - Z.log2 (10 * c))) <= P).
  { subst P. apply Z.pow_le_mono_r; lia. }
  assert (HP0 : 0 < P) by lia.
  exists (Float m e), (tenths (Float m e)).
  split.
  { unfold int_true_divide. rewrite Hx. cbn [expo mant].
    replace (0 <=? e) with false by (symmetry; apply Z.leb_gt; lia).
    reflexivity. }
  assert (Ht : - P <= 2 * (tenths (Float m e) * P - 10 * m) <= P
               /\ 0 <= tenths (Float m e)).
  { unfold tenths. cbn [expo mant].
    replace (0 <=? e) with false by (symmetry; apply Z.leb_gt; lia).
    rewrite (Z.abs_eq m) by lia. fold P.
    pose proof (nearest_even (10 * m) P HP0) as Hq. cbv zeta in Hq.
    split; [exact Hq|].
    assert (0 <= 10 * m / P) by (apply Z.div_pos; lia).
    destruct (2 * ((10 * m) mod P) <? P); [lia|].
    destruct (P <? 2 * ((10 * m) mod P)); [lia|].
    destruct (Z.even (10 * m / P)); lia. }
  destruct Ht as [Ht Ht0].
  split.
  { unfold format_1f. cbn [mant].
    replace (m <? 0) with false by (symmetry; apply Z.ltb_ge; lia).
    reflexivity. }
  split; [exact Ht0|].
  set (t := tenths (Float m e)) in *.
  assert (Hsum : - (c * P + 10 * c) <= 2 * ((c * t - n) * P) <= c * P + 10 * c) by nia.
  split.
  - destruct (Z_le_gt_dec (- c) (2 * (c * t - n))) as [|Hbad]; [assumption|].
    exfalso. assert (2 * (c * t - n) <= - c - 1) by lia. nia.
  - destruct (Z_le_gt_dec (2 * (c * t - n)) c) as [|Hbad]; [assumption|].
    exfalso. assert (c + 1 <= 2 * (c * t - n)) by lia. nia.
Qed.

(** From 1000 up to 999999 the tenths printed before [K] are the
    nearest to [n / 100]. *)
Lemma format_number_thousands (n : Z) :
  1000 <= n < 1000000 ->
  exists t, _format_number n = Returned (str (t / 10) ++ "." ++ str (t mod 10) ++ "K")
            /\ 0 <= t /\ - 50 <= 100 * t - n <= 50.
Proof.
  intros H.
  assert (HL : Z.log2 n < 20).
  { apply Z.log2_lt_pow2; [lia|]. change (2 ^ 20) with 1048576. lia. }
  destruct (format_1f_nearest n 100) as (x & t & Hx & Hf & Ht0 & Ht); try lia.
  - change (Z.log2 (10 * 100)) with 9. lia.
  - change (Z.log2 (10 * 100)) with 9.
    apply Z.lt_le_trans with (2 ^ 42); [reflexivity|].
    apply Z.pow_le_mono_r; lia.
  - exists t. split; [|lia].
    unfold _format_number.
    replace (1000000 <=? n) with false by (symmetry; apply Z.leb_gt; lia).
    replace (1000 <=? n) with true by (symmetry; apply Z.leb_le; lia).
    change 1000 with (10 * 100). rewrite Hx. cbn [bind]. rewrite Hf.
    rewrite <- !string_app_assoc. reflexivity.
Qed.

(** From a million up to [10^15] those printed before [M] are the
    nearest to [n / 100000]. *)
Lemma format_number_millions (n : Z) :
  1000000 <= n < 10 ^ 15 ->
  exists t, _format_number n = Returned (str (t / 10) ++ "." ++ str (t mod 10) ++ "M")
            /\ 0 <= t /\ - 50000 <= 100000 * t - n <= 50000.
Proof.
  intros H.
  assert (HL : Z.log2 n < 50).
  { apply Z.log2_lt_pow2; [lia|].
    apply Z.lt_le_trans with (10 ^ 15); [lia|]. vm_compute. discriminate. }
  destruct (format_1f_nearest n 100000) as (x & t & Hx & Hf & Ht0 & Ht); try lia.
  - change (Z.log2 (10 * 100000)) with 19. lia.
  - change (Z.log2 (10 * 100000)) with 19.
    apply Z.lt_le_trans with (2 ^ 22); [reflexivity|].
    apply Z.pow_le_mono_r; lia.
  - exists t. split; [|lia].
    unfold _format_number.
    replace (1000000 <=? n) with true by (symmetry; apply Z.leb_le; lia).
    change 1000000 with (10 * 100000). rewrite Hx. cbn [bind]. rewrite Hf.
    rewrite <- !string_app_assoc. reflexivity.
Qed.

(** X18. [_format_number] prints the nearest tenth of a thousand or of a
    million and never raises below [10^15]: under 1000 it prints the
    number itself; from 1000 up to 999999 the tenths [t] printed before
    [K] are within half a tenth of [n / 1000]; from a million on those
    printed before [M] are within half a tenth of [n / 1000000]. *)
Theorem format_number_nearest_tenth (n : Z) :
  (n < 1000 -> _format_number n = Returned (str n))
  /\ (1000 <= n < 1000000 ->
      exists t, _format_number n = Returned (str (t / 10) ++ "." ++ str (t mod 10) ++ "K")
                /\ 0 <= t /\ - 50 <= 100 * t - n <= 50)
  /\ (1000000 <= n < 10 ^ 15 ->
      exists t, _format_number n = Returned (str (t / 10) ++ "." ++ str (t mod 10) ++ "M")
                /\ 0 <= t /\ - 50000 <= 100000 * t - n <= 50000).
Proof.
  split; [|split].
  - intros H. unfold _format_number.
    replace (1000000 <=? n) with false by (symmetry; apply Z.leb_gt; lia).
    replace (1000 <=? n) with false by (symmetry; apply Z.leb_gt; lia).
    reflexivity.
  - apply format_number_thousands.
  - apply format_number_millions.
Qed.

Lemma format_number_nearest_tenth_witness :
  1000 <= 15449 < 1000000
  /\ exists t, _format_number 15449 = Returned (str (t / 10) ++ "." ++ str (t mod 10) ++ "K")
               /\ 0 <= t /\ - 50 <= 100 * t - 15449 <= 50.
Proof.
  split; [lia|].
  exact (proj1 (proj2 (format_number_nearest_tenth 15449)) ltac:(lia)).
Defined.

(** X19. A count from 999950 to 999999 is printed as ["1000.0K"], not as
    ["1.0M"]: the unit is chosen before the quotient is rounded. *)
Theorem format_number_rounds_past_unit (n : Z) :
  999950 <= n < 1000000 ->
  _format_number n = Returned "1000.0K".
Proof.
  intros H.
  destruct (Z.eq_dec n 999950) as [->|Hn]; [vm_compute; reflexivity|].
  destruct (format_number_thousands n ltac:(lia)) as (t & Hf & Ht0 & Ht).
  assert (t = 10000) by lia. subst t. exact Hf.
Qed.

Lemma format_number_rounds_past_unit_witness :
  999950 <= 999973 < 1000000 /\ _format_number 999973 = Returned "1000.0K".
Proof.
  split; [lia|]. apply (format_number_rounds_past_unit 999973). lia.
Defined.

End Numbers.

(* ================================================================= *)
(** ** The three panels *)

Section Panels.
Import Datetime ImageRenderer DisplayFormatter DisplayPanels.

Context {Img W : Type}.
Variable rw : World Img.
Variable renderer : ImageRenderer.
Variable decimal : Z -> option Z.
Variable strftime_Y : date -> string.

(** The date of a release is always printable. *)
Lemma format_date_returns (date_str : string) :
  exists released, _format_ordinal_date decimal strftime_Y date_str = Returned released.
Proof.
  unfold _format_ordinal_date.
  destruct (negb (truthy_str date_str)); [eauto|].
  destruct (strptime_Ymd decimal date_str) as [d|e] eqn:Hymd; simpl; [eauto|].
  rewrite (strptime_Ymd_ValueError _ _ _ Hymd). simpl.
  destruct (strptime_Y decimal date_str) as [d|e'] eqn:Hy; simpl; [eauto|].
  rewrite (strptime_Y_ValueError _ _ _ Hy). simpl. eauto.
Qed.

(** What the renderer returns has the configured height, or is the
    placeholder. *)
Lemma render_lines_count (image_url : string) (lines : list string) :
  0 <= height renderer ->
  render_image_lines rw renderer image_url = Returned lines ->
  len lines = height renderer \/ lines = _get_placeholder_lines.
Proof.
  intros Hh. unfold render_image_lines.
  destruct (negb (truthy_str image_url)); [intros [= <-]; now right|].
  assert (Hfb : fallback rw renderer image_url = Returned lines ->
                len lines = height renderer \/ lines = _get_placeholder_lines).
  { pose proof (fallback_lines rw renderer image_url Hh) as Hl.
    destruct (fallback rw renderer image_url) as [l|e]; [|discriminate].
    intros [= <-]. destruct Hl as [Hlen | [Hpl _]]; auto. }
  destruct (_is_chafa_available rw) as [[|]|e]; simpl; [| exact Hfb | discriminate].
  destruct (_render_with_chafa rw renderer image_url) as [[l|]|e] eqn:Hc;
    cbn [bind]; [|exact Hfb|discriminate].
  destruct (truthy_list l); [|exact Hfb].
  intros [= <-]. left. eapply chafa_lines_height; eauto.
Qed.

Lemma image_lines_count (images : list Image.Image) (lines : list string) :
  0 <= height renderer ->
  image_lines_of rw renderer images = Returned lines ->
  len lines = height renderer \/ len lines = 20.
Proof.
  intros Hh. destruct images as [|first rest]; simpl.
  - intros [= <-]. now right.
  - intros H. destruct (render_lines_count _ _ Hh H) as [Hl | ->]; auto.
Qed.

(** The compositor as the panels call it: with a link and at least two
    lines to show it returns, having printed the rows of the main block
    and the closing rows. *)
Lemma side_by_side_rows (image_lines info_lines links : list string) (w : W)
  (made : list call) :
  (2 <= List.length info_lines)%nat ->
  side_by_side image_lines info_lines links w made
  = {| rows := (map (row_at image_lines info_lines)
                    (seq 0 (Z.to_nat (target_lines image_lines info_lines)))
                  ++ closing_rows image_lines links
                       (Z.to_nat (target_lines image_lines info_lines)))%list;
       result := Returned tt;
       world := w;
       calls := made |}.
Proof.
  intros Hn. unfold side_by_side.
  rewrite display_rows by (unfold target_lines, len; lia).
  reflexivity.
Qed.

(** The number of rows the compositor prints when there is a link. *)
Lemma rows_printed (image_lines info_lines links : list string) :
  (2 <= List.length info_lines)%nat -> links <> [] ->
  List.length
    (map (row_at image_lines info_lines)
         (seq 0 (Z.to_nat (target_lines image_lines info_lines)))
       ++ closing_rows image_lines links
            (Z.to_nat (target_lines image_lines info_lines)))%list
  = Nat.max (List.length image_lines) (List.length info_lines - 1).
Proof.
  intros Hn Hl. rewrite length_app, length_map, length_seq.
  unfold closing_rows.
  replace (truthy_list links) with true by (destruct links; [congruence|reflexivity]).
  cbn [List.length]. rewrite length_map, length_seq.
  unfold target_lines, len. lia.
Qed.

Lemma genres_line_length (genres : list string) :
  (List.length (genres_line genres) <= 1)%nat.
Proof. unfold genres_line. destruct (truthy_list genres); simpl; lia. Qed.

Lemma slice_to_length {A : Type} (l : list A) (n : Z) :
  0 <= n -> (List.length (slice_to l n) <= Z.to_nat n)%nat.
Proof.
  intros Hn. unfold slice_to.
  replace (n <? 0) with false by (symmetry; apply Z.ltb_ge; lia).
  rewrite length_firstn. lia.
Qed.

Lemma top_tracks_block_length (tracks : list Track.Track) :
  (List.length (top_tracks_block tracks) <= 7)%nat.
Proof.
  unfold top_tracks_block. destruct (truthy_list tracks); simpl; [|lia].
  rewrite length_map. pose proof (slice_to_length tracks 5 ltac:(lia)). lia.
Qed.

Lemma count_line_length (label : string) (count : Z) (color : string) :
  (List.length (count_line label count color) <= 1)%nat.
Proof. unfold count_line. destruct (0 <? count); simpl; lia. Qed.

Lemma label_line_length (label : string) :
  (List.length (label_line label) <= 1)%nat.
Proof. unfold label_line. destruct (truthy_str label); simpl; lia. Qed.

Lemma cover_links_nonempty (images : list Image.Image) (urls : ExternalURL.ExternalURL) :
  cover_links images urls <> [].
Proof. unfold cover_links. destruct (image_link images "Album Cover"); discriminate. Qed.

(** A panel shown whole: the function returned, one row was printed
    per image line, and every info line stands on its row beside the
    image line of the same index. *)
Definition shown_whole (shown : Shown W) (image_lines info_lines : list string) : Prop :=
  result shown = Returned tt
  /\ List.length (rows shown) = List.length image_lines
  /\ forall i, (i < List.length info_lines)%nat ->
               nth i (rows shown) "" = nth i image_lines "" ++ "   " ++ nth i info_lines "".

Lemma side_by_side_whole (image_lines info_lines links : list string) (w : W)
  (made : list call) :
  (List.length info_lines + 2 <= List.length image_lines)%nat ->
  links <> [] ->
  shown_whole (side_by_side image_lines info_lines links w made) image_lines info_lines.
Proof.
  intros Hfit Hl. unfold side_by_side.
  destruct (fitting_panel image_lines info_lines links Hfit Hl)
    as (rows & -> & Hlen & Hrows).
  repeat split; assumption.
Qed.

(** What leaves the lookup of the genres or the [try] block of the
    artist panel is not an [Exception]. *)
Lemma resolve_genres_raised (client : option (Client W)) (genres : list string)
  (artists : list Artist.Artist) (w : W) (e : exn) :
  fst (fst (resolve_genres client genres artists w)) = Raised e ->
  is_exception e = false.
Proof.
  unfold resolve_genres.
  destruct (negb (truthy_list genres) && truthy_list artists)%bool; [|discriminate].
  destruct client as [c|]; [|discriminate].
  destruct artists as [|first rest]; [discriminate|].
  destruct (get_artist c (Artist.id first) w) as [[artist|e0] w']; [discriminate|].
  cbn. destruct (is_exception e0) eqn:He; [discriminate|]. now intros [= <-].
Qed.

Lemma left_with_raised (e0 e : exn) (so_far : list Track.Track * Z * Z) :
  left_with e0 so_far = Raised e -> e = e0 /\ is_exception e = false.
Proof.
  unfold left_with. destruct (is_exception e0) eqn:He; [discriminate|].
  now intros [= <-].
Qed.

Lemma artist_extras_raised (client : option (Client W)) (artist_id : string) (w : W)
  (e : exn) :
  fst (fst (artist_extras client artist_id w)) = Raised e -> is_exception e = false.
Proof.
  unfold artist_extras.
  destruct client as [c|]; [|discriminate].
  destruct (get_artist_top_tracks c artist_id w) as [[top_tracks|e0] w1]; cbn.
  2:{ intros H. now apply left_with_raised in H. }
  destruct (get_artist_albums c artist_id "album" w1) as [[albums|e0] w2]; cbn.
  2:{ intros H. now apply left_with_raised in H. }
  destruct (get_artist_albums c artist_id "single" w2) as [[singles|e0] w3]; cbn.
  - discriminate.
  - intros H. now apply left_with_raised in H.
Qed.

(** When the image lines are not obtained, the probe for [chafa]
    raised, or the external renderer, the download or the conversion
    raised what is not an [Exception]. *)
Lemma image_lines_raised (images : list Image.Image) (e : exn) :
  image_lines_of rw renderer images = Raised e ->
  _is_chafa_available rw = Raised e
  \/ (is_exception e = false
      /\ exists first rest,
          images = first :: rest
          /\ (_render_with_chafa rw renderer (Image.url first) = Raised e
              \/ bind (_download_image rw (Image.url first))
                    (_get_block_art_lines rw renderer) = Raised e)).
Proof.
  destruct images as [|first rest]; simpl; [discriminate|].
  unfold render_image_lines.
  destruct (negb (truthy_str (Image.url first))); [discriminate|].
  assert (Hfb : fallback rw renderer (Image.url first) = Raised e ->
                is_exception e = false
                /\ exists first0 rest0,
                    first :: rest = first0 :: rest0
                    /\ (_render_with_chafa rw renderer (Image.url first0) = Raised e
                        \/ bind (_download_image rw (Image.url first0))
                              (_get_block_art_lines rw renderer) = Raised e)).
  { unfold fallback, try_except.
    destruct (bind (_download_image rw (Image.url first))
                (_get_block_art_lines rw renderer)) as [l|e0] eqn:Hb; [discriminate|].
    destruct (is_exception e0) eqn:He; [discriminate|].
    intros [= <-]. split; [exact He|]. exists first, rest. auto. }
  destruct (_is_chafa_available rw) as [[|]|e']; simpl.
  - destruct (_render_with_chafa rw renderer (Image.url first)) as [[l'|]|e0] eqn:Hc;
      cbn [bind].
    + destruct (truthy_list l'); [discriminate|]. intros H. right. now apply Hfb.
    + intros H. right. now apply Hfb.
    + intros [= <-]. right. split.
      * unfold _render_with_chafa, try_except in Hc.
        destruct (bind (_download_to_temp rw (Image.url first)) _) as [x|e1];
          [discriminate|].
        destruct (is_exception e1) eqn:He1; [discriminate|]. congruence.
      * exists first, rest. auto.
  - intros H. right. now apply Hfb.
  - intros [= <-]. now left.
Qed.

(** X20. The track panel has eight or nine lines, so from a height of 11 on
    (the search command allows 15 to 35) it is shown whole: beside an
    image of the configured height or beside the 20-line placeholder.
    Only a lookup of the genres that is left by what is not an
    [Exception] prevents it: the function is then left in the same way,
    having printed nothing. *)
Theorem display_track_whole (track : Track.Track) (client : option (Client W)) (w : W)
  (image_lines : list string) (duration : timedelta) :
  11 <= height renderer ->
  image_lines_of rw renderer (Album.images (Track.album track)) = Returned image_lines ->
  timedelta_milliseconds (Track.duration_ms track) = Returned duration ->
  exists released,
    _format_ordinal_date decimal strftime_Y (Album.release_date (Track.album track))
    = Returned released
    /\ (len image_lines = height renderer \/ len image_lines = 20)
    /\ match resolve_genres client (Album.genres (Track.album track))
               (Track.artists track) w with
       | (Returned genres, _, _) =>
           shown_whole (display_track rw renderer decimal strftime_Y track client w)
             image_lines
             (track_info track duration released ++ genres_line genres)%list
       | (Raised e, w', made) =>
           is_exception e = false
           /\ display_track rw renderer decimal strftime_Y track client w
              = raised e w' made
       end.
Proof.
  intros Hh Himg Hdur.
  destruct (format_date_returns (Album.release_date (Track.album track)))
    as [released Hrel].
  exists released. split; [exact Hrel|].
  pose proof (image_lines_count _ _ ltac:(lia) Himg) as Hcount.
  split; [exact Hcount|].
  unfold display_track. rewrite Himg, Hdur.
  pose proof (resolve_genres_raised client (Album.genres (Track.album track))
                (Track.artists track) w) as Hleft.
  destruct (resolve_genres client (Album.genres (Track.album track))
              (Track.artists track) w) as [[[genres|e] w'] made].
  - rewrite Hrel.
    apply side_by_side_whole.
    + pose proof (genres_line_length genres).
      rewrite length_app. cbn [track_info List.length].
      unfold len in Hcount. lia.
    + apply cover_links_nonempty.
  - split; [|reflexivity]. now apply (Hleft e).
Qed.

(** X21. The artist panel has at most thirteen lines (three, the genres,
    the two counts, and seven for the top tracks), so from a height of
    15 on, the least the search command allows, it is shown whole.
    Only a call of the client that is left by what is not an
    [Exception] prevents it: the function is then left in the same way,
    having printed nothing. *)
Theorem display_artist_whole (artist : Artist.Artist) (client : option (Client W))
  (w : W) (image_lines : list string) (followers : string) :
  15 <= height renderer ->
  image_lines_of rw renderer (Artist.images artist) = Returned image_lines ->
  FormatNumber._format_number (Followers.total (Artist.followers artist))
  = Returned followers ->
  (len image_lines = height renderer \/ len image_lines = 20)
  /\ match artist_extras client (Artist.id artist) w with
     | (Returned (top_tracks, albums_count, singles_count), _, _) =>
         shown_whole (display_artist rw renderer artist client w) image_lines
           (artist_info artist followers
              ++ genres_line (Artist.genres artist)
              ++ count_line "Albums" albums_count Colors.GREEN
              ++ count_line "Singles" singles_count Colors.YELLOW
              ++ top_tracks_block top_tracks)%list
     | (Raised e, w', made) =>
         is_exception e = false
         /\ display_artist rw renderer artist client w = raised e w' made
     end.
Proof.
  intros Hh Himg Hnum.
  pose proof (image_lines_count _ _ ltac:(lia) Himg) as Hcount.
  split; [exact Hcount|].
  unfold display_artist. rewrite Himg.
  pose proof (artist_extras_raised client (Artist.id artist) w) as Hleft.
  destruct (artist_extras client (Artist.id artist) w)
    as [[[[[top_tracks albums_count] singles_count]|e] w'] made].
  - rewrite Hnum.
    apply side_by_side_whole; [|discriminate].
    pose proof (genres_line_length (Artist.genres artist)).
    pose proof (count_line_length "Albums" albums_count Colors.GREEN).
    pose proof (count_line_length "Singles" singles_count Colors.YELLOW).
    pose proof (top_tracks_block_length top_tracks).
    rewrite !length_app. cbn [artist_info List.length].
    unfold len in Hcount. lia.
  - split; [|reflexivity]. now apply (Hleft e).
Qed.

End Panels.

Section AlbumPanel.
Import Datetime ImageRenderer DisplayFormatter DisplayPanels.

Context {Img W : Type}.
Variable rw : World Img.
Variable renderer : ImageRenderer.
Variable decimal : Z -> option Z.
Variable strftime_Y : date -> string.

(** Row [i] with the info line beside the image line, and with the
    links beside it. *)
Definition beside (image_lines info_lines : list string) (i : nat) : string :=
  nth i image_lines "" ++ "   " ++ nth i info_lines "".

Definition link_row (image_lines links : list string) (i : nat) : string :=
  nth i image_lines "" ++ "   " ++ link_line links.

(** The lines of the album panel. *)
Definition album_lines (album : Album.Album Track.Track) (released : string)
  (duration : timedelta) (genres : list string) : list string :=
  (album_info album released duration ++ genres_line genres
     ++ label_line (Album.label album)
     ++ top_tracks_block (tracks_or_empty album))%list.

Lemma display_album_runs (album : Album.Album Track.Track) (client : option (Client W))
  (w : W) (image_lines : list string) (duration : timedelta) :
  image_lines_of rw renderer (Album.images album) = Returned image_lines ->
  timedelta_milliseconds (total_duration album) = Returned duration ->
  exists released,
    _format_ordinal_date decimal strftime_Y (Album.release_date album) = Returned released
    /\ match resolve_genres client (Album.genres album) (Album.artists album) w with
       | (Returned genres, w', made) =>
           display_album rw renderer decimal strftime_Y album client w
           = side_by_side image_lines (album_lines album released duration genres)
               (cover_links (Album.images album) (Album.external_urls album)) w' made
       | (Raised e, w', made) =>
           is_exception e = false
           /\ display_album rw renderer decimal strftime_Y album client w
              = raised e w' made
       end.
Proof.
  intros Himg Hdur.
  destruct (format_date_returns decimal strftime_Y (Album.release_date album))
    as [released Hrel].
  exists released. split; [exact Hrel|].
  unfold display_album. rewrite Himg.
  pose proof (resolve_genres_raised client (Album.genres album) (Album.artists album) w)
    as Hleft.
  destruct (resolve_genres client (Album.genres album) (Album.artists album) w)
    as [[[genres|e] w'] made].
  - rewrite Hrel, Hdur. reflexivity.
  - split; [|reflexivity]. now apply (Hleft e).
Qed.

Lemma album_lines_length (album : Album.Album Track.Track) (released : string)
  (duration : timedelta) (genres : list string) :
  (7 <= List.length (album_lines album released duration genres) <= 16)%nat.
Proof.
  unfold album_lines. rewrite !length_app. cbn [album_info List.length].
  pose proof (genres_line_length genres).
  pose proof (label_line_length (Album.label album)).
  pose proof (top_tracks_block_length (tracks_or_empty album)).
  lia.
Qed.

(** A full album panel: genres, a label and five or more tracks. *)
Lemma album_lines_full (album : Album.Album Track.Track) (released : string)
  (duration : timedelta) (genres : list string) (tracks : list Track.Track) :
  genres <> [] -> Album.label album <> "" ->
  Album.tracks album = Some tracks -> (5 <= List.length tracks)%nat ->
  album_lines album released duration genres
  = (album_info album released duration
       ++ [ _format_info_line "Genres" (join ", " (slice_to genres 2)) Colors.RED;
            _format_info_line "Label" (Album.label album) Colors.WHITE;
            "";
            top_tracks_heading ]
       ++ map track_link (firstn 5 tracks))%list.
Proof.
  intros Hg Hl Ht H5. unfold album_lines, genres_line, label_line, top_tracks_block,
    tracks_or_empty.
  rewrite Ht.
  replace (truthy_list genres) with true by (destruct genres; [congruence|reflexivity]).
  rewrite (truthy_str_neq _ Hl).
  replace (truthy_list tracks) with true
    by (destruct tracks; [simpl in H5; lia|reflexivity]).
  reflexivity.
Qed.

(** X22. The album panel has up to sixteen lines (seven, the genres, the
    label, and seven for the top tracks).  From a height of 18 on it is
    shown whole.  A full panel beside an image of 15 or 16 lines keeps
    fourteen lines: the link row follows the third top track, and the
    fourth and the fifth are not printed.  Only a lookup of the genres
    that is left by what is not an [Exception] prevents this: the
    function is then left in the same way, having printed nothing. *)
Theorem display_album_cut (album : Album.Album Track.Track) (client : option (Client W))
  (w : W) (image_lines : list string) (duration : timedelta) :
  image_lines_of rw renderer (Album.images album) = Returned image_lines ->
  timedelta_milliseconds (total_duration album) = Returned duration ->
  exists released,
    _format_ordinal_date decimal strftime_Y (Album.release_date album) = Returned released
    /\ match resolve_genres client (Album.genres album) (Album.artists album) w with
       | (Raised e, w', made) =>
           is_exception e = false
           /\ display_album rw renderer decimal strftime_Y album client w
              = raised e w' made
       | (Returned genres, _, _) =>
           (18 <= height renderer ->
            shown_whole (display_album rw renderer decimal strftime_Y album client w)
              image_lines (album_lines album released duration genres))
           /\ (forall tracks,
                 genres <> [] -> Album.label album <> "" ->
                 Album.tracks album = Some tracks -> (5 <= List.length tracks)%nat ->
                 (15 <= List.length image_lines <= 16)%nat ->
                 let info_lines := album_lines album released duration genres in
                 firstn 14 info_lines
                 = (album_info album released duration
                      ++ [ _format_info_line "Genres" (join ", " (slice_to genres 2))
                             Colors.RED;
                           _format_info_line "Label" (Album.label album) Colors.WHITE;
                           "";
                           top_tracks_heading ]
                      ++ map track_link (firstn 3 tracks))%list
                 /\ skipn 14 info_lines = map track_link (firstn 2 (skipn 3 tracks))
                 /\ result (display_album rw renderer decimal strftime_Y album client w)
                    = Returned tt
                 /\ rows (display_album rw renderer decimal strftime_Y album client w)
                    = (map (beside image_lines info_lines) (seq 0 14)
                         ++ [link_row image_lines
                               (cover_links (Album.images album)
                                  (Album.external_urls album)) 14]
                         ++ map (bare_row image_lines)
                              (seq 15 (List.length image_lines - 15)))%list)
       end.
Proof.
  intros Himg Hdur.
  destruct (display_album_runs album client w image_lines duration Himg Hdur)
    as (released & Hrel & Hrun).
  exists released. split; [exact Hrel|].
  destruct (resolve_genres client (Album.genres album) (Album.artists album) w)
    as [[[genres|e] w'] made]; [|exact Hrun].
  split.
  - intros Hh. rewrite Hrun.
    apply side_by_side_whole; [|apply cover_links_nonempty].
    pose proof (album_lines_length album released duration genres).
    pose proof (image_lines_count rw renderer _ _ ltac:(lia) Himg) as Hcount.
    unfold len in Hcount. lia.
  - intros tracks Hgen Hlab Htr H5 Hsize info_lines.
    pose proof (album_lines_full album released duration genres tracks Hgen Hlab Htr H5)
      as Hfull.
    assert (Hlen : List.length info_lines = 16%nat).
    { subst info_lines. rewrite Hfull. rewrite !length_app, length_map, length_firstn.
      cbn [album_info List.length]. lia. }
    destruct tracks as [|t1 [|t2 [|t3 [|t4 [|t5 more]]]]]; simpl in H5; try lia.
    split; [subst info_lines; rewrite Hfull; reflexivity|].
    split; [subst info_lines; rewrite Hfull; reflexivity|].
    rewrite Hrun, side_by_side_rows by (fold info_lines; lia).
    fold info_lines. cbn [result rows].
    split; [reflexivity|].
    assert (Ht : Z.to_nat (target_lines image_lines info_lines) = 14%nat)
      by (unfold target_lines, len; lia).
    rewrite Ht. unfold closing_rows.
    replace (truthy_list (cover_links (Album.images album) (Album.external_urls album)))
      with true
      by (pose proof (cover_links_nonempty (Album.images album) (Album.external_urls album));
          destruct (cover_links (Album.images album) (Album.external_urls album));
          [congruence|reflexivity]).
    f_equal.
    + apply map_ext_in. intros i Hi. apply in_seq in Hi. unfold row_at, beside.
      now rewrite (nth_indep image_lines (spaces 46) "") by lia.
    + cbn [app]. f_equal. unfold link_row.
      now rewrite (nth_indep image_lines (spaces 46) "") by lia.
Qed.

End AlbumPanel.

Section LinksOfPanels.
Import ImageRenderer DisplayFormatter DisplayPanels.

(** [c in p] *)
Fixpoint has_char (c : ascii) (p : string) : bool :=
  match p with
  | EmptyString => false
  | String x p' => (Ascii.eqb c x || has_char c p')%bool
  end.

Lemma prefix_before_separator (p a b : string) (c : ascii) :
  has_char c p = false ->
  prefix p (a ++ String c b) = prefix p a.
Proof.
  revert a. induction p as [|x p IH]; intros a Hc.
  - destruct a; reflexivity.
  - simpl in Hc. apply orb_false_iff in Hc. destruct Hc as [Hx Hp].
    destruct a as [|y a]; simpl.
    + destruct (ascii_dec x c) as [->|Hne]; [|reflexivity].
      rewrite Ascii.eqb_refl in Hx. discriminate.
    + destruct (ascii_dec x y); [now apply IH|reflexivity].
Qed.

(** An occurrence of [p] cannot run over a character [p] does not
    have. *)
Lemma contains_around_separator (p a b : string) (c : ascii) :
  p <> "" -> has_char c p = false ->
  contains p (a ++ String c b) = (contains p a || contains p b)%bool.
Proof.
  intros Hp Hc. induction a as [|y a IH].
  - change ("" ++ String c b) with (String c b).
    cbn [contains].
    rewrite <- (prefix_before_separator p "" b c Hc) at 1.
    change ("" ++ String c b) with (String c b).
    destruct p as [|x p]; [congruence|].
    pose proof (prefix_before_separator (String x p) "" b c Hc) as H0.
    change ("" ++ String c b) with (String c b) in H0. rewrite H0.
    reflexivity.
  - change (String y a ++ String c b) with (String y (a ++ String c b)).
    cbn [contains].
    pose proof (prefix_before_separator p (String y a) b c Hc) as H0.
    change (String y a ++ String c b) with (String y (a ++ String c b)) in H0.
    rewrite H0, IH.
    destruct (prefix p (String y a)); reflexivity.
Qed.

Lemma lower_app (a b : string) : lower (a ++ b) = lower a ++ lower b.
Proof. induction a as [|x a IH]; simpl; [reflexivity|now rewrite IH]. Qed.

(** A link drawn around [url] with a text that does not name the
    catalog mentions spotify exactly when the address does. *)
Lemma image_link_is_spotify (url : string) :
  is_spotify (Colors.BLUE ++ _create_clickable_link url "Album Cover" ++ Colors.RESET)
  = is_spotify url
  /\ is_spotify (Colors.BLUE ++ _create_clickable_link url "Artist Photo" ++ Colors.RESET)
     = is_spotify url.
Proof.
  unfold is_spotify, _create_clickable_link.
  split.
  - rewrite !string_app_assoc.
    change (Colors.BLUE ++ Colors.ESC ++ "]8;;" ++ url ++ Colors.ESC ++ "\" ++ "Album Cover"
              ++ Colors.ESC ++ "]8;;" ++ Colors.ESC ++ "\" ++ Colors.RESET)
      with ((Colors.BLUE ++ Colors.ESC ++ "]8;") ++ String ";"
              (url ++ String "027" ("\" ++ "Album Cover" ++ Colors.ESC ++ "]8;;"
                                        ++ Colors.ESC ++ "\" ++ Colors.RESET))).
    rewrite lower_app. cbn [lower]. change (lower_char ";") with ";"%char.
    rewrite contains_around_separator by (discriminate || reflexivity).
    rewrite (lower_app url). cbn [lower]. change (lower_char "027") with "027"%char.
    rewrite contains_around_separator by (discriminate || reflexivity).
    vm_compute (contains "spotify" (lower (Colors.BLUE ++ Colors.ESC ++ "]8;"))).
    vm_compute (contains "spotify" (lower ("\" ++ "Album Cover" ++ Colors.ESC ++ "]8;;"
                                             ++ Colors.ESC ++ "\" ++ Colors.RESET))).
    now rewrite orb_false_r.
  - rewrite !string_app_assoc.
    change (Colors.BLUE ++ Colors.ESC ++ "]8;;" ++ url ++ Colors.ESC ++ "\" ++ "Artist Photo"
              ++ Colors.ESC ++ "]8;;" ++ Colors.ESC ++ "\" ++ Colors.RESET)
      with ((Colors.BLUE ++ Colors.ESC ++ "]8;") ++ String ";"
              (url ++ String "027" ("\" ++ "Artist Photo" ++ Colors.ESC ++ "]8;;"
                                        ++ Colors.ESC ++ "\" ++ Colors.RESET))).
    rewrite lower_app. cbn [lower]. change (lower_char ";") with ";"%char.
    rewrite contains_around_separator by (discriminate || reflexivity).
    rewrite (lower_app url). cbn [lower]. change (lower_char "027") with "027"%char.
    rewrite contains_around_separator by (discriminate || reflexivity).
    vm_compute (contains "spotify" (lower (Colors.BLUE ++ Colors.ESC ++ "]8;"))).
    vm_compute (contains "spotify" (lower ("\" ++ "Artist Photo" ++ Colors.ESC ++ "]8;;"
                                             ++ Colors.ESC ++ "\" ++ Colors.RESET))).
    now rewrite orb_false_r.
Qed.

Lemma contains_after (p a b : string) :
  contains p b = true -> contains p (a ++ b) = true.
Proof.
  intros H. induction a as [|x a IH]; [exact H|].
  change (String x a ++ b) with (String x (a ++ b)). cbn [contains].
  rewrite IH. destruct (prefix p (String x (a ++ b))); reflexivity.
Qed.

(** The catalog link always mentions spotify: its text does. *)
Lemma spotify_link_is_spotify (urls : ExternalURL.ExternalURL) :
  is_spotify (spotify_link urls) = true.
Proof.
  unfold is_spotify, spotify_link, _create_clickable_link.
  rewrite !string_app_assoc.
  rewrite lower_app. apply contains_after.
  rewrite lower_app. apply contains_after.
  rewrite lower_app. apply contains_after.
  rewrite lower_app. apply contains_after.
  rewrite lower_app. apply contains_after.
  reflexivity.
Qed.

End LinksOfPanels.

Section PanelBehaviour.
Import Datetime ImageRenderer DisplayFormatter DisplayPanels.

Context {Img W : Type}.
Variable rw : World Img.
Variable renderer : ImageRenderer.
Variable decimal : Z -> option Z.
Variable strftime_Y : date -> string.

(** X23. The link row of the three panels.  Without an image it is the
    catalog link alone.  With an image whose address does not mention
    spotify it is the catalog link followed by the image link, also for
    a track or an album, whose list has the cover first.  With an
    address that mentions spotify the image link counts as a catalog
    link: a track or an album then shows the catalog link twice and no
    cover link, an artist shows the photo link twice and no catalog
    link. *)
Theorem link_row_of_panels (urls : ExternalURL.ExternalURL) (artist : Artist.Artist)
  (first : Image.Image) (rest : list Image.Image) :
  let cover :=
    Colors.BLUE ++ _create_clickable_link (Image.url first) "Album Cover" ++ Colors.RESET in
  let photo :=
    Colors.BLUE ++ _create_clickable_link (Image.url first) "Artist Photo" ++ Colors.RESET in
  link_line (cover_links [] urls) = spotify_link urls
  /\ (Artist.images artist = [] ->
      link_line (artist_links artist) = spotify_link (Artist.external_urls artist))
  /\ (is_spotify (Image.url first) = false ->
      link_line (cover_links (first :: rest) urls) = spotify_link urls ++ "   " ++ cover
      /\ (Artist.images artist = first :: rest ->
          link_line (artist_links artist)
          = spotify_link (Artist.external_urls artist) ++ "   " ++ photo))
  /\ (is_spotify (Image.url first) = true ->
      link_line (cover_links (first :: rest) urls)
      = spotify_link urls ++ "   " ++ spotify_link urls
      /\ (Artist.images artist = first :: rest ->
          link_line (artist_links artist) = photo ++ "   " ++ photo)).
Proof.
  intros cover photo.
  destruct (image_link_is_spotify (Image.url first)) as [Hcover Hphoto].
  fold cover in Hcover. fold photo in Hphoto.
  assert (Hone : forall u, link_line [spotify_link u] = spotify_link u).
  { intros u. unfold link_line, classify_links. cbn [fold_left].
    rewrite (spotify_link_is_spotify u).
    rewrite (is_spotify_truthy _ (spotify_link_is_spotify u)). reflexivity. }
  assert (Hcover_ne : cover <> "") by discriminate.
  assert (Hphoto_ne : photo <> "") by discriminate.
  split; [apply Hone|]. split.
  { intros Hno. unfold artist_links. rewrite Hno. apply Hone. }
  split.
  - intros Hurl. split.
    + apply (link_line_pair (spotify_link urls) cover).
      * apply spotify_link_is_spotify.
      * now rewrite Hcover.
      * exact Hcover_ne.
      * right. reflexivity.
    + intros Himg. unfold artist_links. rewrite Himg.
      apply (link_line_pair (spotify_link (Artist.external_urls artist)) photo).
      * apply spotify_link_is_spotify.
      * now rewrite Hphoto.
      * exact Hphoto_ne.
      * left. reflexivity.
  - intros Hurl.
    assert (Htwo : forall a b, is_spotify a = true -> is_spotify b = true ->
                               link_line [a; b] = b ++ "   " ++ b).
    { intros a b Ha Hb. unfold link_line, classify_links. cbn [fold_left].
      rewrite Ha, Hb. rewrite (is_spotify_truthy _ Hb). cbn.
      rewrite (is_spotify_truthy _ Hb). reflexivity. }
    split.
    + apply (Htwo cover (spotify_link urls));
        [now rewrite Hcover | apply spotify_link_is_spotify].
    + intros Himg. unfold artist_links. rewrite Himg.
      apply (Htwo (spotify_link (Artist.external_urls artist)) photo);
        [apply spotify_link_is_spotify | now rewrite Hphoto].
Qed.

(** The external renderer, the download or the conversion of the first
    image raised [e], which is not an [Exception] and so passed the
    handlers of the renderer. *)
Definition renderer_left (images : list Image.Image) (e : exn) : Prop :=
  is_exception e = false
  /\ exists first rest,
      images = first :: rest
      /\ (_render_with_chafa rw renderer (Image.url first) = Raised e
          \/ bind (_download_image rw (Image.url first)) (_get_block_art_lines rw renderer)
             = Raised e).

Lemma image_lines_left (images : list Image.Image) (e : exn) :
  image_lines_of rw renderer images = Raised e ->
  _is_chafa_available rw = Raised e \/ renderer_left images e.
Proof. apply image_lines_raised. Qed.

(** The lookup of the genres was made and the client raised [e], which
    is not an [Exception]. *)
Definition lookup_left (client : option (Client W)) (genres : list string)
  (artists : list Artist.Artist) (w : W) (e : exn) : Prop :=
  is_exception e = false
  /\ exists c first rest,
      client = Some c /\ genres = [] /\ artists = first :: rest
      /\ fst (get_artist c (Artist.id first) w) = Raised e.

(** One of the three calls for the artist panel raised [e], which is
    not an [Exception]. *)
Definition listing_left (client : option (Client W)) (artist_id : string) (w : W)
  (e : exn) : Prop :=
  is_exception e = false
  /\ exists c,
      client = Some c
      /\ (fst (get_artist_top_tracks c artist_id w) = Raised e
          \/ exists top_tracks w1,
              get_artist_top_tracks c artist_id w = (Returned top_tracks, w1)
              /\ (fst (get_artist_albums c artist_id "album" w1) = Raised e
                  \/ exists albums w2,
                      get_artist_albums c artist_id "album" w1 = (Returned albums, w2)
                      /\ fst (get_artist_albums c artist_id "single" w2) = Raised e)).

Lemma resolve_genres_left (client : option (Client W)) (genres : list string)
  (artists : list Artist.Artist) (w : W) (e : exn) :
  fst (fst (resolve_genres client genres artists w)) = Raised e ->
  lookup_left client genres artists w e.
Proof.
  intros H. split; [exact (resolve_genres_raised _ _ _ _ _ H)|].
  revert H. unfold resolve_genres.
  destruct genres as [|g genres]; [|discriminate].
  destruct artists as [|first rest]; [discriminate|]. cbn [truthy_list negb andb].
  destruct client as [c|]; [|discriminate].
  destruct (get_artist c (Artist.id first) w) as [[artist|e0] w'] eqn:Hget;
    [discriminate|].
  cbn. destruct (is_exception e0); [discriminate|]. intros [= <-].
  exists c, first, rest. rewrite Hget. auto.
Qed.

Lemma artist_extras_left (client : option (Client W)) (artist_id : string) (w : W)
  (e : exn) :
  fst (fst (artist_extras client artist_id w)) = Raised e ->
  listing_left client artist_id w e.
Proof.
  intros H. split; [exact (artist_extras_raised _ _ _ _ H)|].
  unfold artist_extras in H.
  destruct client as [c|]; [|discriminate]. exists c. split; [reflexivity|].
  destruct (get_artist_top_tracks c artist_id w) as [[top_tracks|e0] w1]; cbn in *.
  { right. exists top_tracks, w1. split; [reflexivity|].
    destruct (get_artist_albums c artist_id "album" w1) as [[albums|e0] w2]; cbn in *.
    - right. exists albums, w2. split; [reflexivity|].
      destruct (get_artist_albums c artist_id "single" w2) as [[singles|e0] w3];
        cbn in *; [discriminate|].
      apply left_with_raised in H. now destruct H as [-> _].
    - left. apply left_with_raised in H. now destruct H as [-> _]. }
  left. apply left_with_raised in H. now destruct H as [-> _].
Qed.

(** X24. The compositor never raises on a panel, so a display function that
    raises has printed nothing: the probe for [chafa] raised, or the
    duration is out of the range of [timedelta], or the number of
    followers is too large for a float, or the renderer or a call of
    the client was left by what is not an [Exception].  A track that
    raises for a reason other than the last has not called the client
    either. *)
Theorem display_all_or_nothing (track : Track.Track) (album : Album.Album Track.Track)
  (artist : Artist.Artist) (client : option (Client W)) (w : W) (e : exn) :
  (result (display_track rw renderer decimal strftime_Y track client w) = Raised e ->
   rows (display_track rw renderer decimal strftime_Y track client w) = []
   /\ ((calls (display_track rw renderer decimal strftime_Y track client w) = []
        /\ world (display_track rw renderer decimal strftime_Y track client w) = w
        /\ (_is_chafa_available rw = Raised e
            \/ timedelta_milliseconds (Track.duration_ms track) = Raised e
            \/ renderer_left (Album.images (Track.album track)) e))
       \/ lookup_left client (Album.genres (Track.album track)) (Track.artists track)
            w e))
  /\ (result (display_album rw renderer decimal strftime_Y album client w) = Raised e ->
      rows (display_album rw renderer decimal strftime_Y album client w) = []
      /\ (_is_chafa_available rw = Raised e
          \/ timedelta_milliseconds (total_duration album) = Raised e
          \/ renderer_left (Album.images album) e
          \/ lookup_left client (Album.genres album) (Album.artists album) w e))
  /\ (result (display_artist rw renderer artist client w) = Raised e ->
      rows (display_artist rw renderer artist client w) = []
      /\ (_is_chafa_available rw = Raised e
          \/ FormatNumber._format_number (Followers.total (Artist.followers artist))
             = Raised e
          \/ renderer_left (Artist.images artist) e
          \/ listing_left client (Artist.id artist) w e)).
Proof.
  split; [|split].
  - unfold display_track.
    destruct (image_lines_of rw renderer (Album.images (Track.album track)))
      as [image_lines|e0] eqn:Himg.
    2:{ cbn. intros [= ->]. split; [reflexivity|]. left. repeat split.
        destruct (image_lines_left _ _ Himg); auto. }
    destruct (timedelta_milliseconds (Track.duration_ms track)) as [duration|e0] eqn:Hdur.
    2:{ cbn. intros [= ->]. split; [reflexivity|]. left. repeat split. right. now left. }
    pose proof (resolve_genres_left client (Album.genres (Track.album track))
                  (Track.artists track) w) as Hleft.
    destruct (resolve_genres client (Album.genres (Track.album track))
                (Track.artists track) w) as [[[genres|e0] w'] made].
    2:{ cbn. intros [= ->]. split; [reflexivity|]. right. now apply Hleft. }
    destruct (format_date_returns decimal strftime_Y (Album.release_date (Track.album track)))
      as [released ->].
    rewrite side_by_side_rows by (rewrite length_app; cbn [track_info List.length]; lia).
    discriminate.
  - unfold display_album.
    destruct (image_lines_of rw renderer (Album.images album))
      as [image_lines|e0] eqn:Himg.
    2:{ cbn. intros [= ->]. split; [reflexivity|].
        destruct (image_lines_left _ _ Himg); auto. }
    pose proof (resolve_genres_left client (Album.genres album) (Album.artists album) w)
      as Hleft.
    destruct (resolve_genres client (Album.genres album) (Album.artists album) w)
      as [[[genres|e0] w'] made].
    2:{ cbn. intros [= ->]. split; [reflexivity|]. right. right. right. now apply Hleft. }
    destruct (format_date_returns decimal strftime_Y (Album.release_date album))
      as [released ->].
    destruct (timedelta_milliseconds (total_duration album)) as [duration|e0] eqn:Hdur.
    2:{ cbn. intros [= ->]. split; [reflexivity|]. right. now left. }
    rewrite side_by_side_rows
      by (rewrite length_app; cbn [album_info List.length]; lia).
    discriminate.
  - unfold display_artist.
    destruct (image_lines_of rw renderer (Artist.images artist))
      as [image_lines|e0] eqn:Himg.
    2:{ cbn. intros [= ->]. split; [reflexivity|].
        destruct (image_lines_left _ _ Himg); auto. }
    pose proof (artist_extras_left client (Artist.id artist) w) as Hleft.
    destruct (artist_extras client (Artist.id artist) w)
      as [[[[[top_tracks albums_count] singles_count]|e0] w'] made].
    2:{ cbn. intros [= ->]. split; [reflexivity|]. right. right. right. now apply Hleft. }
    destruct (FormatNumber._format_number (Followers.total (Artist.followers artist)))
      as [followers|e0] eqn:Hnum.
    2:{ cbn. intros [= ->]. split; [reflexivity|]. right. now left. }
    rewrite side_by_side_rows
      by (rewrite length_app; cbn [artist_info List.length]; lia).
    discriminate.
Qed.

(** A lookup that gives no genres: the call raised an [Exception], or
    the artist it returned has none. *)
Definition no_genres_from (answer : outcome Artist.Artist * W) : Prop :=
  match fst answer with
  | Raised e => is_exception e = true
  | Returned artist => Artist.genres artist = []
  end.

Lemma resolve_genres_without_client (genres : list string)
  (artists : list Artist.Artist) (w : W) :
  resolve_genres None genres artists w = (Returned genres, w, []).
Proof.
  unfold resolve_genres.
  destruct (negb (truthy_list genres) && truthy_list artists)%bool; reflexivity.
Qed.

Lemma resolve_genres_not_needed (c : Client W) (genres : list string)
  (artists : list Artist.Artist) (w : W) :
  genres <> [] \/ artists = [] ->
  resolve_genres (Some c) genres artists w = (Returned genres, w, []).
Proof.
  intros [Hg | ->]; unfold resolve_genres.
  - destruct genres; [congruence|reflexivity].
  - destruct (negb (truthy_list genres) && truthy_list [])%bool; reflexivity.
Qed.

Lemma resolve_genres_in_vain (c : Client W) (first : Artist.Artist)
  (rest : list Artist.Artist) (w : W) :
  no_genres_from (get_artist c (Artist.id first) w) ->
  resolve_genres (Some c) [] (first :: rest) w
  = (Returned [], snd (get_artist c (Artist.id first) w), [GetArtist (Artist.id first)]).
Proof.
  unfold no_genres_from, resolve_genres. cbn [truthy_list negb andb].
  destruct (get_artist c (Artist.id first) w) as [[artist|e] w1]; cbn [fst snd].
  - now intros ->.
  - now intros ->.
Qed.

(** X25. The genres of a track or an album are looked up only when the
    album carries none and there is an artist: otherwise the client is
    not called at all.  The artist asked about is the first of the
    track's artists for a track and the first of the album's for an
    album, in a single call.  A lookup that raises an [Exception], or
    that finds an artist without genres, leaves the panel exactly as it
    is printed without a client. *)
Theorem genres_lookup (track : Track.Track) (album : Album.Album Track.Track)
  (c : Client W) (w : W) :
  ((Album.genres (Track.album track) <> [] \/ Track.artists track = []) ->
   display_track rw renderer decimal strftime_Y track (Some c) w
   = display_track rw renderer decimal strftime_Y track None w)
  /\ ((Album.genres album <> [] \/ Album.artists album = []) ->
      display_album rw renderer decimal strftime_Y album (Some c) w
      = display_album rw renderer decimal strftime_Y album None w)
  /\ (forall first rest,
        Album.genres (Track.album track) = [] -> Track.artists track = first :: rest ->
        no_genres_from (get_artist c (Artist.id first) w) ->
        rows (display_track rw renderer decimal strftime_Y track (Some c) w)
        = rows (display_track rw renderer decimal strftime_Y track None w)
        /\ result (display_track rw renderer decimal strftime_Y track (Some c) w)
           = result (display_track rw renderer decimal strftime_Y track None w)
        /\ (result (display_track rw renderer decimal strftime_Y track (Some c) w) = Returned tt ->
            calls (display_track rw renderer decimal strftime_Y track (Some c) w)
            = [GetArtist (Artist.id first)]
            /\ world (display_track rw renderer decimal strftime_Y track (Some c) w)
               = snd (get_artist c (Artist.id first) w)))
  /\ (forall first rest,
        Album.genres album = [] -> Album.artists album = first :: rest ->
        no_genres_from (get_artist c (Artist.id first) w) ->
        rows (display_album rw renderer decimal strftime_Y album (Some c) w)
        = rows (display_album rw renderer decimal strftime_Y album None w)
        /\ result (display_album rw renderer decimal strftime_Y album (Some c) w)
           = result (display_album rw renderer decimal strftime_Y album None w)
        /\ (result (display_album rw renderer decimal strftime_Y album (Some c) w) = Returned tt ->
            calls (display_album rw renderer decimal strftime_Y album (Some c) w)
            = [GetArtist (Artist.id first)]
            /\ world (display_album rw renderer decimal strftime_Y album (Some c) w)
               = snd (get_artist c (Artist.id first) w))).
Proof.
  split; [|split; [|split]].
  - intros H. unfold display_track.
    now rewrite resolve_genres_without_client, (resolve_genres_not_needed c _ _ w H).
  - intros H. unfold display_album.
    now rewrite resolve_genres_without_client, (resolve_genres_not_needed c _ _ w H).
  - intros first rest Hg Ha Hno. unfold display_track.
    rewrite resolve_genres_without_client, Hg, Ha.
    rewrite (resolve_genres_in_vain c first rest w Hno).
    destruct (image_lines_of rw renderer (Album.images (Track.album track)));
      [|cbn; repeat split; discriminate].
    destruct (timedelta_milliseconds (Track.duration_ms track));
      [|cbn; repeat split; discriminate].
    destruct (_format_ordinal_date decimal strftime_Y (Album.release_date (Track.album track)));
      [|cbn; repeat split; discriminate].
    unfold side_by_side.
    destruct (_display_side_by_side_with_links _ _ _) as [out res]. cbn.
    repeat split.
  - intros first rest Hg Ha Hno. unfold display_album.
    rewrite resolve_genres_without_client, Hg, Ha.
    rewrite (resolve_genres_in_vain c first rest w Hno).
    destruct (image_lines_of rw renderer (Album.images album));
      [|cbn; repeat split; discriminate].
    destruct (_format_ordinal_date decimal strftime_Y (Album.release_date album));
      [|cbn; repeat split; discriminate].
    destruct (timedelta_milliseconds (total_duration album));
      [|cbn; repeat split; discriminate].
    unfold side_by_side.
    destruct (_display_side_by_side_with_links _ _ _) as [out res]. cbn.
    repeat split.
Qed.

(** The same client with no album and no single to list. *)
Definition without_albums (c : Client W) : Client W :=
  {| get_artist := get_artist c;
     get_artist_top_tracks := get_artist_top_tracks c;
     get_artist_albums := fun _ _ w => (Returned [], w) |}.

(** X26. The artist panel after a failure of the client.  When the call for
    the top tracks raises an [Exception], nothing else is asked (it is
    the one call made, once the image lines were obtained) and the panel
    is the one printed without a client.  When the top tracks came and
    one of the two listings raises an [Exception], the top tracks stay
    but both counts are left out, also the number of albums that was
    already fetched: the panel is the one of a client with nothing to
    list. *)
Theorem artist_counts_dropped (artist : Artist.Artist) (c : Client W) (w : W) :
  (forall e w1,
     get_artist_top_tracks c (Artist.id artist) w = (Raised e, w1) ->
     is_exception e = true ->
     rows (display_artist rw renderer artist (Some c) w)
     = rows (display_artist rw renderer artist None w)
     /\ result (display_artist rw renderer artist (Some c) w)
        = result (display_artist rw renderer artist None w)
     /\ ((exists image_lines,
            image_lines_of rw renderer (Artist.images artist) = Returned image_lines) ->
         calls (display_artist rw renderer artist (Some c) w)
         = [GetArtistTopTracks (Artist.id artist)]))
  /\ (forall top_tracks w1 albums w2 e w3,
        get_artist_top_tracks c (Artist.id artist) w = (Returned top_tracks, w1) ->
        get_artist_albums c (Artist.id artist) "album" w1 = (Returned albums, w2) ->
        get_artist_albums c (Artist.id artist) "single" w2 = (Raised e, w3) ->
        is_exception e = true ->
        rows (display_artist rw renderer artist (Some c) w)
        = rows (display_artist rw renderer artist (Some (without_albums c)) w)
        /\ result (display_artist rw renderer artist (Some c) w)
           = result (display_artist rw renderer artist (Some (without_albums c)) w))
  /\ (forall top_tracks w1 e w2,
        get_artist_top_tracks c (Artist.id artist) w = (Returned top_tracks, w1) ->
        get_artist_albums c (Artist.id artist) "album" w1 = (Raised e, w2) ->
        is_exception e = true ->
        rows (display_artist rw renderer artist (Some c) w)
        = rows (display_artist rw renderer artist (Some (without_albums c)) w)
        /\ result (display_artist rw renderer artist (Some c) w)
           = result (display_artist rw renderer artist (Some (without_albums c)) w)).
Proof.
  split; [|split].
  - intros e w1 Htop He. unfold display_artist, artist_extras, left_with.
    rewrite Htop, He.
    destruct (image_lines_of rw renderer (Artist.images artist)) eqn:Himg.
    + destruct (FormatNumber._format_number (Followers.total (Artist.followers artist)));
        [|cbn; repeat split].
      unfold side_by_side.
      destruct (_display_side_by_side_with_links _ _ _) as [out res]. cbn.
      repeat split.
    + cbn. repeat split. intros (image_lines & Hlines). discriminate.
  - intros top_tracks w1 albums w2 e w3 Htop Halb Hsin He.
    unfold display_artist, artist_extras, left_with.
    cbn [without_albums get_artist_top_tracks get_artist_albums].
    rewrite Htop, Halb, Hsin, He.
    destruct (image_lines_of rw renderer (Artist.images artist)); [|cbn; split; reflexivity].
    destruct (FormatNumber._format_number (Followers.total (Artist.followers artist)));
      [|cbn; split; reflexivity].
    unfold side_by_side. cbn [len List.length Z.of_nat].
    destruct (_display_side_by_side_with_links _ _ _) as [out res]. cbn.
    split; reflexivity.
  - intros top_tracks w1 e w2 Htop Halb He.
    unfold display_artist, artist_extras, left_with.
    cbn [without_albums get_artist_top_tracks get_artist_albums].
    rewrite Htop, Halb, He.
    destruct (image_lines_of rw renderer (Artist.images artist)); [|cbn; split; reflexivity].
    destruct (FormatNumber._format_number (Followers.total (Artist.followers artist)));
      [|cbn; split; reflexivity].
    unfold side_by_side. cbn [len List.length Z.of_nat].
    destruct (_display_side_by_side_with_links _ _ _) as [out res]. cbn.
    split; reflexivity.
Qed.

End PanelBehaviour.

(* ================================================================= *)
(** ** The panels on an example catalog *)

Section PanelExamples.
Import Datetime ImageRenderer DisplayFormatter DisplayPanels.

Definition cover : Image.Image :=
  {| Image.url := "https://i.scdn.co/image/ab67616d0000b273c8b444df";
     Image.height := 640; Image.width := 640 |}.

(** An image served from a host whose name mentions spotify. *)
Definition portrait : Image.Image :=
  {| Image.url := "https://image-cdn-ak.spotifycdn.com/image/ab6761610000e5eb";
     Image.height := 640; Image.width := 640 |}.

Definition radiohead : Artist.Artist :=
  {| Artist.id := "4Z8W4fKeB5YxbusRsdQVPb";
     Artist.name := "Radiohead";
     Artist.images := [portrait];
     Artist.genres := ["art rock"; "alternative rock"; "permanent wave"];
     Artist.popularity := 79;
     Artist.followers := {| Followers.total := 9999950 |};
     Artist.external_urls :=
       {| ExternalURL.spotify := "https://open.spotify.com/artist/4Z8W4fKeB5YxbusRsdQVPb" |};
     Artist.type := "artist" |}.

(** The artist as a search result for a track carries it: no images,
    no genres. *)
Definition radiohead_brief : Artist.Artist :=
  {| Artist.id := "4Z8W4fKeB5YxbusRsdQVPb";
     Artist.name := "Radiohead";
     Artist.images := [];
     Artist.genres := [];
     Artist.popularity := 0;
     Artist.followers := {| Followers.total := 0 |};
     Artist.external_urls :=
       {| ExternalURL.spotify := "https://open.spotify.com/artist/4Z8W4fKeB5YxbusRsdQVPb" |};
     Artist.type := "artist" |}.

Definition ok_computer_with (genres : list string) (label : string)
  (tracks : option (list Track.Track)) : Album.Album Track.Track :=
  {| Album.id := "6dVIqQ8qmQ5GBnJ9shOYGE";
     Album.name := "OK Computer";
     Album.artists := [radiohead_brief];
     Album.images := [cover];
     Album.release_date := "1997-05-21";
     Album.release_date_precision := "day";
     Album.total_tracks := 12;
     Album.genres := genres;
     Album.popularity := 80;
     Album.album_type := "album";
     Album.album_group := None;
     Album.label := label;
     Album.external_urls :=
       {| ExternalURL.spotify := "https://open.spotify.com/album/6dVIqQ8qmQ5GBnJ9shOYGE" |};
     Album.tracks := tracks |}.

Definition song (name : string) (number duration_ms : Z) : Track.Track :=
  {| Track.id := name;
     Track.name := name;
     Track.artists := [radiohead_brief];
     Track.album := ok_computer_with [] "" None;
     Track.duration_ms := duration_ms;
     Track.popularity := 70;
     Track.track_number := number;
     Track.disc_number := 1;
     Track.explicit := false;
     Track.preview_url := None;
     Track.external_urls :=
       {| ExternalURL.spotify := "https://open.spotify.com/track/" ++ name |};
     Track.available_markets := ["US"] |}.

Definition paranoid_android : Track.Track := song "Paranoid Android" 2 383066.

Definition ok_computer : Album.Album Track.Track :=
  ok_computer_with ["art rock"] "XL Recordings"
    (Some [ song "Airbag" 1 287880; paranoid_android;
            song "Subterranean Homesick Alien" 3 267693;
            song "Exit Music (For a Film)" 4 267186;
            song "Let Down" 5 299560;
            song "Karma Police" 6 264066 ]).

(** A client counting its requests: it knows the artist and the top
    tracks, lists one album, and fails on the singles. *)
Definition counting : Client nat :=
  {| get_artist := fun _ n => (Returned radiohead, S n);
     get_artist_top_tracks := fun _ n => (Returned [paranoid_android], S n);
     get_artist_albums := fun _ include_groups n =>
       if String.eqb include_groups "album"
       then (Returned [ok_computer], S n)
       else (Raised (Exn "Exception" "API request failed: 429 - Too many requests"),
             S n) |}.

(** A client none of whose requests gets through. *)
Definition failing : Client nat :=
  {| get_artist := fun _ n => (Raised (Exn "ConnectionError" "Network is unreachable"), S n);
     get_artist_top_tracks :=
       fun _ n => (Raised (Exn "ConnectionError" "Network is unreachable"), S n);
     get_artist_albums :=
       fun _ _ n => (Raised (Exn "ConnectionError" "Network is unreachable"), S n) |}.

(** The cover as the example machine renders it at the least size. *)
Definition cover_lines : list string :=
  Eval vm_compute in
    match image_lines_of with_chafa (init 15) [cover] with
    | Returned lines => lines
    | Raised _ => []
    end.

Lemma display_track_whole_witness :
  exists released,
    _format_ordinal_date decimal_unicode14 strftime_Y_glibc
      (Album.release_date (Track.album paranoid_android))
    = Returned released
    /\ (len cover_lines = height (init 15) \/ len cover_lines = 20)
    /\ shown_whole
         (display_track with_chafa (init 15) decimal_unicode14 strftime_Y_glibc
            paranoid_android (Some counting) 0%nat)
         cover_lines
         (track_info paranoid_android (Timedelta 0 383 66000) released
            ++ genres_line (Artist.genres radiohead))%list.
Proof.
  destruct (display_track_whole with_chafa (init 15) decimal_unicode14 strftime_Y_glibc
              paranoid_android (Some counting) 0%nat cover_lines (Timedelta 0 383 66000))
    as (released & Hreleased & Hcount & Hshown).
  - simpl. lia.
  - reflexivity.
  - reflexivity.
  - exists released. split; [exact Hreleased|]. split; [exact Hcount|exact Hshown].
Defined.

Lemma display_artist_whole_witness :
  (len _get_placeholder_lines = height (init 15) \/ len _get_placeholder_lines = 20)
  /\ shown_whole (display_artist with_chafa (init 15) radiohead_brief (Some counting) 0%nat)
       _get_placeholder_lines
       (artist_info radiohead_brief "0"
          ++ genres_line (Artist.genres radiohead_brief)
          ++ count_line "Albums" 0 Colors.GREEN
          ++ count_line "Singles" 0 Colors.YELLOW
          ++ top_tracks_block [paranoid_android])%list.
Proof.
  apply (display_artist_whole with_chafa (init 15) radiohead_brief (Some counting) 0%nat
           _get_placeholder_lines "0").
  - simpl. lia.
  - reflexivity.
  - reflexivity.
Defined.

Lemma display_album_cut_witness :
  exists released,
    _format_ordinal_date decimal_unicode14 strftime_Y_glibc (Album.release_date ok_computer)
    = Returned released
    /\ (forall tracks,
          Album.tracks ok_computer = Some tracks ->
          let info_lines :=
            album_lines ok_computer released (Timedelta 0 1769 451000) ["art rock"] in
          skipn 14 info_lines = map track_link (firstn 2 (skipn 3 tracks))
          /\ result (display_album with_chafa (init 15) decimal_unicode14 strftime_Y_glibc
                       ok_computer None 0%nat)
             = Returned tt
          /\ rows (display_album with_chafa (init 15) decimal_unicode14 strftime_Y_glibc
                     ok_computer None 0%nat)
             = (map (beside cover_lines info_lines) (seq 0 14)
                  ++ [link_row cover_lines
                        (cover_links (Album.images ok_computer)
                           (Album.external_urls ok_computer)) 14]
                  ++ map (bare_row cover_lines)
                       (seq 15 (List.length cover_lines - 15)))%list).
Proof.
  destruct (display_album_cut with_chafa (init 15) decimal_unicode14 strftime_Y_glibc
              ok_computer None 0%nat cover_lines (Timedelta 0 1769 451000))
    as (released & Hreleased & _ & Hcut).
  - reflexivity.
  - reflexivity.
  - exists released. split; [exact Hreleased|].
    intros tracks Htracks info_lines.
    destruct (Hcut tracks) as (_ & Hskip & Hresult & Hrows).
    + discriminate.
    + discriminate.
    + exact Htracks.
    + injection Htracks as <-. simpl. lia.
    + change (List.length cover_lines) with 15%nat. lia.
    + split; [exact Hskip|]. split; [exact Hresult|exact Hrows].
Defined.

Lemma link_row_of_panels_witness :
  link_line (artist_links radiohead)
  = (Colors.BLUE ++ _create_clickable_link (Image.url portrait) "Artist Photo"
       ++ Colors.RESET)
      ++ "   "
      ++ (Colors.BLUE ++ _create_clickable_link (Image.url portrait) "Artist Photo"
            ++ Colors.RESET).
Proof.
  refine (proj2 (proj2 (proj2 (proj2
            (link_row_of_panels (Artist.external_urls radiohead) radiohead portrait [])))
            _) _).
  - reflexivity.
  - reflexivity.
Defined.

(** A track too long for a [timedelta]. *)
Definition endless : Track.Track := song "Everything in Its Right Place" 1 (10 ^ 17).

Lemma display_all_or_nothing_witness :
  rows (display_track with_chafa (init 15) decimal_unicode14 strftime_Y_glibc
          endless (Some counting) 0%nat) = []
  /\ ((calls (display_track with_chafa (init 15) decimal_unicode14 strftime_Y_glibc
                endless (Some counting) 0%nat) = []
       /\ world (display_track with_chafa (init 15) decimal_unicode14 strftime_Y_glibc
                   endless (Some counting) 0%nat) = 0%nat
       /\ (_is_chafa_available with_chafa
           = Raised (OverflowError "days=1157407407; must have magnitude <= 999999999")
           \/ timedelta_milliseconds (Track.duration_ms endless)
              = Raised (OverflowError "days=1157407407; must have magnitude <= 999999999")
           \/ renderer_left with_chafa (init 15) (Album.images (Track.album endless))
                (OverflowError "days=1157407407; must have magnitude <= 999999999")))
      \/ lookup_left (Some counting) (Album.genres (Track.album endless))
           (Track.artists endless) 0%nat
           (OverflowError "days=1157407407; must have magnitude <= 999999999")).
Proof.
  refine (proj1 (display_all_or_nothing with_chafa (init 15) decimal_unicode14
                   strftime_Y_glibc endless ok_computer radiohead (Some counting) 0%nat
                   (OverflowError "days=1157407407; must have magnitude <= 999999999")) _).
  reflexivity.
Defined.

Lemma genres_lookup_witness :
  rows (display_track with_chafa (init 15) decimal_unicode14 strftime_Y_glibc paranoid_android
          (Some failing) 0%nat)
  = rows (display_track with_chafa (init 15) decimal_unicode14 strftime_Y_glibc paranoid_android None 0%nat)
  /\ result (display_track with_chafa (init 15) decimal_unicode14 strftime_Y_glibc paranoid_android
               (Some failing) 0%nat)
     = result (display_track with_chafa (init 15) decimal_unicode14 strftime_Y_glibc paranoid_android
                 None 0%nat)
  /\ (result (display_track with_chafa (init 15) decimal_unicode14 strftime_Y_glibc paranoid_android
                (Some failing) 0%nat) = Returned tt ->
      calls (display_track with_chafa (init 15) decimal_unicode14 strftime_Y_glibc paranoid_android
               (Some failing) 0%nat)
      = [GetArtist (Artist.id radiohead_brief)]
      /\ world (display_track with_chafa (init 15) decimal_unicode14 strftime_Y_glibc paranoid_android
                  (Some failing) 0%nat)
         = snd (get_artist failing (Artist.id radiohead_brief) 0%nat)).
Proof.
  refine (proj1 (proj2 (proj2
            (genres_lookup with_chafa (init 15) decimal_unicode14 strftime_Y_glibc paranoid_android
               ok_computer failing 0%nat)))
            radiohead_brief [] _ _ _).
  - reflexivity.
  - reflexivity.
  - reflexivity.
Defined.

Lemma artist_counts_dropped_witness :
  rows (display_artist with_chafa (init 15) radiohead (Some counting) 0%nat)
  = rows (display_artist with_chafa (init 15) radiohead
            (Some (without_albums counting)) 0%nat)
  /\ result (display_artist with_chafa (init 15) radiohead (Some counting) 0%nat)
     = result (display_artist with_chafa (init 15) radiohead
                 (Some (without_albums counting)) 0%nat).
Proof.
  refine (proj1 (proj2
            (artist_counts_dropped with_chafa (init 15) radiohead counting 0%nat))
            [paranoid_android] 1%nat [ok_computer] 2%nat
            (Exn "Exception" "API request failed: 429 - Too many requests") 3%nat _ _ _ _).
  - reflexivity.
  - reflexivity.
  - reflexivity.
  - reflexivity.
Defined.

End PanelExamples.

(* ================================================================= *)
(** ** The program *)

Section Program.
Import Json Config SearchHandler Main.

Variables W Track Album Artist : Type.
Variable new_client :
  option string -> option string -> SearchCommand.Client W Track Album Artist.
Variable new_formatter : Z -> SearchCommand.Formatter W Track Album Artist.

Lemma handle_auth_endings (k : AuthCommand.Keyboard) (h : Host) :
  fst (fst (AuthCommand.handle_auth k h)) = AuthCommand.Return
  \/ fst (fst (AuthCommand.handle_auth k h)) = AuthCommand.SysExit 0
  \/ fst (fst (AuthCommand.handle_auth k h)) = AuthCommand.SysExit 1
  \/ exists e, fst (fst (AuthCommand.handle_auth k h)) = AuthCommand.Raise e
               /\ is_exception e = false
               /\ exn_class e <> "KeyboardInterrupt".
Proof.
  assert (Hh : forall e written h0,
             fst (fst (AuthCommand.handler e written h0)) = AuthCommand.SysExit 0
             \/ fst (fst (AuthCommand.handler e written h0)) = AuthCommand.SysExit 1
             \/ exists e', fst (fst (AuthCommand.handler e written h0)) = AuthCommand.Raise e'
                           /\ is_exception e' = false
                           /\ exn_class e' <> "KeyboardInterrupt").
  { intros e written h0. unfold AuthCommand.handler.
    destruct (String.eqb (exn_class e) "KeyboardInterrupt") eqn:K; [auto|].
    destruct (is_exception e) eqn:X; [auto|].
    right. right. exists e. apply String.eqb_neq in K. auto. }
  unfold AuthCommand.handle_auth.
  destruct (AuthCommand.first_answer k) as [a1|e]; [|right; apply Hh].
  destruct (AuthCommand.second_answer k) as [a2|e]; [|right; apply Hh].
  destruct (negb (truthy_str (ImageRenderer.strip a1))
            || negb (truthy_str (ImageRenderer.strip a2)))%bool; [auto|].
  destruct (save_credentials h init (ImageRenderer.strip a1) (ImageRenderer.strip a2))
    as [[[u|e] c] h']; [auto|right; apply Hh].
Qed.

Lemma handle_search_endings (h : Host) (args : Args) (w : W) :
  let ended := fst (fst (handle_search new_client new_formatter h args w)) in
  ended = SearchCommand.Return tt \/ ended = SearchCommand.SysExit 1
  \/ exists e, ended = SearchCommand.Raise e
               /\ (load_config h = Raised e \/ is_exception e = false).
Proof.
  unfold handle_search.
  destruct (load_config h) as [config|e]; [|cbn; right; right; eauto].
  destruct (negb (has_credentials config)); [cbn; auto|].
  destruct (search_body_steps W Track Album Artist new_formatter
              (new_client (spotify_client_id config) (spotify_client_secret config))
              args w) as (r & w' & journal & E & Hr).
  rewrite E. cbn. destruct Hr as [-> | [[-> _] | (e & -> & He)]]; eauto 6.
Qed.

Lemma handler_endings (e : exn) :
  fst (handler Track Album Artist e) = SysExit 0
  \/ fst (handler Track Album Artist e) = SysExit 1
  \/ (fst (handler Track Album Artist e) = Uncaught e
      /\ is_exception e = false /\ exn_class e <> "KeyboardInterrupt").
Proof.
  unfold handler.
  destruct (String.eqb (exn_class e) "KeyboardInterrupt") eqn:K; [auto|].
  destruct (is_exception e) eqn:X; [auto|].
  apply String.eqb_neq in K. auto.
Qed.

(** X27. The program ends by returning or with exit status 0 or 1,
    unless something that is not an [Exception] leaves [main]; a
    keyboard interrupt does so only while the configuration is
    initialised: during a command it ends the program with
    "Operation cancelled." and status 0.  When the initialisation raises
    an [Exception], the program prints the failure and exits with status
    1 without running the command, whatever the command, and without a
    subcommand it does not get to the help; the host is then as it was,
    or, when it was the first write of the configuration file that
    failed, as that write left it. *)
Theorem main_exit_status (cmd : command) (k : AuthCommand.Keyboard) (h : Host) (w : W) :
  exists ended out h' w',
    main new_client new_formatter cmd k h w = (ended, out, h', w')
    /\ (ended = Return \/ ended = SysExit 0 \/ ended = SysExit 1
        \/ exists e, ended = Uncaught e
                     /\ is_exception e = false
                     /\ (exn_class e = "KeyboardInterrupt" ->
                         fst (init_config h) = Raised e))
    /\ (forall e, fst (init_config h) = Raised e ->
                  is_exception e = true ->
                  ended = SysExit 1
                  /\ out = [Line ("Failed to initialize config: " ++ exn_str e)]
                  /\ w' = w
                  /\ (h' = h
                      \/ (mkdir_error h = None /\ config_file h = None
                          /\ write_error h = Some e /\ h' = after_failed_write h)))
    /\ (forall args e w1 steps,
           cmd = Search args ->
           fst (init_config h) = Returned tt ->
           handle_search new_client new_formatter (snd (init_config h)) args w
           = (SearchCommand.Raise e, w1, steps) ->
           exn_class e = "KeyboardInterrupt" ->
           ended = SysExit 0
           /\ out = [BySearch steps; Line (String "010" "Operation cancelled.")]).
Proof.
  unfold main.
  assert (Hh : forall e, fst (init_config h) = Raised e ->
                         snd (init_config h) = h
                         \/ (mkdir_error h = None /\ config_file h = None
                             /\ write_error h = Some e
                             /\ snd (init_config h) = after_failed_write h)).
  { unfold init_config, write_file, after_failed_write, set_content.
    destruct (mkdir_error h); [now left|].
    destruct (config_file h); [now left|].
    destruct (write_error h) as [e0|]; [|discriminate].
    cbn. intros e [= <-]. right. repeat split. }
  destruct (init_config h) as [[u|e] h0] eqn:Hinit; cbn [fst snd] in *.
  - destruct cmd as [| |args].
    + eexists _, _, _, _. split; [reflexivity|]. split; [auto|].
      split; discriminate.
    + pose proof (handle_auth_endings k h0) as Ha.
      destruct (AuthCommand.handle_auth k h0) as [[ended out] h'].
      cbn [fst] in Ha.
      destruct Ha as [-> | [-> | [-> | (e & -> & He & Hk)]]];
        try (eexists _, _, _, _; split; [reflexivity|]; split; [auto|];
             split; discriminate).
      unfold handler. apply String.eqb_neq in Hk. rewrite Hk, He.
      eexists _, _, _, _. split; [reflexivity|]. split; [|split; discriminate].
      right. right. right. exists e. split; [reflexivity|]. split; [exact He|].
      intros Hc. apply String.eqb_neq in Hk. contradiction.
    + destruct (handle_search new_client new_formatter h0 args w)
        as [[ended w'] steps] eqn:Hrun.
      destruct ended as [[]|e|code].
      * eexists _, _, _, _. split; [reflexivity|]. split; [auto|].
        split; [discriminate|].
        intros args0 e0 w1 steps0 [= <-] _ Hr. rewrite Hrun in Hr. discriminate.
      * pose proof (handler_endings e) as He.
        destruct (handler Track Album Artist e) as [ended line] eqn:Hhandler.
        cbn [fst] in He.
        eexists _, _, _, _. split; [reflexivity|]. split; [|split; [discriminate|]].
        { destruct He as [-> | [-> | (-> & Hx & Hk)]]; auto.
          right. right. right. exists e. split; [reflexivity|]. split; [exact Hx|].
          intros Hc. contradiction. }
        intros args0 e0 w1 steps0 [= <-] _ Hr Hc. rewrite Hrun in Hr.
        injection Hr as <- <- <-.
        unfold handler in Hhandler. rewrite Hc in Hhandler. cbn in Hhandler.
        injection Hhandler as <- <-. split; reflexivity.
      * pose proof (handle_search_endings h0 args w) as Hs. cbv zeta in Hs.
        rewrite Hrun in Hs. cbn [fst] in Hs.
        eexists _, _, _, _. split; [reflexivity|].
        split; [|split; [discriminate|]].
        2:{ intros args0 e0 w1 steps0 [= <-] _ Hr. rewrite Hrun in Hr. discriminate. }
        destruct Hs as [Hs | [Hs | (e & Hs & _)]]; try discriminate.
        injection Hs as ->. auto.
  - destruct (is_exception e) eqn:He.
    + eexists _, _, _, _. split; [reflexivity|]. split; [auto|].
      split; [|discriminate].
      intros e' [= <-] _. repeat split; try reflexivity. exact (Hh e eq_refl).
    + eexists _, _, _, _. split; [reflexivity|]. split.
      * right. right. right. exists e. auto.
      * split; [|discriminate]. intros e' [= <-] He'. congruence.
Qed.

(** X28. The first search on a new machine: with no configuration file and
    no credentials in the environment, [search] leaves a configuration
    file with two empty credentials behind, prints the advice to run
    [auth] and exits with status 1; no client is built and nothing is
    searched. *)
Theorem first_run_search (args : Args) (k : AuthCommand.Keyboard) (h : Host) (w : W) :
  config_file h = None -> mkdir_error h = None -> write_error h = None ->
  ImageRenderer.strip (getenv h "MUFETCH_SPOTIFY_CLIENT_ID") = ""
  \/ ImageRenderer.strip (getenv h "MUFETCH_SPOTIFY_CLIENT_SECRET") = "" ->
  main new_client new_formatter (Search args) k h w
  = (SysExit 1,
     [BySearch
        [Wrote ("No Spotify credentials found!" ++ newline);
         Wrote ("Run 'python mufetch.py auth' to set up your API credentials." ++ newline)]],
     set_config_file h
       (JDict [("spotify_client_id", JStr ""); ("spotify_client_secret", JStr "")]),
     w).
Proof.
  intros Hfile Hmkdir Hwrite Henv.
  unfold main, init_config, write_file. rewrite Hmkdir, Hfile, Hwrite.
  unfold handle_search.
  assert (Hload : exists config,
             load_config
               (set_config_file h
                  (JDict [("spotify_client_id", JStr "");
                          ("spotify_client_secret", JStr "")]))
             = Returned config /\ has_credentials config = false).
  { pose proof (load_after_write h "" "") as Hl.
    change (ImageRenderer.strip "") with "" in Hl. cbn [truthy_str] in Hl.
    eexists. split; [exact Hl|].
    unfold has_credentials. cbn [spotify_client_id spotify_client_secret truthy_opt].
    destruct Henv as [-> | ->]; [reflexivity|apply andb_false_r]. }
  destruct Hload as (config & -> & ->). reflexivity.
Qed.

(** X29. After an [auth] whose two answers are not blank and whose file
    could be written, the next [search] builds its client with exactly
    the two stripped answers, whatever the file held before and whatever
    the environment holds; it hides the cursor next and ends by
    returning or with exit status 1.  Only a search that is left by what
    is not an [Exception] ends otherwise: a keyboard interrupt with the
    line "Operation cancelled." and status 0, anything else by leaving
    the program. *)
Theorem auth_then_search (k k' : AuthCommand.Keyboard) (h : Host) (w : W)
  (id secret : string) (args : Args) :
  mkdir_error h = None -> write_error h = None ->
  AuthCommand.first_answer k = Returned id ->
  AuthCommand.second_answer k = Returned secret ->
  ImageRenderer.strip id <> "" -> ImageRenderer.strip secret <> "" ->
  exists out h1,
    main new_client new_formatter Auth k h w = (Return, [ByAuth out], h1, w)
    /\ exists ended steps rest w',
         main new_client new_formatter (Search args) k' h1 w
         = (ended,
            BySearch (NewClient (Some (ImageRenderer.strip id))
                        (Some (ImageRenderer.strip secret))
                      :: Wrote hide_cursor :: steps) :: rest,
            h1, w')
         /\ ((ended = Return /\ rest = [])
             \/ (ended = SysExit 1 /\ rest = [])
             \/ (ended = SysExit 0
                 /\ rest = [Line (String "010" "Operation cancelled.")])
             \/ (exists e, ended = Uncaught e /\ rest = []
                           /\ is_exception e = false
                           /\ exn_class e <> "KeyboardInterrupt")).
Proof.
  intros Hmkdir Hwrite H1 H2 Hid Hsecret.
  assert (Hinit : exists h0, init_config h = (Returned tt, h0)
                             /\ mkdir_error h0 = None /\ write_error h0 = None
                             /\ env h0 = env h).
  { unfold init_config, write_file. rewrite Hmkdir, Hwrite.
    destruct (config_file h); eexists; (split; [reflexivity|]); cbn; auto. }
  destruct Hinit as (h0 & Hinit & Hmkdir0 & Hwrite0 & Henv0).
  unfold main at 1. rewrite Hinit.
  unfold AuthCommand.handle_auth. rewrite H1, H2.
  rewrite (truthy_str_neq _ Hid), (truthy_str_neq _ Hsecret). cbn [negb orb].
  unfold save_credentials, write_file. rewrite Hwrite0.
  rewrite !strip_idempotent.
  eexists _, _. split; [reflexivity|].
  unfold main, init_config.
  change (mkdir_error (set_config_file h0 _)) with (mkdir_error h0).
  rewrite Hmkdir0.
  change (config_file (set_config_file h0 ?data)) with (Some (Returned data)).
  cbv iota beta.
  unfold handle_search.
  rewrite load_after_write.
  rewrite (truthy_str_neq _ Hid), (truthy_str_neq _ Hsecret).
  unfold has_credentials. cbn [spotify_client_id spotify_client_secret truthy_opt].
  rewrite (truthy_str_neq _ Hid), (truthy_str_neq _ Hsecret). cbn [andb negb].
  destruct (search_body_steps W Track Album Artist new_formatter
              (new_client (Some (ImageRenderer.strip id))
                 (Some (ImageRenderer.strip secret))) args w)
    as (r & w' & journal & E & Hr).
  rewrite E.
  destruct Hr as [-> | [[-> _] | (e & -> & He)]].
  - eexists _, _, _, _. split; [reflexivity|]. auto.
  - eexists _, _, _, _. split; [reflexivity|]. auto.
  - unfold handler.
    destruct (String.eqb (exn_class e) "KeyboardInterrupt") eqn:K.
    + eexists _, _, _, _. split; [reflexivity|]. auto.
    + rewrite He. eexists _, _, _, _. split; [reflexivity|].
      right. right. right. exists e. apply String.eqb_neq in K. auto.
Qed.

End Program.

Section ProgramExamples.
Import Json Config SearchHandler Main.

(** A machine on which the configuration directory cannot be made. *)
Definition read_only : Host :=
  {| config_file := None;
     env := fun _ => None;
     mkdir_error :=
       Some (Exn "PermissionError" "[Errno 13] Permission denied: '/home/user/.config'");
     write_error := None;
     left_behind := None |}.

Lemma main_exit_status_witness :
  exists ended out h' w',
    main (fun _ _ => jukebox) (fun _ => screen) NoCommand (typed "" "") read_only tt
    = (ended, out, h', w')
    /\ ended = SysExit 1
    /\ out = [Line ("Failed to initialize config: "
                      ++ "[Errno 13] Permission denied: '/home/user/.config'")]
    /\ w' = tt
    /\ (h' = read_only
        \/ (mkdir_error read_only = None /\ config_file read_only = None
            /\ write_error read_only
               = Some (Exn "PermissionError"
                         "[Errno 13] Permission denied: '/home/user/.config'")
            /\ h' = after_failed_write read_only)).
Proof.
  destruct (main_exit_status unit unit unit unit (fun _ _ => jukebox) (fun _ => screen)
              NoCommand (typed "" "") read_only tt)
    as (ended & out & h' & w' & Hrun & _ & Hfail & _).
  exists ended, out, h', w'. split; [exact Hrun|].
  apply (Hfail (Exn "PermissionError" "[Errno 13] Permission denied: '/home/user/.config'")).
  - reflexivity.
  - reflexivity.
Defined.

Lemma first_run_search_witness :
  main (fun _ _ => jukebox) (fun _ => screen) (Search (asked "auto" 20)) (typed "" "")
    fresh_host tt
  = (SysExit 1,
     [BySearch
        [Wrote ("No Spotify credentials found!" ++ newline);
         Wrote ("Run 'python mufetch.py auth' to set up your API credentials." ++ newline)]],
     set_config_file fresh_host
       (JDict [("spotify_client_id", JStr ""); ("spotify_client_secret", JStr "")]),
     tt).
Proof.
  apply (first_run_search unit unit unit unit (fun _ _ => jukebox) (fun _ => screen)
           (asked "auto" 20) (typed "" "") fresh_host tt).
  - reflexivity.
  - reflexivity.
  - reflexivity.
  - left. reflexivity.
Defined.

Lemma auth_then_search_witness :
  exists out h1,
    main (fun _ _ => jukebox) (fun _ => screen) Auth
      (typed " 0a1b2c3d4e5f " "f6e5d4c3b2a1") fresh_host tt
    = (Return, [ByAuth out], h1, tt)
    /\ exists ended steps rest w',
         main (fun _ _ => jukebox) (fun _ => screen) (Search (asked "track" 20))
           (typed "" "") h1 tt
         = (ended,
            BySearch (NewClient (Some (ImageRenderer.strip " 0a1b2c3d4e5f "))
                        (Some (ImageRenderer.strip "f6e5d4c3b2a1"))
                      :: Wrote hide_cursor :: steps) :: rest,
            h1, w')
         /\ ((ended = Return /\ rest = [])
             \/ (ended = SysExit 1 /\ rest = [])
             \/ (ended = SysExit 0
                 /\ rest = [Line (String "010" "Operation cancelled.")])
             \/ (exists e, ended = Uncaught e /\ rest = []
                           /\ is_exception e = false
                           /\ exn_class e <> "KeyboardInterrupt")).
Proof.
  apply (auth_then_search unit unit unit unit (fun _ _ => jukebox) (fun _ => screen)
           (typed " 0a1b2c3d4e5f " "f6e5d4c3b2a1") (typed "" "") fresh_host tt
           " 0a1b2c3d4e5f " "f6e5d4c3b2a1" (asked "track" 20)).
  - reflexivity.
  - reflexivity.
  - reflexivity.
  - reflexivity.
  - vm_compute. discriminate.
  - vm_compute. discriminate.
Defined.

End ProgramExamples.

(* ================================================================= *)
(** ** The artist parser *)

Section ArtistParser.
Import Json Parsers.

(** [data.get(k, default)] on the items of a dict. *)
Definition field (entries : list (string * json)) (k : string) (default : json) : json :=
  match lookup entries k with
  | Some v => v
  | None => default
  end.

Definition image_of (entries : list (string * json)) : Image.Image :=
  {| Image.url := field entries "url" (JStr "");
     Image.height := field entries "height" (JNum 0);
     Image.width := field entries "width" (JNum 0) |}.

Definition no_get (j : json) : exn :=
  Exn "AttributeError" ("'" ++ type_name j ++ "' object has no attribute 'get'").

Lemma get_field (entries : list (string * json)) (k : string) (default : json) :
  get (JDict entries) k default = Returned (field entries k default).
Proof. unfold get, field. destruct (lookup entries k); reflexivity. Qed.

Lemma parse_images (imgs : list (list (string * json))) :
  comprehension _parse_image (map JDict imgs) = Returned (map image_of imgs).
Proof.
  induction imgs as [|img imgs IH]; [reflexivity|].
  cbn [map comprehension]. unfold _parse_image at 1.
  rewrite !get_field. cbn [bind]. rewrite IH. reflexivity.
Qed.

(** X30. [_parse_artist] on the payload of an artist.  A payload that is not
    an object raises [AttributeError].  A key that is missing gets its
    default, but a key that is present with [null] keeps it, and the
    parser then raises: [TypeError] for the images, which it iterates,
    [AttributeError] for the external addresses and the followers, which
    it reads with [get].  With a list of objects for the images and
    objects for the two others, where present, the parser returns, and
    every field is the value of the payload or the default. *)
Theorem parse_artist_payload (entries : list (string * json)) :
  (forall j, (forall d, j <> JDict d) -> _parse_artist j = Raised (no_get j))
  /\ (lookup entries "images" = Some JNull ->
      _parse_artist (JDict entries)
      = Raised (Exn "TypeError" "'NoneType' object is not iterable"))
  /\ (forall imgs,
        field entries "images" (JList []) = JList (map JDict imgs) ->
        (lookup entries "external_urls" = Some JNull ->
         _parse_artist (JDict entries) = Raised (no_get JNull))
        /\ (forall urls,
              field entries "external_urls" (JDict []) = JDict urls ->
              (lookup entries "followers" = Some JNull ->
               _parse_artist (JDict entries) = Raised (no_get JNull))
              /\ (forall counts,
                    field entries "followers" (JDict []) = JDict counts ->
                    _parse_artist (JDict entries)
                    = Returned
                        {| Artist.id := field entries "id" (JStr "");
                           Artist.name := field entries "name" (JStr "");
                           Artist.images := map image_of imgs;
                           Artist.genres := field entries "genres" (JList []);
                           Artist.popularity := field entries "popularity" (JNum 0);
                           Artist.followers :=
                             {| Followers.total := field counts "total" (JNum 0) |};
                           Artist.external_urls :=
                             {| ExternalURL.spotify := field urls "spotify" (JStr "") |};
                           Artist.type := field entries "type" (JStr "artist") |}))).
Proof.
  split; [|split].
  - intros j Hj. destruct j; try reflexivity. now destruct (Hj d).
  - intros Himg. unfold _parse_artist. rewrite get_field. unfold field.
    rewrite Himg. reflexivity.
  - intros imgs Himg.
    assert (Hhead : forall k : list Image.Image -> outcome Artist.Artist,
               bind (get (JDict entries) "images" (JList []))
                 (fun images_data =>
                    bind (iterate images_data) (fun items =>
                    bind (comprehension _parse_image items) k))
               = k (map image_of imgs)).
    { intros k. rewrite get_field, Himg. cbn [bind iterate].
      rewrite parse_images. reflexivity. }
    split.
    + intros Hurls. unfold _parse_artist. rewrite Hhead.
      rewrite get_field. unfold field at 1. rewrite Hurls. reflexivity.
    + intros urls Hurls. split.
      * intros Hfol. unfold _parse_artist. rewrite Hhead.
        rewrite get_field, Hurls. cbn [bind]. unfold _parse_external_urls.
        rewrite get_field. cbn [bind].
        rewrite get_field. unfold field at 1. rewrite Hfol. reflexivity.
      * intros counts Hfol. unfold _parse_artist. rewrite Hhead.
        rewrite get_field, Hurls. cbn [bind]. unfold _parse_external_urls.
        rewrite get_field. cbn [bind].
        rewrite get_field, Hfol. cbn [bind]. unfold _parse_followers.
        rewrite !get_field. reflexivity.
Qed.

(** An artist of a track in a search result: no images, no followers;
    and one whose followers are [null]. *)
Definition brief_artist : list (string * json) :=
  [("external_urls",
    JDict [("spotify", JStr "https://open.spotify.com/artist/4Z8W4fKeB5YxbusRsdQVPb")]);
   ("id", JStr "4Z8W4fKeB5YxbusRsdQVPb");
   ("name", JStr "Radiohead");
   ("type", JStr "artist")].

Lemma parse_artist_payload_witness :
  _parse_artist (JDict (("followers", JNull) :: brief_artist)) = Raised (no_get JNull).
Proof.
  refine (proj1 (proj2 (proj2 (proj2
            (parse_artist_payload (("followers", JNull) :: brief_artist))) [] _)
            [("spotify", JStr "https://open.spotify.com/artist/4Z8W4fKeB5YxbusRsdQVPb")] _)
            _).
  - reflexivity.
  - reflexivity.
  - reflexivity.
Defined.

End ArtistParser.
